(** * trader-bot: risk gate and trade-lifecycle scheduler

    A shallow embedding of [src/risk_manager.py] and of the trade-lifecycle
    part of [src/poller.py], with the properties stated for them.

    Conventions of the embedding.
    - The amounts kept in the state of the risk manager, the poller and
      the broker are exact rationals ([Q]), compared with [Qeq] ([==]);
      what is proved of them is counting, bookkeeping and control flow.
    - Position sizing and trade validation decide by comparing computed
      doubles, so [calculate_position_size] and [validate_trade_risk]
      compute in IEEE 754 binary64 ([PrimFloat.float]), with Python's
      operations on it in [PyFloat]; they read an amount of the state as
      the double nearest to it, which for fields holding doubles is what
      the float addition of [get_current_capital] returns.
    - [int(x)] on a float truncates toward zero: [PyFloat.int] on a
      double, [Py.int] on a rational.
    - [x / y] raises [ZeroDivisionError] when [y] is zero: [PyFloat.div]
      and [Py.div] return [None] there, and every
      [try ... except Exception] of the source is an explicit match on
      that [None].
    - [datetime.now()] is a parameter of each operation; a naive datetime
      is a calendar day and a number of microseconds since midnight.
    - Dictionaries keep their insertion order and are association lists
      with unique keys.
    - The broker, the decision oracle, the screener and the trade logger
      are collaborators of the poller: a class of operations over an
      abstract state of the outside world.  The poller's operations pass
      a [System] along (the poller, the world and the trace of the calls
      made), so the calls a test spy would count can be read off the
      trace. *)

From Stdlib Require Import ZArith QArith Qround Qabs Lia Lqa List String Bool.
From Stdlib Require Import Floats.
Import ListNotations.
Open Scope Q_scope.

Set Warnings "-inexact-float".

(* ================================================================== *)
(** ** Python numerics *)

Module Py.

(** [int(x)]: truncation toward zero. *)
Definition int (x : Q) : Z := Z.quot (Qnum x) (Zpos (Qden x)).

(** [x / y], [None] standing for [ZeroDivisionError]. *)
Definition div (x y : Q) : option Q :=
  if Qeq_dec y 0 then None else Some (x / y).

(** [max(a, b)]: the first argument unless the second is strictly larger. *)
Definition max (a b : Q) : Q := if Qlt_le_dec a b then b else a.

(** [sum(xs)]: left fold starting from [0]. *)
Definition sum (xs : list Q) : Q := fold_left Qplus xs 0.

End Py.

(** Python's [float] is IEEE 754 binary64; [+], [-], [*], [abs] and the
    comparisons never raise and are the operations of [PrimFloat]. *)
Module PyFloat.

(** [int(x)]: truncation toward zero; [None] stands for the
    [OverflowError] of an infinity and the [ValueError] of a NaN. *)
Definition int (x : float) : option Z :=
  match Prim2SF x with
  | S754_zero _ => Some 0%Z
  | S754_finite s m e =>
      let magnitude :=
        match e with
        | Z0 => Zpos m
        | Zpos _ => Z.shiftl (Zpos m) e
        | Zneg _ => Z.shiftr (Zpos m) (- e)
        end in
      Some (if s then (- magnitude)%Z else magnitude)
  | S754_infinity _ => None
  | S754_nan => None
  end.

(** The conversion of an [int] operand of [n * x]: the nearest double,
    ties to even; [None] stands for the [OverflowError] of an integer
    beyond the largest double. *)
Definition of_int (n : Z) : option float :=
  match binary_normalize prec emax n 0 false with
  | S754_infinity _ => None
  | f => Some (SF2Prim f)
  end.

(** [x / y], [None] standing for [ZeroDivisionError]. *)
Definition div (x y : float) : option float :=
  if (y =? 0)%float then None else Some (x / y)%float.

(** The double nearest to a rational, ties to even: how a decimal literal
    or an amount of the state is read. *)
Definition of_Q (q : Q) : float :=
  let nearest (negative : bool) (n : positive) : float :=
    let '(m, e, l) := SFdiv_core_binary prec emax (Zpos n) 0 (Zpos (Qden q)) 0 in
    SF2Prim (binary_round_aux prec emax negative m e l) in
  match Qnum q with
  | Z0 => 0%float
  | Zpos n => nearest false n
  | Zneg n => nearest true n
  end.

End PyFloat.

(* ================================================================== *)
(** ** Naive datetimes *)

Record datetime : Type := mkDatetime {
  dt_date : Z;        (* proleptic ordinal of the calendar day *)
  dt_micros : Z       (* microseconds since midnight, 0 <= _ < 86400000000 *)
}.

Definition micros_per_second : Z := 1000000.

(** [now.hour] *)
Definition dt_hour (now : datetime) : Z :=
  (dt_micros now / (3600 * micros_per_second))%Z.

(** [now.replace(hour=h, minute=m, second=0, microsecond=0)] *)
Definition dt_replace_hm (now : datetime) (h m : Z) : datetime :=
  {| dt_date := dt_date now;
     dt_micros := ((h * 3600 + m * 60) * micros_per_second)%Z |}.

(** [a - b] as a timedelta, in microseconds. *)
Definition dt_sub (a b : datetime) : Z :=
  ((dt_date a - dt_date b) * (86400 * micros_per_second)
   + (dt_micros a - dt_micros b))%Z.

(** [timedelta.total_seconds()] *)
Definition total_seconds (delta : Z) : Q := inject_Z delta / inject_Z micros_per_second.

(** [a >= b] on datetimes: lexicographic on day, then time of day. *)
Definition dt_geb (a b : datetime) : bool :=
  (dt_date b <? dt_date a)%Z
  || ((dt_date a =? dt_date b)%Z && (dt_micros b <=? dt_micros a)%Z).

(* ================================================================== *)
(** ** risk_manager.py *)

(** The entries of [daily_trades] built by [record_trade_outcome]. *)
Record TradeRecord : Type := mkTradeRecord {
  tr_symbol : string;
  tr_timestamp : datetime;
  tr_entry_price : Q;
  tr_exit_price : Q;
  tr_quantity : Z;
  tr_transaction_type : string;
  tr_pnl : Q;
  tr_pnl_pct : Q;
  tr_is_loss : bool
}.

(** [rejection_reason] of [RiskMetrics]; the formatted numbers of the
    source's f-strings are kept as arguments. *)
Inductive Rejection : Type :=
| InvalidStopLossPrice
| RRBelowMinimum (rr min_rr : float)
| CannotCalculatePositionSize
| CapitalAtRiskExceedsLimit (pct limit : float)
| ErrorInRiskValidation.

Record RiskMetrics : Type := mkRiskMetrics {
  position_size : Z;
  risk_amount : float;
  reward_amount : float;
  risk_reward_ratio : float;
  capital_at_risk_pct : float;
  is_within_limits : bool;
  rejection_reason : option Rejection
}.

(** The [risk_status] strings; [MAX_DAILY_LOSSES_STATUS] is the string
    "MAX_DAILY_LOSSES", named apart from the configuration field. *)
Inductive RiskStatus : Type :=
| NORMAL
| MAX_TRADES_REACHED
| MAX_DAILY_LOSSES_STATUS
| MAX_DRAWDOWN_EXCEEDED
| NEAR_MARKET_CLOSE
| ERROR.

Record AccountRisk : Type := mkAccountRisk {
  total_capital : Q;
  available_capital : Q;
  used_capital : Q;
  ar_daily_pnl : Q;
  ar_daily_loss_count : Z;
  ar_max_drawdown_today : Q;
  active_trades_count : Z;
  is_trading_allowed : bool;
  risk_status : RiskStatus
}.

(** The only attribute of a broker position the risk manager reads. *)
Record Position : Type := mkPosition {
  pos_symbol : string;
  pos_quantity : Z;
  pos_average_price : Q;
  pos_transaction_type : string;
  unrealized_pnl : Q
}.

(** [self] of [RiskManager]: the risk parameters copied from the
    configuration, then the current state. *)
Record RiskManager : Type := mkRiskManager {
  initial_capital : Q;
  max_capital_per_trade : Q;
  max_active_trades : Z;
  max_daily_losses : Z;
  max_daily_drawdown : Q;
  min_risk_reward : Q;
  daily_trades : list TradeRecord;
  daily_pnl : Q;
  daily_loss_count : Z;
  max_drawdown_today : Q;
  start_of_day_capital : Q;
  last_reset_date : Z
}.

(** The fields of [TradingBotConfig] the two modules read. *)
Record TradingBotConfig : Type := mkConfig {
  INITIAL_CAPITAL : Q;
  MAX_CAPITAL_PER_TRADE : Q;
  MAX_ACTIVE_TRADES : Z;
  MAX_DAILY_LOSSES : Z;
  MAX_DAILY_DRAWDOWN : Q;
  MIN_RISK_REWARD_RATIO : Q;
  MARKET_OPEN_HOUR : Z;
  MARKET_OPEN_MINUTE : Z;
  FORCE_EXIT_HOUR : Z;
  FORCE_EXIT_MINUTE : Z;
  INACTIVE_POLL_INTERVAL : Z;
  ACTIVE_POLL_INTERVAL : Z
}.

(** The defaults of [config.py]. *)
Definition default_config : TradingBotConfig :=
  {| INITIAL_CAPITAL := 100000;
     MAX_CAPITAL_PER_TRADE := 1 # 100;
     MAX_ACTIVE_TRADES := 2;
     MAX_DAILY_LOSSES := 3;
     MAX_DAILY_DRAWDOWN := 5 # 100;
     MIN_RISK_REWARD_RATIO := 3 # 2;
     MARKET_OPEN_HOUR := 9;
     MARKET_OPEN_MINUTE := 15;
     FORCE_EXIT_HOUR := 15;
     FORCE_EXIT_MINUTE := 10;
     INACTIVE_POLL_INTERVAL := 600;
     ACTIVE_POLL_INTERVAL := 60 |}.

Module risk_manager.

(** [RiskManager.__init__] *)
Definition init (config : TradingBotConfig) (now : datetime) : RiskManager :=
  {| initial_capital := INITIAL_CAPITAL config;
     max_capital_per_trade := MAX_CAPITAL_PER_TRADE config;
     max_active_trades := MAX_ACTIVE_TRADES config;
     max_daily_losses := MAX_DAILY_LOSSES config;
     max_daily_drawdown := MAX_DAILY_DRAWDOWN config;
     min_risk_reward := MIN_RISK_REWARD_RATIO config;
     daily_trades := [];
     daily_pnl := 0;
     daily_loss_count := 0;
     max_drawdown_today := 0;
     start_of_day_capital := INITIAL_CAPITAL config;
     last_reset_date := dt_date now |}.

(** Field updates of [self]. *)
Definition with_daily (self : RiskManager) (trades : list TradeRecord)
    (pnl : Q) (losses : Z) (drawdown sod : Q) (reset_date : Z) : RiskManager :=
  {| initial_capital := initial_capital self;
     max_capital_per_trade := max_capital_per_trade self;
     max_active_trades := max_active_trades self;
     max_daily_losses := max_daily_losses self;
     max_daily_drawdown := max_daily_drawdown self;
     min_risk_reward := min_risk_reward self;
     daily_trades := trades;
     daily_pnl := pnl;
     daily_loss_count := losses;
     max_drawdown_today := drawdown;
     start_of_day_capital := sod;
     last_reset_date := reset_date |}.

Definition set_daily_pnl (self : RiskManager) (pnl : Q) : RiskManager :=
  with_daily self (daily_trades self) pnl (daily_loss_count self)
    (max_drawdown_today self) (start_of_day_capital self) (last_reset_date self).

Definition set_max_drawdown_today (self : RiskManager) (d : Q) : RiskManager :=
  with_daily self (daily_trades self) (daily_pnl self) (daily_loss_count self)
    d (start_of_day_capital self) (last_reset_date self).

(** [get_current_capital] *)
Definition get_current_capital (self : RiskManager) : Q :=
  initial_capital self + daily_pnl self.

(** [reset_daily_metrics]: the assignments are made in the source's order,
    so [get_current_capital] already sees the zeroed [daily_pnl]. *)
Definition reset_daily_metrics (now : datetime) (self : RiskManager) : RiskManager :=
  let today := dt_date now in
  if (today =? last_reset_date self)%Z then self
  else
    let self1 := with_daily self [] 0 0 0 (start_of_day_capital self)
                   (last_reset_date self) in
    with_daily self1 (daily_trades self1) (daily_pnl self1)
      (daily_loss_count self1) (max_drawdown_today self1)
      (get_current_capital self1) today.

(** The amounts [calculate_position_size] and [validate_trade_risk] read
    from the manager, as the doubles they compute with. *)
Definition current_capital_float (self : RiskManager) : float :=
  PyFloat.of_Q (get_current_capital self).

Definition max_capital_per_trade_float (self : RiskManager) : float :=
  PyFloat.of_Q (max_capital_per_trade self).

Definition min_risk_reward_float (self : RiskManager) : float :=
  PyFloat.of_Q (min_risk_reward self).

(** The body of [calculate_position_size] inside its [try]; [None] is a
    raised exception. *)
Definition calculate_position_size_body (self : RiskManager)
    (entry_price stop_loss : float) (risk_amount : option float)
    : option (Z * float) :=
  let current_capital := current_capital_float self in
  let risk_amount :=
    match risk_amount with
    | None => (current_capital * max_capital_per_trade_float self)%float
    | Some r => r
    end in
  let risk_per_share := abs (entry_price - stop_loss)%float in
  if (risk_per_share <=? 0)%float then Some (0%Z, 0%float)
  else
    match PyFloat.div risk_amount risk_per_share with
    | None => None
    | Some ratio =>
        match PyFloat.int ratio with
        | None => None
        | Some max_quantity =>
            match PyFloat.of_int max_quantity with
            | None => None
            | Some uncapped =>
                let max_value := (uncapped * entry_price)%float in
                let max_capital_limit := (current_capital * 0.9)%float in
                match
                  (if (max_capital_limit <? max_value)%float then
                     match PyFloat.div max_capital_limit entry_price with
                     | None => None
                     | Some capped => PyFloat.int capped
                     end
                   else Some max_quantity)
                with
                | None => None
                | Some max_quantity =>
                    match PyFloat.of_int max_quantity with
                    | None => None
                    | Some shares =>
                        let actual_risk := (shares * risk_per_share)%float in
                        Some (max_quantity, actual_risk)
                    end
                end
            end
        end
    end.

(** [calculate_position_size]: an exception gives [(0, 0.0)]. *)
Definition calculate_position_size (self : RiskManager)
    (entry_price stop_loss : float) (risk_amount : option float) : Z * float :=
  match calculate_position_size_body self entry_price stop_loss risk_amount with
  | Some r => r
  | None => (0%Z, 0%float)
  end.


(** [is_near_market_close] *)
Definition is_near_market_close (now : datetime) : bool :=
  if (15 <=? dt_hour now)%Z then true
  else
    let close_time := dt_replace_hm now 15 0 in
    let time_to_close := dt_sub close_time now in
    if Qlt_le_dec (total_seconds time_to_close) 600 then true else false.

(** [validate_trade_risk]; the state is returned because the call starts
    with [reset_daily_metrics].  [symbol] is only read by the error log
    and [confidence] is not read.  [quantity * entry_price] and
    [quantity * reward_per_share] convert the same [quantity]. *)
Definition validate_trade_risk (now : datetime) (self : RiskManager)
    (symbol : string) (entry_price stop_loss target_price confidence : float)
    : RiskManager * RiskMetrics :=
  let self := reset_daily_metrics now self in
  let risk_per_share := abs (entry_price - stop_loss)%float in
  let reward_per_share := abs (target_price - entry_price)%float in
  let rejected (ratio : float) (reason : Rejection) :=
    mkRiskMetrics 0 0%float 0%float ratio 0%float false (Some reason) in
  let on_error := rejected 0%float ErrorInRiskValidation in
  if (risk_per_share <=? 0)%float then
    (self, rejected 0%float InvalidStopLossPrice)
  else
    match PyFloat.div reward_per_share risk_per_share with
    | None => (self, on_error)
    | Some risk_reward_ratio =>
        if (risk_reward_ratio <? min_risk_reward_float self)%float then
          (self, rejected risk_reward_ratio
                   (RRBelowMinimum risk_reward_ratio (min_risk_reward_float self)))
        else
          let '(quantity, risk_amount) :=
            calculate_position_size self entry_price stop_loss None in
          if (quantity <=? 0)%Z then
            (self, rejected risk_reward_ratio CannotCalculatePositionSize)
          else
            match PyFloat.of_int quantity with
            | None => (self, on_error)
            | Some shares =>
                let reward_amount := (shares * reward_per_share)%float in
                let current_capital := current_capital_float self in
                match PyFloat.div risk_amount current_capital with
                | None => (self, on_error)
                | Some capital_at_risk_pct =>
                    if (max_capital_per_trade_float self <? capital_at_risk_pct)%float
                    then
                      (self, mkRiskMetrics quantity risk_amount reward_amount
                               risk_reward_ratio capital_at_risk_pct false
                               (Some (CapitalAtRiskExceedsLimit capital_at_risk_pct
                                        (max_capital_per_trade_float self))))
                    else
                      (self, mkRiskMetrics quantity risk_amount reward_amount
                               risk_reward_ratio capital_at_risk_pct true None)
                end
            end
    end.

(** The [except] branch of [check_trading_allowed]. *)
Definition error_account_risk (self : RiskManager) : AccountRisk :=
  {| total_capital := initial_capital self;
     available_capital := 0;
     used_capital := 0;
     ar_daily_pnl := 0;
     ar_daily_loss_count := 999;
     ar_max_drawdown_today := 1;
     active_trades_count := 0;
     is_trading_allowed := false;
     risk_status := ERROR |}.

(** The [if]/[elif] chain of [check_trading_allowed]. *)
Definition trading_status (now : datetime) (self : RiskManager)
    (active_trades : Z) : bool * RiskStatus :=
  if (max_active_trades self <=? active_trades)%Z then (false, MAX_TRADES_REACHED)
  else if (max_daily_losses self <=? daily_loss_count self)%Z
       then (false, MAX_DAILY_LOSSES_STATUS)
  else if Qle_bool (max_daily_drawdown self) (max_drawdown_today self)
       then (false, MAX_DRAWDOWN_EXCEEDED)
  else if is_near_market_close now then (false, NEAR_MARKET_CLOSE)
  else (true, NORMAL).

(** [check_trading_allowed]; [active_positions] is the dictionary handed
    in by the caller, in its iteration order.  The assignments made before
    an exception stay in [self]. *)
Definition check_trading_allowed (now : datetime) (self : RiskManager)
    (active_positions : list (string * Position)) : RiskManager * AccountRisk :=
  let self := reset_daily_metrics now self in
  let current_capital := get_current_capital self in
  let active_trades := Z.of_nat (List.length active_positions) in
  let total_unrealized_pnl :=
    Py.sum (map (fun kv => unrealized_pnl (snd kv)) active_positions) in
  let self := set_daily_pnl self total_unrealized_pnl in
  let drawdown_step :=
    if Qlt_le_dec current_capital (start_of_day_capital self) then
      match Py.div (start_of_day_capital self - current_capital)
                   (start_of_day_capital self) with
      | None => None
      | Some current_drawdown =>
          Some (set_max_drawdown_today self
                  (Py.max (max_drawdown_today self) current_drawdown))
      end
    else Some self in
  match drawdown_step with
  | None => (self, error_account_risk self)
  | Some self =>
      let '(allowed, status) := trading_status now self active_trades in
      (self,
       {| total_capital := initial_capital self;
          available_capital := current_capital;
          used_capital := initial_capital self - current_capital;
          ar_daily_pnl := daily_pnl self;
          ar_daily_loss_count := daily_loss_count self;
          ar_max_drawdown_today := max_drawdown_today self;
          active_trades_count := active_trades;
          is_trading_allowed := allowed;
          risk_status := status |})
  end.

(** [record_trade_outcome]; the returned dictionary is [None] for the
    empty one of the [except] branch. *)
Definition record_trade_outcome (now : datetime) (self : RiskManager)
    (symbol : string) (entry_price exit_price : Q) (quantity : Z)
    (transaction_type : string) : RiskManager * option TradeRecord :=
  let pnl :=
    if String.eqb transaction_type "BUY"
    then (exit_price - entry_price) * inject_Z quantity
    else (entry_price - exit_price) * inject_Z quantity in
  match Py.div pnl (entry_price * inject_Z quantity) with
  | None => (self, None)
  | Some ratio =>
      let pnl_pct := ratio * 100 in
      let is_loss := if Qlt_le_dec pnl 0 then true else false in
      let trade_record :=
        mkTradeRecord symbol now entry_price exit_price quantity
          transaction_type pnl pnl_pct is_loss in
      let self1 :=
        with_daily self (daily_trades self ++ [trade_record])
          (daily_pnl self + pnl) (daily_loss_count self)
          (max_drawdown_today self) (start_of_day_capital self)
          (last_reset_date self) in
      let self2 :=
        if is_loss then
          with_daily self1 (daily_trades self1) (daily_pnl self1)
            (daily_loss_count self1 + 1)%Z
            (max_drawdown_today self1) (start_of_day_capital self1)
            (last_reset_date self1)
        else self1 in
      (self2, Some trade_record)
  end.

(** *** Runs of the risk manager

    The calls the rest of the program makes on the one [RiskManager],
    each at its own instant. *)
Inductive Call : Type :=
| ResetDailyMetrics
| ValidateTradeRisk (symbol : string)
    (entry_price stop_loss target_price confidence : float)
| CheckTradingAllowed (active_positions : list (string * Position))
| RecordTradeOutcome (symbol : string) (entry_price exit_price : Q)
    (quantity : Z) (transaction_type : string).

Definition perform (now : datetime) (c : Call) (self : RiskManager) : RiskManager :=
  match c with
  | ResetDailyMetrics => reset_daily_metrics now self
  | ValidateTradeRisk symbol entry_price stop_loss target_price confidence =>
      fst (validate_trade_risk now self symbol entry_price stop_loss
             target_price confidence)
  | CheckTradingAllowed active_positions =>
      fst (check_trading_allowed now self active_positions)
  | RecordTradeOutcome symbol entry_price exit_price quantity transaction_type =>
      fst (record_trade_outcome now self symbol entry_price exit_price
             quantity transaction_type)
  end.

Fixpoint run (self : RiskManager) (calls : list (datetime * Call)) : RiskManager :=
  match calls with
  | [] => self
  | (now, c) :: rest => run (perform now c self) rest
  end.




(** *** The process

    The manager is an object in the memory of the process: a restart
    constructs it anew, with the configuration read then, and the calls
    go on with the new object. *)
Inductive Event : Type :=
| Invoke (c : Call)
| Restart (config : TradingBotConfig).

Definition step (now : datetime) (e : Event) (self : RiskManager) : RiskManager :=
  match e with
  | Invoke c => perform now c self
  | Restart config => init config now
  end.



End risk_manager.

(* ================================================================== *)
(** ** Dictionaries keyed by symbol *)

Module Dict.
Section Dict.
Context {V : Type}.

(** [d.get(k)] / [k in d] *)
Fixpoint get (k : string) (d : list (string * V)) : option V :=
  match d with
  | [] => None
  | (k', v) :: rest => if String.eqb k k' then Some v else get k rest
  end.

Definition mem (k : string) (d : list (string * V)) : bool :=
  match get k d with Some _ => true | None => false end.

(** [d[k] = v]: an existing key keeps its place, a new one goes last. *)
Fixpoint set (k : string) (v : V) (d : list (string * V)) : list (string * V) :=
  match d with
  | [] => [(k, v)]
  | (k', v') :: rest =>
      if String.eqb k k' then (k, v) :: rest else (k', v') :: set k v rest
  end.

(** [del d[k]] for a key that is present. *)
Fixpoint del (k : string) (d : list (string * V)) : list (string * V) :=
  match d with
  | [] => []
  | (k', v') :: rest =>
      if String.eqb k k' then rest else (k', v') :: del k rest
  end.

(** [list(d.keys())] *)
Definition keys (d : list (string * V)) : list string := map fst d.

End Dict.
End Dict.

(* ================================================================== *)
(** ** poller.py *)

Module poller.

(** The [reason] strings handed to [exit_active_trade]. *)
Inductive ExitReason : Type :=
| STOP_LOSS | TARGET | TIME_LIMIT | FORCE_EXIT | MARKET_CLOSE.

Record MonitoredStock : Type := mkMonitoredStock {
  ms_symbol : string;
  added_time : datetime;
  last_analysis_time : datetime;
  sentiment_score : Q;
  technical_score : Q;
  is_active_trade : bool
}.

Record ActiveTrade : Type := mkActiveTrade {
  trade_id : string;
  symbol : string;
  entry_time : datetime;
  entry_price : Q;
  stop_loss : Q;
  target_price : Q;
  quantity : Z;
  transaction_type : string;
  current_price : Q;
  unrealized_pnl : Q;
  last_check_time : option datetime
}.

(** The keys of [ai_decision] read by [execute_trade_decision];
    [position_size] is read with [.get(..., 0)]. *)
Record AIDecision : Type := mkAIDecision {
  decision : string;
  ai_position_size : option Q;
  ai_entry_price : Q;
  ai_stop_loss : Q;
  ai_target_price : Q
}.

Record DecisionResult : Type := mkDecisionResult {
  should_trade : bool;
  ai_decision : AIDecision
}.

(** One screened candidate: symbol, [final_sentiment], [screening_score]. *)
Record Screened : Type := mkScreened {
  sc_symbol : string;
  sc_sentiment : Q;
  sc_score : Q
}.

(** Calls on the collaborators, in the order the poller makes them (the
    broker's answer is kept for [exit_position]), and the exit
    announcement logged by [exit_active_trade]. *)
Inductive Event : Type :=
| ScreenTopStocks
| GetCurrentPrice (symbol : string)
| MakeTradingDecision (symbol : string)
| LogTradeDecision (symbol : string)
| PlaceBracketOrder (symbol side : string) (quantity : Z)
| LogTradeExecution (symbol : string)
| Exiting (symbol : string) (reason : ExitReason)
| ExitPosition (symbol : string) (success : bool)
| LogTradeExit (trade_id : string) (reason : ExitReason)
| ForceExitAllPositions.

(** The collaborators of the poller ([broker], [make_trading_decision],
    [screen_top_stocks] with [analyze_sentiment], [trade_logger]) over a
    state [W] of the outside world.  A call that raises is represented
    by its failure answer, which the caller's [except] branch treats the
    same way; [force_exit_all_positions] is the one call where raising
    ([None]) and returning differ for the caller. *)
Class Collaborators (W : Type) : Type := {
  positions : W -> list (string * Position);
  get_current_price : string -> W -> option Q * W;
  place_bracket_order :
    string -> string -> Z -> Q -> Q -> Q -> string -> W -> option string * W;
  exit_position : string -> W -> bool * W;
  force_exit_all_positions : W -> option bool * W;
  make_trading_decision : string -> option Q -> Q -> W -> DecisionResult * W;
  screen_top_stocks : W -> list Screened * W;
  log_trade_decision : string -> DecisionResult -> W -> string * W;
  log_trade_execution : string -> Z -> Q -> string -> string -> W -> string * W;
  log_trade_exit : string -> Q -> Z -> ExitReason -> W -> bool * W
}.

Record StockPoller : Type := mkStockPoller {
  config : TradingBotConfig;
  risk_manager : RiskManager;
  monitored_stocks : list (string * MonitoredStock);
  active_trades : list (string * ActiveTrade);
  last_screening_time : option datetime;
  last_inactive_poll : option datetime;
  last_active_poll : option datetime;
  daily_screening_done : bool;
  force_exit_triggered : bool
}.

(** [StockPoller.__init__] with the module's [risk_manager] singleton. *)
Definition init (config : TradingBotConfig) (rm : RiskManager) : StockPoller :=
  mkStockPoller config rm [] [] None None None false false.

Definition set_risk_manager (self : StockPoller) (rm : RiskManager) : StockPoller :=
  mkStockPoller (config self) rm (monitored_stocks self) (active_trades self)
    (last_screening_time self) (last_inactive_poll self) (last_active_poll self)
    (daily_screening_done self) (force_exit_triggered self).

Definition set_monitored_stocks (self : StockPoller)
    (ms : list (string * MonitoredStock)) : StockPoller :=
  mkStockPoller (config self) (risk_manager self) ms (active_trades self)
    (last_screening_time self) (last_inactive_poll self) (last_active_poll self)
    (daily_screening_done self) (force_exit_triggered self).

Definition set_active_trades (self : StockPoller)
    (ats : list (string * ActiveTrade)) : StockPoller :=
  mkStockPoller (config self) (risk_manager self) (monitored_stocks self) ats
    (last_screening_time self) (last_inactive_poll self) (last_active_poll self)
    (daily_screening_done self) (force_exit_triggered self).

Definition set_last_inactive_poll (self : StockPoller) (t : datetime) : StockPoller :=
  mkStockPoller (config self) (risk_manager self) (monitored_stocks self)
    (active_trades self) (last_screening_time self) (Some t)
    (last_active_poll self) (daily_screening_done self) (force_exit_triggered self).

Definition set_last_active_poll (self : StockPoller) (t : datetime) : StockPoller :=
  mkStockPoller (config self) (risk_manager self) (monitored_stocks self)
    (active_trades self) (last_screening_time self) (last_inactive_poll self)
    (Some t) (daily_screening_done self) (force_exit_triggered self).

Definition set_force_exit_triggered (self : StockPoller) (b : bool) : StockPoller :=
  mkStockPoller (config self) (risk_manager self) (monitored_stocks self)
    (active_trades self) (last_screening_time self) (last_inactive_poll self)
    (last_active_poll self) (daily_screening_done self) b.

Definition set_screening_done (self : StockPoller) (t : datetime) : StockPoller :=
  mkStockPoller (config self) (risk_manager self) (monitored_stocks self)
    (active_trades self) (Some t) (last_inactive_poll self)
    (last_active_poll self) true (force_exit_triggered self).

(** [monitored_stocks[symbol].is_active_trade = b], under the source's
    [if symbol in self.monitored_stocks]. *)
Definition mark_active_trade (symbol : string) (b : bool)
    (ms : list (string * MonitoredStock)) : list (string * MonitoredStock) :=
  match Dict.get symbol ms with
  | Some m =>
      Dict.set symbol
        (mkMonitoredStock (ms_symbol m) (added_time m) (last_analysis_time m)
           (sentiment_score m) (technical_score m) b) ms
  | None => ms
  end.

(** [monitored_stock.last_analysis_time = now] on the shared object. *)
Definition touch_analysis_time (symbol : string) (now : datetime)
    (ms : list (string * MonitoredStock)) : list (string * MonitoredStock) :=
  match Dict.get symbol ms with
  | Some m =>
      Dict.set symbol
        (mkMonitoredStock (ms_symbol m) (added_time m) now
           (sentiment_score m) (technical_score m) (is_active_trade m)) ms
  | None => ms
  end.

(** The poller, the outside world and the calls made so far. *)
Record System (W : Type) : Type := mkSystem {
  self_ : StockPoller;
  world : W;
  trace : list Event
}.
Arguments mkSystem {W} _ _ _.
Arguments self_ {W} _.
Arguments world {W} _.
Arguments trace {W} _.

(** What a spy on the trace sees: the exits announced with their reason,
    and the broker's [exit_position] calls with their answer. *)
Definition exits_announced (tr : list Event) : list (string * ExitReason) :=
  flat_map (fun e => match e with
                     | Exiting symbol reason => [(symbol, reason)]
                     | _ => []
                     end) tr.

Definition exit_results (tr : list Event) : list (string * bool) :=
  flat_map (fun e => match e with
                     | ExitPosition symbol success => [(symbol, success)]
                     | _ => []
                     end) tr.


Section Operations.
Context {W : Type} {C : Collaborators W}.

(** State passing over [System W]. *)
Definition M (A : Type) : Type := System W -> A * System W.

Definition ret {A : Type} (a : A) : M A := fun s => (a, s).

Definition bind {A B : Type} (m : M A) (k : A -> M B) : M B :=
  fun s => let '(a, s') := m s in k a s'.

Notation "x <- m ;; k" := (bind m (fun x => k))
  (at level 61, m at next level, right associativity).
Notation "m ;;; k" := (bind m (fun _ => k))
  (at level 61, right associativity).

Definition get_self : M StockPoller := fun s => (self_ s, s).

Definition modify_self (f : StockPoller -> StockPoller) : M unit :=
  fun s => (tt, mkSystem (f (self_ s)) (world s) (trace s)).

Definition emit (e : Event) : M unit :=
  fun s => (tt, mkSystem (self_ s) (world s) (trace s ++ [e])).

(** A call on a collaborator, recorded in the trace. *)
Definition call {A : Type} (e : A -> Event) (f : W -> A * W) : M A :=
  fun s => let '(a, w) := f (world s) in
           (a, mkSystem (self_ s) w (trace s ++ [e a])).

(** [is_market_hours] *)
Definition is_market_hours (now : datetime) (self : StockPoller) : bool :=
  let market_open :=
    dt_replace_hm now (MARKET_OPEN_HOUR (config self))
      (MARKET_OPEN_MINUTE (config self)) in
  let market_close := dt_replace_hm now 15 30 in
  dt_geb now market_open && dt_geb market_close now.

(** [should_force_exit] *)
Definition should_force_exit (now : datetime) (self : StockPoller) : bool :=
  let force_exit_time :=
    dt_replace_hm now (FORCE_EXIT_HOUR (config self))
      (FORCE_EXIT_MINUTE (config self)) in
  dt_geb now force_exit_time && negb (force_exit_triggered self).


(** [exit_active_trade].  [active_trade] is the object the caller holds;
    [del self.active_trades[symbol]] on a missing key raises [KeyError],
    which the [except] branch logs. *)
Definition exit_active_trade (now : datetime) (symbol : string)
    (active_trade : ActiveTrade) (reason : ExitReason) : M unit :=
  emit (Exiting symbol reason) ;;;
  exit_success <- call (ExitPosition symbol) (exit_position symbol) ;;
  if (exit_success : bool) then
    call (fun _ => LogTradeExit (trade_id active_trade) reason)
      (log_trade_exit (trade_id active_trade) (current_price active_trade)
         (quantity active_trade) reason) ;;;
    modify_self (fun self =>
      set_risk_manager self
        (fst (risk_manager.record_trade_outcome now (risk_manager self) symbol
                (entry_price active_trade) (current_price active_trade)
                (quantity active_trade) (transaction_type active_trade)))) ;;;
    self <- get_self ;;
    if Dict.mem symbol (active_trades self) then
      modify_self (fun self =>
        set_active_trades self (Dict.del symbol (active_trades self))) ;;;
      modify_self (fun self =>
        set_monitored_stocks self
          (mark_active_trade symbol false (monitored_stocks self)))
    else ret tt
  else ret tt.

(** The [if]/[elif] chain of [monitor_active_trade] that picks
    [exit_reason]; [None] is [should_exit = False]. *)
Definition exit_conditions (now : datetime) (self : StockPoller)
    (active_trade : ActiveTrade) (current_price : Q) : option ExitReason :=
  if String.eqb (transaction_type active_trade) "BUY"
     && Qle_bool current_price (stop_loss active_trade)
  then Some STOP_LOSS
  else if String.eqb (transaction_type active_trade) "SELL"
          && Qle_bool (stop_loss active_trade) current_price
  then Some STOP_LOSS
  else if String.eqb (transaction_type active_trade) "BUY"
          && Qle_bool (target_price active_trade) current_price
  then Some TARGET
  else if String.eqb (transaction_type active_trade) "SELL"
          && Qle_bool current_price (target_price active_trade)
  then Some TARGET
  else if Qlt_le_dec 14400 (total_seconds (dt_sub now (entry_time active_trade)))
  then Some TIME_LIMIT
  else if should_force_exit now self then Some FORCE_EXIT
  else None.

(** The assignments of [monitor_active_trade] to the trade object. *)
Definition refresh_trade (now : datetime) (active_trade : ActiveTrade)
    (price : Q) : ActiveTrade :=
  mkActiveTrade (trade_id active_trade) (symbol active_trade)
    (entry_time active_trade) (entry_price active_trade)
    (stop_loss active_trade) (target_price active_trade)
    (quantity active_trade) (transaction_type active_trade)
    price
    (if String.eqb (transaction_type active_trade) "BUY"
     then (price - entry_price active_trade) * inject_Z (quantity active_trade)
     else (entry_price active_trade - price) * inject_Z (quantity active_trade))
    (Some now).

(** [monitor_active_trade].  A price of [None] or [0.0] is falsy and
    ends the step.  The trade object is the one the registry holds under
    [symbol], so its new fields are written there. *)
Definition monitor_active_trade (now : datetime) (symbol : string)
    (active_trade : ActiveTrade) : M unit :=
  price <- call (fun _ => GetCurrentPrice symbol) (get_current_price symbol) ;;
  match price with
  | None => ret tt
  | Some current_price =>
      if Qeq_bool current_price 0 then ret tt
      else
        let active_trade := refresh_trade now active_trade current_price in
        modify_self (fun self =>
          if Dict.mem symbol (active_trades self)
          then set_active_trades self
                 (Dict.set symbol active_trade (active_trades self))
          else self) ;;;
        self <- get_self ;;
        match exit_conditions now self active_trade current_price with
        | Some exit_reason => exit_active_trade now symbol active_trade exit_reason
        | None => ret tt
        end
  end.

(** The state in which [monitor_active_trade] evaluates the exit
    conditions: price fetched, trade object refreshed. *)
Definition refreshed (now : datetime) (symbol : string)
    (active_trade : ActiveTrade) (price : Q) (w' : W) (s : System W) : System W :=
  mkSystem
    (if Dict.mem symbol (active_trades (self_ s))
     then set_active_trades (self_ s)
            (Dict.set symbol (refresh_trade now active_trade price)
               (active_trades (self_ s)))
     else self_ s)
    w' (trace s ++ [GetCurrentPrice symbol]).

(** The loop of [poll_active_trades] over [list(self.active_trades.items())]. *)
Fixpoint monitor_each (now : datetime) (items : list (string * ActiveTrade))
    : M unit :=
  match items with
  | [] => ret tt
  | (symbol, active_trade) :: rest =>
      monitor_active_trade now symbol active_trade ;;;
      monitor_each now rest
  end.

(** [poll_active_trades] *)
Definition poll_active_trades (now : datetime) : M unit :=
  self <- get_self ;;
  match active_trades self with
  | [] => ret tt
  | items =>
      monitor_each now items ;;;
      modify_self (fun self => set_last_active_poll self now)
  end.

(** The loop of [force_exit_all_trades] over [list(self.active_trades.keys())];
    [false] is the [KeyError] of [self.active_trades[symbol]]. *)
Fixpoint exit_each (now : datetime) (symbols : list string) : M bool :=
  match symbols with
  | [] => ret true
  | symbol :: rest =>
      self <- get_self ;;
      match Dict.get symbol (active_trades self) with
      | None => ret false
      | Some active_trade =>
          exit_active_trade now symbol active_trade MARKET_CLOSE ;;;
          exit_each now rest
      end
  end.

(** [force_exit_all_trades]: an exception inside the [try] leaves
    [force_exit_triggered] as it was. *)
Definition force_exit_all_trades (now : datetime) : M unit :=
  self <- get_self ;;
  if force_exit_triggered self then ret tt
  else
    ok <- exit_each now (Dict.keys (active_trades self)) ;;
    if (ok : bool) then
      r <- call (fun _ => ForceExitAllPositions) force_exit_all_positions ;;
      match r with
      | None => ret tt
      | Some _ => modify_self (fun self => set_force_exit_triggered self true)
      end
    else ret tt.

(** [execute_trade_decision]; a zero [entry_price] raises in the
    quantity computation and the [except] branch only logs.  The order
    result is the [entry_order_id] the broker answered, [None] when the
    result is empty or has none. *)
Definition execute_trade_decision (now : datetime) (symbol : string)
    (decision_result : DecisionResult) (decision_id : string) : M unit :=
  self <- get_self ;;
  let ai := ai_decision decision_result in
  let size := match ai_position_size ai with Some p => p | None => 0 end in
  match Py.div (size * INITIAL_CAPITAL (config self)) (ai_entry_price ai) with
  | None => ret tt
  | Some shares =>
      let order_quantity := Py.int shares in
      let tag := String.append "AI_TRADE_" decision_id in
      order_result <-
        call (fun _ => PlaceBracketOrder symbol (decision ai) order_quantity)
          (place_bracket_order symbol (decision ai) order_quantity
             (ai_entry_price ai) (ai_stop_loss ai) (ai_target_price ai) tag) ;;
      match order_result with
      | Some entry_order_id =>
          if String.eqb entry_order_id "" then ret tt
          else
            new_trade_id <-
              call (fun _ => LogTradeExecution symbol)
                (log_trade_execution symbol order_quantity (ai_entry_price ai)
                   entry_order_id decision_id) ;;
            let active_trade :=
              mkActiveTrade new_trade_id symbol now (ai_entry_price ai)
                (ai_stop_loss ai) (ai_target_price ai) order_quantity
                (decision ai) (ai_entry_price ai) 0 None in
            modify_self (fun self =>
              set_active_trades self
                (Dict.set symbol active_trade (active_trades self))) ;;;
            modify_self (fun self =>
              set_monitored_stocks self
                (mark_active_trade symbol true (monitored_stocks self)))
      | None => ret tt
      end
  end.

(** [analyze_and_decide] *)
Definition analyze_and_decide (now : datetime) (symbol : string)
    (monitored_stock : MonitoredStock) : M unit :=
  price <- call (fun _ => GetCurrentPrice symbol) (get_current_price symbol) ;;
  decision_result <-
    call (fun _ => MakeTradingDecision symbol)
      (make_trading_decision symbol price (sentiment_score monitored_stock)) ;;
  decision_id <-
    call (fun _ => LogTradeDecision symbol)
      (log_trade_decision symbol decision_result) ;;
  (if should_trade decision_result
   then execute_trade_decision now symbol decision_result decision_id
   else ret tt) ;;;
  modify_self (fun self =>
    set_monitored_stocks self
      (touch_analysis_time symbol now (monitored_stocks self))).

(** The loop of [poll_inactive_stocks] over
    [list(self.monitored_stocks.items())]: the keys are those of the
    snapshot, the objects are the ones the dictionary holds. *)
Fixpoint analyze_each (now : datetime) (symbols : list string) : M unit :=
  match symbols with
  | [] => ret tt
  | symbol :: rest =>
      self <- get_self ;;
      match Dict.get symbol (monitored_stocks self) with
      | Some monitored_stock =>
          (if is_active_trade monitored_stock then ret tt
           else analyze_and_decide now symbol monitored_stock) ;;;
          analyze_each now rest
      | None => analyze_each now rest
      end
  end.

(** [poll_inactive_stocks]: the risk status is checked once, on
    [broker.positions], before the loop. *)
Definition poll_inactive_stocks (now : datetime) : M unit :=
  self <- get_self ;;
  match monitored_stocks self with
  | [] => ret tt
  | _ =>
      fun s =>
        let '(rm, account_risk) :=
          risk_manager.check_trading_allowed now (risk_manager (self_ s))
            (positions (world s)) in
        let s := mkSystem (set_risk_manager (self_ s) rm) (world s) (trace s) in
        if is_trading_allowed account_risk then
          (analyze_each now (Dict.keys (monitored_stocks (self_ s))) ;;;
           modify_self (fun self => set_last_inactive_poll self now)) s
        else (tt, s)
  end.

(** [daily_market_screening]; the returned symbol list is not used by
    the loop. *)
Definition daily_market_screening (now : datetime) : M unit :=
  screened_stocks <- call (fun _ => ScreenTopStocks) screen_top_stocks ;;
  match screened_stocks with
  | [] => ret tt
  | _ =>
      modify_self (fun self =>
        set_monitored_stocks self
          (fold_left
             (fun ms stock =>
                Dict.set (sc_symbol stock)
                  (mkMonitoredStock (sc_symbol stock) now now
                     (sc_sentiment stock) (sc_score stock) false) ms)
             screened_stocks (monitored_stocks self))) ;;;
      modify_self (fun self => set_screening_done self now)
  end.

(** [reset_daily_state] *)
Definition reset_daily_state (now : datetime) : M unit :=
  modify_self (fun self =>
    mkStockPoller (config self)
      (risk_manager.reset_daily_metrics now (risk_manager self))
      [] [] (last_screening_time self) (last_inactive_poll self)
      (last_active_poll self) false false).

(** Whether a cadence is due: [not last or (now - last).total_seconds() >= interval]. *)
Definition poll_due (now : datetime) (last : option datetime) (interval : Z) : bool :=
  match last with
  | None => true
  | Some t => Qle_bool (inject_Z interval) (total_seconds (dt_sub now t))
  end.

(** One iteration of the [while] loop of [run_continuous_polling]. *)
Definition tick (now : datetime) : M unit :=
  self <- get_self ;;
  (match last_screening_time self with
   | Some t => if (dt_date t <? dt_date now)%Z then reset_daily_state now else ret tt
   | None => ret tt
   end) ;;;
  self <- get_self ;;
  if negb (is_market_hours now self) then ret tt
  else if should_force_exit now self then force_exit_all_trades now
  else
    (if daily_screening_done self then ret tt else daily_market_screening now) ;;;
    self <- get_self ;;
    (if poll_due now (last_active_poll self) (ACTIVE_POLL_INTERVAL (config self))
     then poll_active_trades now else ret tt) ;;;
    self <- get_self ;;
    (if poll_due now (last_inactive_poll self) (INACTIVE_POLL_INTERVAL (config self))
     then poll_inactive_stocks now else ret tt).

End Operations.

(** *** A scripted outside world

    Fixed answers per symbol, used to run the poller on concrete inputs.
    An accepted bracket order opens a broker position; an accepted exit
    closes it. *)
Record Script : Type := mkScript {
  price_of : string -> option Q;
  exit_ok : string -> bool;
  order_ok : string -> bool;
  force_exit_raises : bool;
  decide : string -> DecisionResult;
  candidates : list Screened;
  open_positions : list (string * Position)
}.

Definition with_positions (w : Script) (ps : list (string * Position)) : Script :=
  mkScript (price_of w) (exit_ok w) (order_ok w) (force_exit_raises w)
    (decide w) (candidates w) ps.

#[export] Instance scripted : Collaborators Script := {
  positions := open_positions;
  get_current_price := fun symbol w => (price_of w symbol, w);
  place_bracket_order := fun symbol side qty entry stop target tag w =>
    if order_ok w symbol
    then (Some (String.append "ORD_" symbol),
          with_positions w
            (Dict.set symbol (mkPosition symbol qty entry side 0) (open_positions w)))
    else (None, w);
  exit_position := fun symbol w =>
    if exit_ok w symbol
    then (true, with_positions w (Dict.del symbol (open_positions w)))
    else (false, w);
  force_exit_all_positions := fun w =>
    if force_exit_raises w then (None, w) else (Some true, with_positions w []);
  make_trading_decision := fun symbol price sentiment w => (decide w symbol, w);
  screen_top_stocks := fun w => (candidates w, w);
  log_trade_decision := fun symbol d w => (String.append "DEC_" symbol, w);
  log_trade_execution := fun symbol qty price order_id decision_id w =>
    (String.append "TRADE_" symbol, w);
  log_trade_exit := fun trade_id price qty reason w => (true, w)
}.

(** *** Sample inputs *)

Local Open Scope string_scope.

Definition ten_am : datetime := mkDatetime 739000 36000000000.
Definition one_past_ten : datetime := mkDatetime 739000 36060000000.
Definition two_past_ten : datetime := mkDatetime 739000 36120000000.
Definition three_past_ten : datetime := mkDatetime 739000 36180000000.

(** A BUY of 20 RELIANCE at 2500, stop 2450, target 2600, entered at 10:00. *)
Definition reliance_trade : ActiveTrade :=
  mkActiveTrade "TRADE_RELIANCE" "RELIANCE" ten_am 2500 2450 2600 20 "BUY"
    2500 0 None.

Definition hold_decision : DecisionResult :=
  mkDecisionResult false (mkAIDecision "HOLD" None 0 0 0).

(** An approved BUY of 1% of the capital at 100: ten shares. *)
Definition buy_decision : DecisionResult :=
  mkDecisionResult true (mkAIDecision "BUY" (Some (1 # 100)) 100 95 110).

(** A world that quotes [price] for every symbol, answers every exit
    with [exits] and proposes no trade. *)
Definition quoting (price : option Q) (exits : bool) : Script :=
  mkScript (fun _ => price) (fun _ => exits) (fun _ => true) false
    (fun _ => hold_decision) [] [].

(** The poller holding the RELIANCE trade at any stage of its polling:
    only the refreshed fields of the trade and the time of the last poll
    vary. *)
Definition holding_reliance_at (price pnl : Q) (checked polled : option datetime)
    : StockPoller :=
  mkStockPoller default_config (risk_manager.init default_config ten_am)
    [("RELIANCE", mkMonitoredStock "RELIANCE" ten_am ten_am 0 0 true)]
    [("RELIANCE",
      mkActiveTrade "TRADE_RELIANCE" "RELIANCE" ten_am 2500 2450 2600 20 "BUY"
        price pnl checked)]
    (Some ten_am) None polled true false.

(** The poller holding [reliance_trade], nothing polled yet. *)
Definition holding_reliance : StockPoller :=
  holding_reliance_at 2500 0 None None.

(** A world that screens three candidates and approves a BUY for each. *)
Definition approving : Script :=
  mkScript (fun _ => Some 100) (fun _ => true) (fun _ => true) false
    (fun _ => buy_decision)
    [mkScreened "AAA" 0 0; mkScreened "BBB" 0 0; mkScreened "CCC" 0 0] [].

(** The poller as constructed, before its first tick. *)
Definition fresh_poller : StockPoller :=
  init default_config (risk_manager.init default_config ten_am).

(** Active-trade polls at the given instants. *)
Fixpoint poll_at (instants : list datetime) (s : System Script) : System Script :=
  match instants with
  | [] => s
  | now :: rest => poll_at rest (snd (poll_active_trades now s))
  end.

Local Close Scope string_scope.

End poller.

(* ================================================================== *)
(** ** risk_manager.py: reporting *)

Module risk_report.

(** The strings returned by [get_current_risk_status]. *)
Inductive RiskNarrative : Type :=
| STOPPED_MAX_DAILY_LOSSES
| STOPPED_MAX_DRAWDOWN
| STOPPING_NEAR_MARKET_CLOSE
| CAUTION_LOSS_LIMIT
| CAUTION_DRAWDOWN_LIMIT
| NORMAL_TRADING_ALLOWED.

(** [RiskManager.get_current_risk_status]; the 70% thresholds compare
    with a float product. *)
Definition get_current_risk_status (now : datetime) (self : RiskManager)
    : RiskNarrative :=
  if (max_daily_losses self <=? daily_loss_count self)%Z
  then STOPPED_MAX_DAILY_LOSSES
  else if Qle_bool (max_daily_drawdown self) (max_drawdown_today self)
  then STOPPED_MAX_DRAWDOWN
  else if risk_manager.is_near_market_close now
  then STOPPING_NEAR_MARKET_CLOSE
  else if Qle_bool (inject_Z (max_daily_losses self) * (7 # 10))
            (inject_Z (daily_loss_count self))
  then CAUTION_LOSS_LIMIT
  else if Qle_bool (max_daily_drawdown self * (7 # 10)) (max_drawdown_today self)
  then CAUTION_DRAWDOWN_LIMIT
  else NORMAL_TRADING_ALLOWED.

(** The dictionary returned by [get_risk_summary]. *)
Record RiskSummary : Type := mkRiskSummary {
  rs_daily_pnl : Q;
  rs_daily_loss_count : Z;
  rs_max_drawdown_today : Q;
  total_trades : Z;
  winning_trades : Z;
  losing_trades : Z;
  win_rate_pct : Q;
  avg_pnl : Q;
  avg_win : Q;
  avg_loss : Q;
  current_capital : Q;
  capital_change_pct : Q;
  rs_risk_status : RiskNarrative
}.

Definition is_win (t : TradeRecord) : bool :=
  if Qlt_le_dec 0 (tr_pnl t) then true else false.

Definition is_losing (t : TradeRecord) : bool :=
  if Qlt_le_dec (tr_pnl t) 0 then true else false.

(** [RiskManager.get_risk_summary]; [None] is the empty dictionary of
    the [except] branch, reached when [initial_capital] is zero.  The
    guarded divisions cannot raise: their divisors are a positive count
    or [max(count, 1)]. *)
Definition get_risk_summary (now : datetime) (self : RiskManager)
    : RiskManager * option RiskSummary :=
  let self := risk_manager.reset_daily_metrics now self in
  let total := Z.of_nat (List.length (daily_trades self)) in
  let winning := Z.of_nat (List.length (filter is_win (daily_trades self))) in
  let losing := Z.of_nat (List.length (filter is_losing (daily_trades self))) in
  let win_rate :=
    if (0 <? total)%Z then inject_Z winning / inject_Z total * 100 else 0 in
  let averages :=
    match daily_trades self with
    | [] => (0, 0, 0)
    | _ =>
        (Py.sum (map tr_pnl (daily_trades self)) / inject_Z total,
         Py.sum (map tr_pnl (filter is_win (daily_trades self)))
           / inject_Z (Z.max winning 1),
         Py.sum (map tr_pnl (filter is_losing (daily_trades self)))
           / inject_Z (Z.max losing 1))
    end in
  match Py.div (daily_pnl self) (initial_capital self) with
  | None => (self, None)
  | Some change =>
      (self,
       Some {| rs_daily_pnl := daily_pnl self;
               rs_daily_loss_count := daily_loss_count self;
               rs_max_drawdown_today := max_drawdown_today self;
               total_trades := total;
               winning_trades := winning;
               losing_trades := losing;
               win_rate_pct := win_rate;
               avg_pnl := fst (fst averages);
               avg_win := snd (fst averages);
               avg_loss := snd averages;
               current_capital := risk_manager.get_current_capital self;
               capital_change_pct := change * 100;
               rs_risk_status := get_current_risk_status now self |})
  end.

(** [now.minute] *)
Definition dt_minute (now : datetime) : Z :=
  ((dt_micros now / (60 * micros_per_second)) mod 60)%Z.

(** [RiskManager.should_force_exit_all] *)
Definition should_force_exit_all (now : datetime) (self : RiskManager) : bool :=
  if (15 <=? dt_hour now)%Z && (10 <=? dt_minute now)%Z then true
  else if Qle_bool (max_daily_drawdown self) (max_drawdown_today self) then true
  else if (max_daily_losses self <=? daily_loss_count self)%Z then true
  else false.

(** The loss counter agrees with the day's records. *)
Definition losses_counted (self : RiskManager) : Prop :=
  daily_loss_count self
  = Z.of_nat (List.length (filter is_losing (daily_trades self))).

(** [daily_pnl] is the sum of the day's recorded P&L. *)
Definition pnl_booked (self : RiskManager) : Prop :=
  daily_pnl self == Py.sum (map tr_pnl (daily_trades self)).

(** A call other than [check_trading_allowed]. *)
Definition no_permission_check (c : risk_manager.Call) : Prop :=
  match c with
  | risk_manager.CheckTradingAllowed _ => False
  | _ => True
  end.

End risk_report.


(* ================================================================== *)
(** ** poller.py: what a spy sees, and the consistency of the registries *)

Module spy.

(** The bracket orders placed, as (symbol, side, quantity). *)
Definition orders_placed (tr : list poller.Event) : list (string * string * Z) :=
  flat_map (fun e => match e with
                     | poller.PlaceBracketOrder symbol side quantity =>
                         [(symbol, side, quantity)]
                     | _ => []
                     end) tr.

(** The symbols whose price was asked for. *)
Definition prices_requested (tr : list poller.Event) : list string :=
  flat_map (fun e => match e with
                     | poller.GetCurrentPrice symbol => [symbol]
                     | _ => []
                     end) tr.

(** The time of day, in microseconds, at which the market opens for the
    poller, and the literal 15:30 at which it closes. *)
Definition market_open_micros (self : poller.StockPoller) : Z :=
  ((MARKET_OPEN_HOUR (poller.config self) * 3600
    + MARKET_OPEN_MINUTE (poller.config self) * 60) * 1000000)%Z.

Definition market_close_micros : Z := 55800000000.

(** The date rollover test of the polling loop. *)
Definition new_day (now : datetime) (self : poller.StockPoller) : Prop :=
  match poller.last_screening_time self with
  | Some t => (dt_date t < dt_date now)%Z
  | None => False
  end.

(** A monitored stock is flagged [is_active_trade] exactly when its
    symbol is in the active-trade registry. *)
Definition flags_agree (ms : list (string * poller.MonitoredStock))
    (ats : list (string * poller.ActiveTrade)) : Prop :=
  forall (symbol : string) (m : poller.MonitoredStock),
    Dict.get symbol ms = Some m ->
    poller.is_active_trade m = Dict.mem symbol ats.

(** The registries are dictionaries, every active trade is a monitored
    stock, and the flags agree. *)
Definition consistent (ms : list (string * poller.MonitoredStock))
    (ats : list (string * poller.ActiveTrade)) : Prop :=
  NoDup (Dict.keys ats)
  /\ NoDup (Dict.keys ms)
  /\ (forall symbol, Dict.mem symbol ats = true -> Dict.mem symbol ms = true)
  /\ flags_agree ms ats.

Definition registries_consistent (self : poller.StockPoller) : Prop :=
  consistent (poller.monitored_stocks self) (poller.active_trades self).

(** Consistent registries that are empty until the day's screening is
    done. *)
Definition tidy (self : poller.StockPoller) : Prop :=
  registries_consistent self
  /\ (poller.daily_screening_done self = false ->
      poller.monitored_stocks self = [] /\ poller.active_trades self = []).

(** The loop of [run_continuous_polling], one iteration per instant. *)
Fixpoint ticks {W : Type} {C : poller.Collaborators W}
    (instants : list datetime) (s : poller.System W) : poller.System W :=
  match instants with
  | [] => s
  | now :: rest => ticks rest (snd (poller.tick now s))
  end.

(** A trade with its stop and its target on the proper sides of a
    positive entry price, for a positive quantity. *)
Definition well_placed (t : poller.ActiveTrade) : Prop :=
  (0 < poller.quantity t)%Z
  /\ 0 < poller.entry_price t
  /\ ((poller.transaction_type t = "BUY"%string
       /\ poller.stop_loss t < poller.entry_price t
       /\ poller.entry_price t < poller.target_price t)
      \/ (poller.transaction_type t = "SELL"%string
          /\ poller.target_price t < poller.entry_price t
          /\ poller.entry_price t < poller.stop_loss t)).

(** The price has reached the stop, or the target, of a trade. *)
Definition stop_hit (t : poller.ActiveTrade) (price : Q) : Prop :=
  if String.eqb (poller.transaction_type t) "BUY"
  then price <= poller.stop_loss t
  else poller.stop_loss t <= price.

Definition target_hit (t : poller.ActiveTrade) (price : Q) : Prop :=
  if String.eqb (poller.transaction_type t) "BUY"
  then poller.target_price t <= price
  else price <= poller.target_price t.

End spy.


(* ================================================================== *)
(** ** More Python built-ins *)

Module Builtins.

(** [d.get(key, default)] on an entry that may be missing. *)
Definition get_or {A : Type} (default : A) (entry : option A) : A :=
  match entry with Some v => v | None => default end.

(** [min(a, b)]: the first argument unless the second is strictly smaller. *)
Definition min (a b : Q) : Q := if Qlt_le_dec b a then b else a.

End Builtins.

(* ================================================================== *)
(** ** ai_decision_engine.py *)

Module ai_decision_engine.

Import Builtins.

Local Open Scope string_scope.

(** The thresholds [__init__] copies from the configuration, and the
    position cap and the mock switch the methods read from it. *)
Record AIDecisionEngine : Type := mkEngine {
  min_confidence : Q;            (* config.AI_CONFIDENCE_THRESHOLD *)
  min_risk_reward : Q;           (* config.MIN_RISK_REWARD_RATIO *)
  max_capital_per_trade : Q;     (* self.config.MAX_CAPITAL_PER_TRADE *)
  MOCK_AI : bool                 (* self.config.MOCK_AI *)
}.

Definition init (config : TradingBotConfig) (AI_CONFIDENCE_THRESHOLD : Q)
    (MOCK_AI : bool) : AIDecisionEngine :=
  mkEngine AI_CONFIDENCE_THRESHOLD (MIN_RISK_REWARD_RATIO config)
    (MAX_CAPITAL_PER_TRADE config) MOCK_AI.

(** The engine of the default configuration (confidence threshold 0.8,
    [MOCK_AI] set). *)
Definition default_engine : AIDecisionEngine :=
  init default_config (8 # 10) true.

(** The keys of [stock_data] and [sentiment_data] that reach the
    decision; [None] is a missing key.  [current_price] can be present
    and hold [None]. *)
Record StockData : Type := mkStockData {
  sd_current_price : option (option Q);
  sd_rsi : option Q;
  sd_volume_ratio : option Q;
  sd_above_vwap : option bool
}.

Record SentimentData : Type := mkSentimentData {
  sn_final_sentiment : option Q;
  sn_intraday_relevance : option Q
}.

(** The entries of the context that [mock_ai_decision] reads. *)
Record MarketContext : Type := mkMarketContext {
  current_price : option Q;
  rsi : Q;
  volume_ratio : Q;
  above_vwap : bool;
  final_sentiment : Q;
  intraday_relevance : Q
}.

(** [prepare_market_context], on the entries above. *)
Definition prepare_market_context (stock_data : StockData)
    (sentiment_data : SentimentData) : MarketContext :=
  mkMarketContext
    (get_or (Some 0) (sd_current_price stock_data))
    (get_or 50 (sd_rsi stock_data))
    (get_or 1 (sd_volume_ratio stock_data))
    (get_or false (sd_above_vwap stock_data))
    (get_or 0 (sn_final_sentiment sentiment_data))
    (get_or 0 (sn_intraday_relevance sentiment_data)).

(** The decision dictionary.  [entry_price] is [None] when a HOLD copies
    a [current_price] of [None]; the signal counts and the reasoning
    text, which nothing reads back, are left out. *)
Record Decision : Type := mkDecision {
  decision : string;
  confidence : Q;
  entry_price : option Q;
  stop_loss : Q;
  target_price : Q;
  risk_reward_ratio : Q;
  position_size : Q
}.

(** The two counters of [mock_ai_decision]. *)
Definition bullish_signals (c : MarketContext) : Z :=
  ((if Qlt_le_dec (rsi c) 40 then 1 else 0)
   + (if above_vwap c then 1 else 0)
   + (if Qlt_le_dec (3 # 2) (volume_ratio c) then 1 else 0)
   + (if Qlt_le_dec (3 # 10) (final_sentiment c) then 1 else 0)
   + (if Qlt_le_dec (1 # 2) (intraday_relevance c) then 1 else 0))%Z.

Definition bearish_signals (c : MarketContext) : Z :=
  ((if Qlt_le_dec (rsi c) 40 then 0
    else if Qlt_le_dec 70 (rsi c) then 1 else 0)
   + (if above_vwap c then 0 else 1)
   + (if Qlt_le_dec (3 # 10) (final_sentiment c) then 0
      else if Qlt_le_dec (final_sentiment c) (- (3 # 10)) then 1 else 0))%Z.

(** The risk-reward ratio of a BUY or SELL. *)
Definition reward_to_risk (entry stop target : Q) : Q :=
  if Qeq_bool stop entry then 0
  else
    let risk := Qabs (entry - stop) in
    let reward := Qabs (target - entry) in
    if Qlt_le_dec 0 risk then reward / risk else 0.

(** The position sizing at the end of [mock_ai_decision]. *)
Definition sized (self : AIDecisionEngine) (decision : string) (confidence : Q)
    : Q :=
  if String.eqb decision "HOLD"
     || (if Qlt_le_dec confidence (min_confidence self) then true else false)
  then 0
  else min (confidence * (1 # 2)) (3 # 10).

(** The dictionary of the [except] branches of [mock_ai_decision] and
    of [call_ai_for_decision], on the entries kept. *)
Definition error_decision : Decision := mkDecision "HOLD" 0 (Some 0) 0 0 0 0.

(** [mock_ai_decision].  Comparing a [current_price] of [None] with 0
    raises; the comparison is only reached with three signals of one
    kind. *)
Definition mock_ai_decision (self : AIDecisionEngine) (c : MarketContext)
    : Decision :=
  let bullish := bullish_signals c in
  let bearish := bearish_signals c in
  let trade (side : string) (signals : Z) (price stop target : Q) :=
    let confidence :=
      min ((6 # 10) + inject_Z (signals - 3) * (1 # 10)) (9 # 10) in
    mkDecision side confidence (Some price) stop target
      (reward_to_risk price stop target) (sized self side confidence) in
  let hold (price : option Q) :=
    mkDecision "HOLD" (3 # 10) price 0 0 0 (sized self "HOLD" (3 # 10)) in
  match current_price c with
  | None =>
      if (3 <=? bullish)%Z || (3 <=? bearish)%Z then error_decision
      else hold None
  | Some price =>
      if (3 <=? bullish)%Z && (if Qlt_le_dec 0 price then true else false)
      then trade "BUY" bullish price (price * (98 # 100)) (price * (104 # 100))
      else if (3 <=? bearish)%Z && (if Qlt_le_dec 0 price then true else false)
      then trade "SELL" bearish price (price * (102 # 100)) (price * (96 # 100))
      else hold (Some price)
  end.

(** [build_ai_prompt]: the text is read by nothing, but writing it
    formats the entries of the context, and formatting a [current_price]
    of [None] with [.2f] raises ([None] here).  The other entries
    formatted with a precision are numbers. *)
Definition build_ai_prompt (self : AIDecisionEngine) (c : MarketContext)
    : option unit :=
  match current_price c with
  | None => None
  | Some _ => Some tt
  end.

(** [call_ai_for_decision]: the mock's answer, at once with [MOCK_AI]
    and after the prompt has been built without it; an exception of
    [build_ai_prompt] gives the dictionary of the [except] branch. *)
Definition call_ai_for_decision (self : AIDecisionEngine) (c : MarketContext)
    : Decision :=
  if MOCK_AI self then mock_ai_decision self c
  else
    match build_ai_prompt self c with
    | Some _ => mock_ai_decision self c
    | None => error_decision
    end.

(** The outcomes of [validate_decision], one per message. *)
Inductive Verdict : Type :=
| CONFIDENCE_BELOW_THRESHOLD
| RISK_REWARD_BELOW_MINIMUM
| POSITION_SIZE_EXCEEDS_MAXIMUM
| INVALID_STOP_LOSS
| INVALID_TARGET_PRICE
| VALIDATION_ERROR
| PASSED.

(** [validate_decision]; comparing with an [entry_price] of [None]
    raises, which the [except] branch reports. *)
Definition validate_decision (self : AIDecisionEngine) (d : Decision) : Verdict :=
  if Qlt_le_dec (confidence d) (min_confidence self)
  then CONFIDENCE_BELOW_THRESHOLD
  else if (String.eqb (decision d) "BUY" || String.eqb (decision d) "SELL")
          && (if Qlt_le_dec (risk_reward_ratio d) (min_risk_reward self)
              then true else false)
  then RISK_REWARD_BELOW_MINIMUM
  else if Qlt_le_dec (max_capital_per_trade self) (position_size d)
  then POSITION_SIZE_EXCEEDS_MAXIMUM
  else if String.eqb (decision d) "BUY" then
    match entry_price d with
    | None => VALIDATION_ERROR
    | Some entry =>
        if Qle_bool entry (stop_loss d) then INVALID_STOP_LOSS
        else if Qle_bool (target_price d) entry then INVALID_TARGET_PRICE
        else PASSED
    end
  else if String.eqb (decision d) "SELL" then
    match entry_price d with
    | None => VALIDATION_ERROR
    | Some entry =>
        if Qle_bool (stop_loss d) entry then INVALID_STOP_LOSS
        else if Qle_bool entry (target_price d) then INVALID_TARGET_PRICE
        else PASSED
    end
  else PASSED.

Definition is_valid (v : Verdict) : bool :=
  match v with PASSED => true | _ => false end.

(** The entries of the final decision that callers read. *)
Record TradingDecision : Type := mkTradingDecision {
  ai_decision : Decision;
  validation : Verdict;
  final_action : string;
  should_trade : bool
}.

(** The final decision [make_trading_decision] compiles from what the
    AI answered. *)
Definition final_decision (self : AIDecisionEngine) (ai_decision : Decision)
    : TradingDecision :=
  let verdict := validate_decision self ai_decision in
  let tradable :=
    String.eqb (decision ai_decision) "BUY"
    || String.eqb (decision ai_decision) "SELL" in
  mkTradingDecision ai_decision verdict
    (if is_valid verdict then decision ai_decision else "HOLD")
    (is_valid verdict && tradable).

(** [make_trading_decision] *)
Definition make_trading_decision (self : AIDecisionEngine)
    (stock_data : StockData) (sentiment_data : SentimentData)
    : TradingDecision :=
  let context := prepare_market_context stock_data sentiment_data in
  final_decision self (call_ai_for_decision self context).

(** The two dictionaries [analyze_and_decide] of the poller hands to
    [make_trading_decision]: the price the broker answered and the
    sentiment score of the monitored stock. *)
Definition poller_stock_data (price : option Q) : StockData :=
  mkStockData (Some price) None None None.

Definition poller_sentiment_data (sentiment_score : Q) : SentimentData :=
  mkSentimentData (Some sentiment_score) (Some (6 # 10)).

(** The decision as the poller reads it. *)
Definition as_decision_result (t : TradingDecision) : poller.DecisionResult :=
  poller.mkDecisionResult (should_trade t)
    (poller.mkAIDecision (decision (ai_decision t))
       (Some (position_size (ai_decision t)))
       (get_or 0 (entry_price (ai_decision t)))
       (stop_loss (ai_decision t)) (target_price (ai_decision t))).

(** The scripted world with the decisions taken by the engine. *)
Definition engine_driven (self : AIDecisionEngine)
    : poller.Collaborators poller.Script :=
  {| poller.positions := poller.open_positions;
     poller.get_current_price := fun symbol w => (poller.price_of w symbol, w);
     poller.place_bracket_order := fun symbol side qty entry stop target tag w =>
       (Some (String.append "ORD_" symbol), w);
     poller.exit_position := fun symbol w => (poller.exit_ok w symbol, w);
     poller.force_exit_all_positions := fun w => (Some true, w);
     poller.make_trading_decision := fun symbol price sentiment w =>
       (as_decision_result
          (make_trading_decision self (poller_stock_data price)
             (poller_sentiment_data sentiment)), w);
     poller.screen_top_stocks := fun w => (poller.candidates w, w);
     poller.log_trade_decision := fun symbol d w => (String.append "DEC_" symbol, w);
     poller.log_trade_execution := fun symbol qty price order_id decision_id w =>
       (String.append "TRADE_" symbol, w);
     poller.log_trade_exit := fun trade_id price qty reason w => (true, w) |}.

End ai_decision_engine.


(* ================================================================== *)
(** ** broker_zerodha_backup.py: the mock broker

    [BrokerInterface] with [is_mock] set.  The price
    [get_current_price] answers is drawn at random in the source; here
    it is read from a [market], the quotes in force during one call.
    The margins are rationals: what is stated of them is which updates
    an operation applies and in which order, never that a sum of
    several updates is exact in doubles. *)

Module broker_zerodha_backup.

Local Open Scope string_scope.

Inductive OrderStatus : Type :=
| PENDING | OPEN | COMPLETE | CANCELLED | REJECTED.

(** An [Order]; [order_id] is the counter that [generate_order_id]
    writes into the id string. *)
Record Order : Type := mkOrder {
  order_id : Z;
  ord_symbol : string;
  ord_transaction_type : string;
  ord_quantity : Z;
  order_type : string;
  ord_price : Q;
  status : OrderStatus;
  filled_quantity : Z;
  ord_average_price : Q;
  tag : option string
}.

(** The mock storage and account of [BrokerInterface]; [orders] in
    insertion order (every id is new). *)
Record BrokerInterface : Type := mkBroker {
  positions : list (string * Position);
  orders : list Order;
  order_counter : Z;
  account_balance : Q;
  available_margin : Q;
  used_margin : Q
}.

Definition init (config : TradingBotConfig) : BrokerInterface :=
  mkBroker [] [] 1000 (INITIAL_CAPITAL config) (INITIAL_CAPITAL config) 0.

(** [update_position_from_order]; averaging into a position whose new
    quantity is zero divides by zero, and the [except] branch leaves the
    broker as it was. *)
Definition update_position_from_order (self : BrokerInterface) (order : Order)
    : BrokerInterface :=
  let symbol := ord_symbol order in
  let updated :=
    match Dict.get symbol (positions self) with
    | Some position =>
        if String.eqb (ord_transaction_type order) (pos_transaction_type position)
        then
          let total_quantity :=
            (pos_quantity position + filled_quantity order)%Z in
          let total_value :=
            inject_Z (pos_quantity position) * pos_average_price position
            + inject_Z (filled_quantity order) * ord_average_price order in
          match Py.div total_value (inject_Z total_quantity) with
          | None => None
          | Some average =>
              Some (Dict.set symbol
                      (mkPosition (pos_symbol position) total_quantity average
                         (pos_transaction_type position)
                         (unrealized_pnl position))
                      (positions self))
          end
        else if (pos_quantity position <=? filled_quantity order)%Z then
          let remaining_qty :=
            (filled_quantity order - pos_quantity position)%Z in
          if (0 <? remaining_qty)%Z then
            Some (Dict.set symbol
                    (mkPosition (pos_symbol position) remaining_qty
                       (ord_average_price order) (ord_transaction_type order)
                       (unrealized_pnl position))
                    (positions self))
          else Some (Dict.del symbol (positions self))
        else
          Some (Dict.set symbol
                  (mkPosition (pos_symbol position)
                     (pos_quantity position - filled_quantity order)%Z
                     (pos_average_price position)
                     (pos_transaction_type position)
                     (unrealized_pnl position))
                  (positions self))
    | None =>
        Some (Dict.set symbol
                (mkPosition symbol (filled_quantity order)
                   (ord_average_price order) (ord_transaction_type order) 0)
                (positions self))
    end in
  match updated with
  | None => self
  | Some held =>
      let order_value :=
        inject_Z (filled_quantity order) * ord_average_price order in
      if String.eqb (ord_transaction_type order) "BUY" then
        mkBroker held (orders self) (order_counter self) (account_balance self)
          (available_margin self - order_value) (used_margin self + order_value)
      else
        mkBroker held (orders self) (order_counter self) (account_balance self)
          (available_margin self + order_value) (used_margin self - order_value)
  end.

(** [place_order]: a MARKET order is filled at the current price, or
    rejected without one; any other order stays open.  The id is
    answered in every case. *)
Definition place_order (market : string -> option Q) (self : BrokerInterface)
    (symbol transaction_type : string) (quantity : Z) (order_type : string)
    (price : Q) (tag : option string) : BrokerInterface * option Z :=
  let id := (order_counter self + 1)%Z in
  let self :=
    mkBroker (positions self) (orders self) id (account_balance self)
      (available_margin self) (used_margin self) in
  let order (status : OrderStatus) (filled : Z) (average : Q) :=
    mkOrder id symbol transaction_type quantity order_type price status
      filled average tag in
  let '(self, placed) :=
    if String.eqb order_type "MARKET" then
      match market symbol with
      | Some current_price =>
          if Qeq_bool current_price 0 then (self, order REJECTED 0%Z 0)
          else
            (update_position_from_order self
               (order COMPLETE quantity current_price),
             order COMPLETE quantity current_price)
      | None => (self, order REJECTED 0%Z 0)
      end
    else (self, order OPEN 0%Z 0) in
  (mkBroker (positions self) (orders self ++ [placed]) (order_counter self)
     (account_balance self) (available_margin self) (used_margin self),
   Some id).

(** The dictionary [place_bracket_order] returns. *)
Record BracketOrder : Type := mkBracketOrder {
  entry_order_id : Z;
  stop_loss_order_id : option Z;
  target_order_id : option Z
}.

(** [f"{tag}_SUFFIX" if tag else "SUFFIX"] *)
Definition tagged (tag : option string) (suffix : string) : option string :=
  match tag with
  | Some t =>
      if String.eqb t "" then Some suffix
      else Some (String.append t (String.append "_" suffix))
  | None => Some suffix
  end.

(** [place_bracket_order] *)
Definition place_bracket_order (market : string -> option Q)
    (self : BrokerInterface) (symbol transaction_type : string) (quantity : Z)
    (entry_price stop_loss target : Q) (tag : option string)
    : BrokerInterface * option BracketOrder :=
  let '(self, entry) :=
    place_order market self symbol transaction_type quantity "LIMIT"
      entry_price (tagged tag "ENTRY") in
  match entry with
  | None => (self, None)
  | Some entry_id =>
      let sl_transaction :=
        if String.eqb transaction_type "BUY" then "SELL" else "BUY" in
      let '(self, sl_id) :=
        place_order market self symbol sl_transaction quantity "SL-M"
          stop_loss (tagged tag "SL") in
      let '(self, target_id) :=
        place_order market self symbol sl_transaction quantity "LIMIT"
          target (tagged tag "TARGET") in
      (self, Some (mkBracketOrder entry_id sl_id target_id))
  end.

(** [exit_position] *)
Definition exit_position (market : string -> option Q) (self : BrokerInterface)
    (symbol : string) : BrokerInterface * bool :=
  match Dict.get symbol (positions self) with
  | None => (self, false)
  | Some position =>
      let exit_transaction :=
        if String.eqb (pos_transaction_type position) "BUY"
        then "SELL" else "BUY" in
      let '(self, id) :=
        place_order market self symbol exit_transaction (pos_quantity position)
          "MARKET" 0 (Some "EXIT") in
      match id with
      | Some _ => (self, true)
      | None => (self, false)
      end
  end.

(** The loop of [force_exit_all_positions] over the snapshot of the keys. *)
Fixpoint exit_each (market : string -> option Q) (self : BrokerInterface)
    (symbols : list string) : BrokerInterface * list bool :=
  match symbols with
  | [] => (self, [])
  | symbol :: rest =>
      let '(self, result) := exit_position market self symbol in
      let '(self, results) := exit_each market self rest in
      (self, result :: results)
  end.

(** [force_exit_all_positions] *)
Definition force_exit_all_positions (market : string -> option Q)
    (self : BrokerInterface) : BrokerInterface * bool :=
  let '(self, exit_results) :=
    exit_each market self (Dict.keys (positions self)) in
  let success_count := List.length (filter (fun r : bool => r) exit_results) in
  let total_count := List.length exit_results in
  (self, Nat.eqb success_count total_count).

(** *** Runs of the broker *)

Inductive Call : Type :=
| PlaceOrder (symbol transaction_type : string) (quantity : Z)
    (order_type : string) (price : Q) (tag : option string)
| PlaceBracketOrder (symbol transaction_type : string) (quantity : Z)
    (entry_price stop_loss target : Q) (tag : option string)
| ExitPosition (symbol : string)
| ForceExitAllPositions.

Inductive Answer : Type :=
| OrderPlaced (id : option Z)
| BracketPlaced (ids : option BracketOrder)
| Exited (success : bool).

Definition perform (market : string -> option Q) (c : Call)
    (self : BrokerInterface) : BrokerInterface * Answer :=
  match c with
  | PlaceOrder symbol transaction_type quantity order_type price tag =>
      let '(self, id) :=
        place_order market self symbol transaction_type quantity order_type
          price tag in
      (self, OrderPlaced id)
  | PlaceBracketOrder symbol transaction_type quantity entry stop target tag =>
      let '(self, ids) :=
        place_bracket_order market self symbol transaction_type quantity
          entry stop target tag in
      (self, BracketPlaced ids)
  | ExitPosition symbol =>
      let '(self, ok) := exit_position market self symbol in
      (self, Exited ok)
  | ForceExitAllPositions =>
      let '(self, ok) := force_exit_all_positions market self in
      (self, Exited ok)
  end.

(** The calls in order, each under the quotes in force when it is made. *)
Fixpoint run (self : BrokerInterface)
    (calls : list ((string -> option Q) * Call))
    : BrokerInterface * list Answer :=
  match calls with
  | [] => (self, [])
  | (market, c) :: rest =>
      let '(self, answer) := perform market c self in
      let '(self, answers) := run self rest in
      (self, answer :: answers)
  end.

(** The broker calls other than a direct [place_order]: the ones the
    poller makes. *)
Definition from_poller (c : Call) : Prop :=
  match c with
  | PlaceOrder _ _ _ _ _ _ => False
  | _ => True
  end.

(** An [exit_position] that answered [True]. *)
Definition exit_succeeded (c : Call) (a : Answer) : Prop :=
  match c, a with
  | ExitPosition _, Exited true => True
  | _, _ => False
  end.

(** The realised P&L of [quantity] shares entered at [entry] and left at
    [exit], as [Position.update_current_price] computes it. *)
Definition realised (transaction_type : string) (quantity : Z) (entry exit : Q)
    : Q :=
  if String.eqb transaction_type "BUY"
  then (exit - entry) * inject_Z quantity
  else (entry - exit) * inject_Z quantity.

End broker_zerodha_backup.


(* ================================================================== *)
(** ** screener.py: filtering and ranking

    The metrics of a stock are taken as computed; the filters, the
    score, the ranking and the cut are those of the source. *)

Module screener.

Import Builtins.

(** The keys of a screening result that the filters read ([None]: the
    key is missing), and the score they add. *)
Record Stock : Type := mkStock {
  symbol : string;
  volume_ratio : option Q;
  volatility_pct : option Q;
  rsi : option Q;
  current_volume : option Q;
  price_change_pct : option Q;
  above_vwap : option bool;
  screening_score : option Q
}.

(** The five filtering rules of [apply_screening_filters]. *)
Definition passes_volume (stock : Stock) : bool :=
  Qle_bool (12 # 10) (get_or 0 (volume_ratio stock)).

Definition passes_volatility (stock : Stock) : bool :=
  Qle_bool (1 # 2) (get_or 0 (volatility_pct stock))
  && Qle_bool (get_or 0 (volatility_pct stock)) 5.

Definition passes_rsi (stock : Stock) : bool :=
  Qle_bool 20 (get_or 50 (rsi stock)) && Qle_bool (get_or 50 (rsi stock)) 80.

Definition passes_min_volume (stock : Stock) : bool :=
  Qle_bool 100000 (get_or 0 (current_volume stock)).

Definition passes_movement (stock : Stock) : bool :=
  Qle_bool (1 # 2) (Qabs (get_or 0 (price_change_pct stock))).

Definition passes (stock : Stock) : bool :=
  forallb (fun rule : bool => rule)
    [passes_volume stock; passes_volatility stock; passes_rsi stock;
     passes_min_volume stock; passes_movement stock].

(** The screening score. *)
Definition score (stock : Stock) : Q :=
  min (get_or 0 (volume_ratio stock)) 3 * (3 # 10)
  + min (get_or 0 (volatility_pct stock)) 3 * (2 # 10)
  + Qabs (get_or 0 (price_change_pct stock)) * (3 # 10)
  + (if get_or false (above_vwap stock) then 1 else 1 # 2) * (2 # 10).

(** [stock['screening_score'] = score] *)
Definition scored (stock : Stock) : Stock :=
  mkStock (symbol stock) (volume_ratio stock) (volatility_pct stock)
    (rsi stock) (current_volume stock) (price_change_pct stock)
    (above_vwap stock) (Some (score stock)).

(** [apply_screening_filters] *)
Fixpoint apply_screening_filters (stock_data : list Stock) : list Stock :=
  match stock_data with
  | [] => []
  | stock :: rest =>
      if passes stock then scored stock :: apply_screening_filters rest
      else apply_screening_filters rest
  end.

(** The sort key [x.get('screening_score', 0)]. *)
Definition key (stock : Stock) : Q := get_or 0 (screening_score stock).

(** [list.sort(key=..., reverse=True)]: descending and stable.  A stock
    goes in front of the first one whose key is not larger than its own. *)
Fixpoint insert (stock : Stock) (sorted : list Stock) : list Stock :=
  match sorted with
  | [] => [stock]
  | other :: rest =>
      if Qle_bool (key other) (key stock) then stock :: other :: rest
      else other :: insert stock rest
  end.

Fixpoint sort (stocks : list Stock) : list Stock :=
  match stocks with
  | [] => []
  | stock :: rest => insert stock (sort rest)
  end.

(** [xs[:n]]; a negative [n] counts from the end. *)
Definition slice_to {A : Type} (n : Z) (xs : list A) : list A :=
  if (0 <=? n)%Z then firstn (Z.to_nat n) xs
  else firstn (Z.to_nat (Z.of_nat (List.length xs) + n)) xs.

(** [screen_stocks], from the stocks that [screen_single_stock] could
    compute metrics for. *)
Definition screen_stocks (screened_stocks : list Stock) (max_stocks : Z)
    : list Stock :=
  let filtered_stocks := apply_screening_filters screened_stocks in
  slice_to max_stocks (sort filtered_stocks).

(** Keys in descending order. *)
Fixpoint descending (stocks : list Stock) : Prop :=
  match stocks with
  | [] => True
  | stock :: rest =>
      (forall other, In other rest -> key other <= key stock)
      /\ descending rest
  end.

End screener.


(* ================================================================== *)
(** ** trade_logger.py: the exit record (mock logging) *)

Module trade_logger.

Import Builtins.

Local Open Scope string_scope.

(** The keys of [exit_details] and [exit_result] that [log_trade_exit]
    reads ([None]: the key is missing). *)
Record ExitDetails : Type := mkExitDetails {
  entry_price : option Q;
  original_transaction_type : option string
}.

Record ExitResult : Type := mkExitResult {
  executed_price : option Q;
  executed_quantity : option Z
}.

(** The computed entries of [update_data]. *)
Record ExitUpdate : Type := mkExitUpdate {
  exit_price : Q;
  exit_quantity : Z;
  exit_reason : poller.ExitReason;
  is_closed : bool;
  pnl : Q;
  pnl_pct : Q
}.

(** [log_trade_exit] without a trades collection: [Some] update for the
    answer [True], [None] for the [False] of the [except] branch. *)
Definition log_trade_exit (exit_details : ExitDetails)
    (exit_result : ExitResult) (reason : poller.ExitReason)
    : option ExitUpdate :=
  let entry_price := get_or 0 (entry_price exit_details) in
  let exit_price := get_or 0 (executed_price exit_result) in
  let quantity := get_or 0%Z (executed_quantity exit_result) in
  let transaction_type :=
    get_or "BUY" (original_transaction_type exit_details) in
  let pnl :=
    if String.eqb transaction_type "BUY"
    then (exit_price - entry_price) * inject_Z quantity
    else (entry_price - exit_price) * inject_Z quantity in
  if Qlt_le_dec 0 entry_price then
    match Py.div pnl (entry_price * inject_Z quantity) with
    | None => None
    | Some ratio =>
        Some (mkExitUpdate exit_price quantity reason true pnl (ratio * 100))
    end
  else Some (mkExitUpdate exit_price quantity reason true pnl 0).

(** The two dictionaries [exit_active_trade] of the poller builds from
    the trade it exits. *)
Definition exit_details_of (t : poller.ActiveTrade) : ExitDetails :=
  mkExitDetails (Some (poller.entry_price t)) (Some (poller.transaction_type t)).

Definition exit_result_of (t : poller.ActiveTrade) : ExitResult :=
  mkExitResult (Some (poller.current_price t)) (Some (poller.quantity t)).

End trade_logger.

(* ================================================================== *)
(** * Properties *)

Import risk_manager.

(** ** Arithmetic of the Python primitives *)


Lemma py_div_some (x y : Q) : ~ y == 0 -> Py.div x y = Some (x / y).
Proof.
  intros H. unfold Py.div. destruct (Qeq_dec y 0); [contradiction | reflexivity].
Qed.

Lemma py_div_none (x y : Q) : y == 0 -> Py.div x y = None.
Proof.
  intros H. unfold Py.div. destruct (Qeq_dec y 0); [reflexivity | contradiction].
Qed.

Lemma div_nonneg (x y : Q) : 0 <= x -> 0 < y -> 0 <= x / y.
Proof.
  intros Hx Hy. unfold Qdiv.
  apply Qmult_le_0_compat; [assumption|].
  apply Qlt_le_weak, Qinv_lt_0_compat; assumption.
Qed.

Lemma inject_Z_nonneg (n : Z) : (0 <= n)%Z -> 0 <= inject_Z n.
Proof. intros H. change (inject_Z 0 <= inject_Z n). rewrite <- Zle_Qle. assumption. Qed.

(** ** Doubles *)

Lemma float_zero_repr : Prim2SF 0%float = S754_zero false.
Proof. reflexivity. Qed.

Lemma eqb_zero_inv (x : float) :
  (x =? 0)%float = true -> exists s, Prim2SF x = S754_zero s.
Proof.
  rewrite FloatAxioms.eqb_spec, float_zero_repr.
  destruct (Prim2SF x) as [s | s | | s m e]; cbn; try discriminate.
  - intros _. exists s. reflexivity.
  - destruct s; discriminate.
  - destruct s; discriminate.
Qed.

(** The conversions on sample values, as Python computes them. *)
Lemma py_float_conversions :
  PyFloat.of_Q (1 # 100) = 0.01%float
  /\ PyFloat.of_Q (9 # 10) = 0.9%float
  /\ PyFloat.of_Q (3 # 2) = 1.5%float
  /\ PyFloat.of_Q (1 # 3) = 0.3333333333333333%float
  /\ PyFloat.of_Q (- (2924 # 100)) = (-29.24)%float
  /\ PyFloat.of_Q (100000 + 2000) = 102000%float
  /\ PyFloat.of_Q (1 # 1000000000000000000000000000000) = 1e-30%float
  /\ PyFloat.of_int 9007199254740993 = Some 9007199254740992%float
  /\ PyFloat.of_int 9007199254740995 = Some 9007199254740996%float
  /\ PyFloat.of_int (-1500) = Some (-1500)%float
  /\ PyFloat.of_int (2 ^ 1024) = None
  /\ PyFloat.int 1e22%float = Some 10000000000000000000000%Z
  /\ PyFloat.int (-2.7)%float = Some (-2)%Z
  /\ PyFloat.int 0.999%float = Some 0%Z
  /\ PyFloat.int (0 / 0)%float = None
  /\ PyFloat.int (1 / 0)%float = None
  /\ PyFloat.div 1 0 = None
  /\ PyFloat.div 1 (-0) = None
  /\ PyFloat.div 1020 0.68 = Some 1500%float.
Proof. vm_compute. repeat split; reflexivity. Qed.

(** A double that is not [<= 0] is not zero, so dividing by it raises
    nothing. *)
Lemma leb_zero_false_neq (x : float) :
  (x <=? 0)%float = false -> (x =? 0)%float = false.
Proof.
  rewrite leb_spec, FloatAxioms.eqb_spec, float_zero_repr.
  destruct (Prim2SF x) as [s | s | | s m e]; cbn;
    try reflexivity; try discriminate; destruct s; reflexivity.
Qed.

Lemma ltb_zero_not_leb (x : float) :
  (0 <? x)%float = true -> (x <=? 0)%float = false.
Proof.
  rewrite leb_spec, ltb_spec, float_zero_repr.
  destruct (Prim2SF x) as [s | s | | s m e]; cbn;
    try reflexivity; try discriminate; destruct s; try reflexivity; discriminate.
Qed.

Lemma py_float_div_some (x y : float) :
  (y <=? 0)%float = false -> PyFloat.div x y = Some (x / y)%float.
Proof.
  intros Hy. unfold PyFloat.div. rewrite (leb_zero_false_neq y Hy). reflexivity.
Qed.

Lemma of_int_zero : PyFloat.of_int 0 = Some 0%float.
Proof. reflexivity. Qed.

(** [x - x] is zero for a finite [x] and NaN otherwise. *)
Lemma sub_diag_repr (x : float) :
  Prim2SF (x - x)%float = S754_zero false \/ Prim2SF (x - x)%float = S754_nan.
Proof.
  rewrite sub_spec. unfold SF64sub, SFsub.
  destruct (Prim2SF x) as [s | s | | s m e].
  - destruct s; cbn; left; reflexivity.
  - destruct s; cbn; right; reflexivity.
  - right. reflexivity.
  - left. rewrite Z.sub_diag. reflexivity.
Qed.

(** With a zero numerator factor the truncated quotient is [0], when it
    exists. *)
Lemma int_zero_quotient (c p d : float) (s : bool) :
  Prim2SF c = S754_zero s ->
  PyFloat.int (c * p / d)%float = Some 0%Z \/ PyFloat.int (c * p / d)%float = None.
Proof.
  intros Hc. unfold PyFloat.int. rewrite div_spec, mul_spec, Hc.
  unfold SF64div, SF64mul, SFdiv, SFmul.
  destruct (Prim2SF p) as [sp | sp | | sp mp ep];
    destruct (Prim2SF d) as [sd | sd | | sd md ed]; cbn; auto.
Qed.

Lemma ltb_zero_products (c x y : float) (s : bool) :
  Prim2SF c = S754_zero s -> (c * x <? 0 * y)%float = false.
Proof.
  intros Hc. rewrite ltb_spec, !mul_spec, Hc, float_zero_repr.
  unfold SF64mul, SFmul.
  destruct (Prim2SF x) as [sx | sx | | sx mx ex];
    destruct (Prim2SF y) as [sy | sy | | sy my ey]; cbn;
    try reflexivity; destruct (xorb s sx); reflexivity.
Qed.

(** ** Position sizing *)

(** A positive quantity has been converted to a double to compute its
    risk, so converting it again raises nothing. *)
Lemma position_size_shares (self : RiskManager) (entry stop : float)
    (risk_amount : option float) (quantity : Z) (risk : float) :
  calculate_position_size self entry stop risk_amount = (quantity, risk) ->
  (0 < quantity)%Z ->
  exists shares,
    PyFloat.of_int quantity = Some shares
    /\ risk = (shares * abs (entry - stop))%float.
Proof.
  unfold calculate_position_size, calculate_position_size_body.
  destruct (abs (entry - stop) <=? 0)%float; [intros [= <- <-]; lia |].
  destruct (PyFloat.div _ _) as [ratio |]; [| intros [= <- <-]; lia].
  destruct (PyFloat.int ratio) as [uncapped |]; [| intros [= <- <-]; lia].
  destruct (PyFloat.of_int uncapped) as [u |]; [| intros [= <- <-]; lia].
  destruct (if (_ <? _)%float then _ else _) as [q |]; [| intros [= <- <-]; lia].
  destruct (PyFloat.of_int q) as [shares |] eqn:Hq; [| intros [= <- <-]; lia].
  intros [= <- <-] _. exists shares. split; [assumption | reflexivity].
Qed.

(** Equal entry and stop give [(0, 0.0)], whatever the doubles: the
    risk per share is zero, or NaN for an infinite or NaN price and then
    [int] raises inside the [try]. *)
Lemma position_size_equal_prices (self : RiskManager) (price : float)
    (risk_amount : option float) :
  calculate_position_size self price price risk_amount = (0%Z, 0%float).
Proof.
  unfold calculate_position_size, calculate_position_size_body.
  destruct (abs (price - price) <=? 0)%float eqn:Hle; [reflexivity |].
  rewrite (py_float_div_some _ _ Hle).
  assert (Hnan : Prim2SF (abs (price - price)) = S754_nan).
  { rewrite leb_spec, abs_spec, float_zero_repr in Hle. rewrite abs_spec.
    destruct (sub_diag_repr price) as [H | H]; rewrite H in *;
      [discriminate Hle | reflexivity]. }
  set (r := match risk_amount with Some r => r | None => _ end).
  assert (Hint : PyFloat.int (r / abs (price - price))%float = None).
  { unfold PyFloat.int. rewrite div_spec, Hnan. unfold SF64div, SFdiv.
    destruct (Prim2SF r); reflexivity. }
  rewrite Hint. reflexivity.
Qed.

(** Without capital no share is sized. *)
Lemma position_size_no_capital (self : RiskManager) (entry stop : float) :
  (current_capital_float self =? 0)%float = true ->
  fst (calculate_position_size self entry stop None) = 0%Z.
Proof.
  intros Hcap. apply eqb_zero_inv in Hcap. destruct Hcap as [s Hc].
  unfold calculate_position_size, calculate_position_size_body.
  destruct (abs (entry - stop) <=? 0)%float eqn:Hle; [reflexivity |].
  rewrite (py_float_div_some _ _ Hle).
  destruct (int_zero_quotient _ (max_capital_per_trade_float self)
              (abs (entry - stop)) s Hc) as [H | H]; rewrite H; [| reflexivity].
  rewrite of_int_zero, (ltb_zero_products _ _ _ s Hc), of_int_zero. reflexivity.
Qed.

(** The scenario of the default configuration: capital 100000, fraction
    0.01, entry 2500 and stop 2450 give 20 shares and a risk of 1000.0. *)
Lemma position_size_scenario (now : datetime) :
  calculate_position_size (init default_config now) 2500 2450 None
  = (20%Z, 1000%float).
Proof. vm_compute. reflexivity. Qed.

(** C1. The risk of the sized position can exceed the risk allowed.
    After a booked loss of 400 the capital is 99600.0 and the risk
    allowed for a trade is 996.0.  For entry 10.0 and stop 9.17 the
    risk per share is the double 0.8300000000000001, that is
    7475975381435024 / 2^53; the quotient of 996.0 by it lies between
    1199 and 1200 and rounds to 1200.0, so [calculate_position_size]
    returns 1200 shares, one more than the floor of that quotient, with
    a risk of 996.0000000000001, above 996.0.  The value of the
    position is within the 90% limit.  [validate_trade_risk] then
    rejects the position it has just sized, its capital at risk
    0.010000000000000002 being above the fraction 0.01. *)
Theorem calculate_position_size_exceeds_risk_cap :
  let now := mkDatetime 739000 36000000000 in
  let self :=
    perform now (RecordTradeOutcome "RELIANCE" 2500 2480 20 "BUY")
      (init default_config now) in
  let capital := current_capital_float self in
  let allowed := (capital * max_capital_per_trade_float self)%float in
  let risk_per_share := abs (10 - 9.17)%float in
  let sizing := calculate_position_size self 10 9.17 None in
  let metrics := snd (validate_trade_risk now self "SUZLON" 10 9.17 11.5 0.8) in
  capital = 99600%float
  /\ allowed = 996%float
  /\ risk_per_share = 0.8300000000000001%float
  /\ Prim2SF risk_per_share = S754_finite false 7475975381435024 (-53)
  /\ (1199 * 7475975381435024 < 996 * 2 ^ 53 < 1200 * 7475975381435024)%Z
  /\ (allowed / risk_per_share)%float = 1200%float
  /\ sizing = (1200%Z, 996.0000000000001%float)
  /\ (allowed <? snd sizing)%float = true
  /\ (1200 * 10 <=? capital * 0.9)%float = true
  /\ risk_reward_ratio metrics = 1.8072289156626504%float
  /\ capital_at_risk_pct metrics = 0.010000000000000002%float
  /\ is_within_limits metrics = false
  /\ rejection_reason metrics
     = Some (CapitalAtRiskExceedsLimit 0.010000000000000002 0.01).
Proof.
  vm_compute. repeat split; reflexivity.
Qed.

(** ** Trade validation *)

(** C2. [validate_trade_risk] answers with the state after the daily
    reset check and a [RiskMetrics] whose [risk_reward_ratio] is the
    double [|target - entry| / |entry - stop|] whenever the denominator
    is positive.  It rejects, in this order: on a risk per share
    [<= 0]; on a ratio below [min_risk_reward] (1.5 by default); on a
    non-positive computed quantity; on a capital-at-risk fraction above
    [max_capital_per_trade]; and approves otherwise, with the quantity
    and the risk of [calculate_position_size].  No double makes it
    answer with its error rejection. *)
Theorem validate_trade_risk_spec (now : datetime) (self : RiskManager)
    (symbol : string) (entry stop target confidence : float) :
  let self' := reset_daily_metrics now self in
  let metrics := snd (validate_trade_risk now self symbol entry stop target confidence) in
  let rps := abs (entry - stop)%float in
  let reward := abs (target - entry)%float in
  let rr := (reward / rps)%float in
  let min_rr := min_risk_reward_float self' in
  let sizing := calculate_position_size self' entry stop None in
  let at_risk := (snd sizing / current_capital_float self')%float in
  let cap := max_capital_per_trade_float self' in
  fst (validate_trade_risk now self symbol entry stop target confidence) = self'
  /\ ((0 <? rps)%float = true -> risk_reward_ratio metrics = rr)
  /\ ((rps <=? 0)%float = true ->
      is_within_limits metrics = false
      /\ rejection_reason metrics = Some InvalidStopLossPrice)
  /\ ((rps <=? 0)%float = false -> (rr <? min_rr)%float = true ->
      is_within_limits metrics = false
      /\ rejection_reason metrics = Some (RRBelowMinimum rr min_rr))
  /\ ((rps <=? 0)%float = false -> (rr <? min_rr)%float = false ->
      (fst sizing <= 0)%Z ->
      is_within_limits metrics = false
      /\ rejection_reason metrics = Some CannotCalculatePositionSize)
  /\ ((rps <=? 0)%float = false -> (rr <? min_rr)%float = false ->
      (0 < fst sizing)%Z -> (cap <? at_risk)%float = true ->
      is_within_limits metrics = false
      /\ rejection_reason metrics = Some (CapitalAtRiskExceedsLimit at_risk cap))
  /\ ((rps <=? 0)%float = false -> (rr <? min_rr)%float = false ->
      (0 < fst sizing)%Z -> (cap <? at_risk)%float = false ->
      is_within_limits metrics = true
      /\ rejection_reason metrics = None
      /\ position_size metrics = fst sizing
      /\ risk_amount metrics = snd sizing
      /\ risk_reward_ratio metrics = rr
      /\ capital_at_risk_pct metrics = at_risk)
  /\ rejection_reason metrics <> Some ErrorInRiskValidation
  /\ min_risk_reward_float (init default_config now) = 1.5%float.
Proof.
  intros self' metrics rps reward rr min_rr sizing at_risk cap.
  unfold metrics, validate_trade_risk.
  fold self'. fold rps. fold reward. fold min_rr. fold cap.
  destruct (rps <=? 0)%float eqn:Hrps.
  - assert (Hnpos : (0 <? rps)%float = true -> False).
    { intros H. apply ltb_zero_not_leb in H. congruence. }
    cbn. repeat split; try reflexivity; try discriminate;
      intros Hpos; destruct (Hnpos Hpos).
  - rewrite (py_float_div_some reward rps Hrps). fold rr.
    destruct (rr <? min_rr)%float eqn:Hrr.
    + cbn. repeat split; try reflexivity; try discriminate.
    + fold sizing. destruct sizing as [quantity risk] eqn:Hsizing.
      cbn [fst snd] in *.
      destruct (quantity <=? 0)%Z eqn:Hq.
      * apply Z.leb_le in Hq. cbn.
        repeat split; try reflexivity; try discriminate; intros; lia.
      * apply Z.leb_gt in Hq.
        destruct (position_size_shares self' entry stop None quantity risk
                    Hsizing Hq) as (shares & Hshares & _).
        rewrite Hshares. unfold PyFloat.div.
        destruct (current_capital_float self' =? 0)%float eqn:Hcap.
        { assert (Hz := position_size_no_capital self' entry stop Hcap).
          fold sizing in Hz. rewrite Hsizing in Hz. cbn in Hz. lia. }
        fold at_risk.
        destruct (cap <? at_risk)%float eqn:Hover; cbn;
          repeat split; try reflexivity; try discriminate; intros; lia.
Qed.

Lemma validate_trade_risk_spec_witness :
  let now := mkDatetime 739000 36000000000 in
  let self := init default_config now in
  let metrics := snd (validate_trade_risk now self "RELIANCE" 2500 2450 2600 0.8) in
  is_within_limits metrics = true
  /\ position_size metrics = 20%Z
  /\ risk_reward_ratio metrics = 2%float.
Proof.
  intros now self metrics.
  destruct (validate_trade_risk_spec now self "RELIANCE" 2500 2450 2600 0.8)
    as (_ & _ & _ & _ & _ & _ & Hok & _).
  destruct Hok as (Hin & _ & Hsize & _ & Hrr & _);
    try (vm_compute; reflexivity).
  unfold metrics. split; [exact Hin |].
  split; [rewrite Hsize | rewrite Hrr]; vm_compute; reflexivity.
Defined.

(** The ratio that decides is the computed double: for entry 29.24,
    stop 7.06 and target 62.51 the rational ratio is 3/2 and the double
    is 1.4999999999999998, below the default minimum. *)
Lemma validate_trade_risk_rounded_ratio (now : datetime) :
  let metrics :=
    snd (validate_trade_risk now (init default_config now) "INFY"
           29.24 7.06 62.51 0.8) in
  Qabs ((6251 # 100) - (2924 # 100)) / Qabs ((2924 # 100) - (706 # 100)) == 3 # 2
  /\ is_within_limits metrics = false
  /\ rejection_reason metrics = Some (RRBelowMinimum 1.4999999999999998 1.5).
Proof.
  split; [vm_compute; reflexivity |].
  unfold validate_trade_risk, reset_daily_metrics.
  destruct (_ =? _)%Z; vm_compute; split; reflexivity.
Qed.

(** The fourth rejection is reached: with a capital of 102000.0, entry
    1.08 and stop 0.4 the sized risk is 1020.0000000000001 and the
    fraction at risk 0.010000000000000002, above 0.01. *)
Lemma validate_trade_risk_capital_at_risk :
  let now := mkDatetime 739000 36000000000 in
  let self :=
    perform now (RecordTradeOutcome "RELIANCE" 2500 2600 20 "BUY")
      (init default_config now) in
  let metrics := snd (validate_trade_risk now self "SUZLON" 1.08 0.4 2.5 0.8) in
  position_size metrics = 1500%Z
  /\ risk_amount metrics = 1020.0000000000001%float
  /\ risk_reward_ratio metrics = 2.0882352941176467%float
  /\ capital_at_risk_pct metrics = 0.010000000000000002%float
  /\ is_within_limits metrics = false
  /\ rejection_reason metrics
     = Some (CapitalAtRiskExceedsLimit 0.010000000000000002 0.01).
Proof. vm_compute. repeat split; reflexivity. Qed.


(** ** The daily reset check *)

Lemma reset_same_day (now : datetime) (self : RiskManager) :
  dt_date now = last_reset_date self -> reset_daily_metrics now self = self.
Proof.
  intros H. unfold reset_daily_metrics. rewrite H, Z.eqb_refl. reflexivity.
Qed.

Lemma reset_new_day (now : datetime) (self : RiskManager) :
  dt_date now <> last_reset_date self ->
  reset_daily_metrics now self =
  with_daily self [] 0 0 0 (initial_capital self + 0) (dt_date now).
Proof.
  intros H. unfold reset_daily_metrics.
  apply Z.eqb_neq in H. rewrite H. reflexivity.
Qed.

Lemma reset_cases (now : datetime) (self : RiskManager) :
  (dt_date now = last_reset_date self /\ reset_daily_metrics now self = self)
  \/ (dt_date now <> last_reset_date self
      /\ reset_daily_metrics now self =
         with_daily self [] 0 0 0 (initial_capital self + 0) (dt_date now)).
Proof.
  destruct (Z.eq_dec (dt_date now) (last_reset_date self)) as [H | H].
  - left. split; [assumption | apply reset_same_day; assumption].
  - right. split; [assumption | apply reset_new_day; assumption].
Qed.


Lemma reset_keeps_parameters (now : datetime) (self : RiskManager) :
  let self' := reset_daily_metrics now self in
  initial_capital self' = initial_capital self
  /\ max_capital_per_trade self' = max_capital_per_trade self
  /\ max_active_trades self' = max_active_trades self
  /\ max_daily_losses self' = max_daily_losses self
  /\ max_daily_drawdown self' = max_daily_drawdown self
  /\ min_risk_reward self' = min_risk_reward self.
Proof.
  destruct (reset_cases now self) as [[H E] | [H E]]; simpl; rewrite E; simpl;
    repeat split; reflexivity.
Qed.

Lemma reset_start_positive (now : datetime) (self : RiskManager) :
  0 < initial_capital self -> 0 < start_of_day_capital self ->
  0 < start_of_day_capital (reset_daily_metrics now self).
Proof.
  intros Hi Hs.
  destruct (reset_cases now self) as [[H E] | [H E]]; rewrite E; simpl; lra.
Qed.

(** ** Account-level trading permission *)

Lemma total_seconds_lt (d n : Z) :
  total_seconds d < inject_Z n <-> (d < n * 1000000)%Z.
Proof.
  unfold total_seconds, micros_per_second, Qdiv, Qlt, Qmult, Qinv, inject_Z.
  cbn [Qnum Qden]. lia.
Qed.

Lemma near_market_close_iff (now : datetime) :
  is_near_market_close now = true <-> (53400000000 < dt_micros now)%Z.
Proof.
  unfold is_near_market_close, dt_hour, micros_per_second.
  destruct (15 <=? dt_micros now / (3600 * 1000000))%Z eqn:Hh.
  - apply Z.leb_le in Hh.
    split; [intros _ | reflexivity].
    Z.div_mod_to_equations. lia.
  - apply Z.leb_gt in Hh.
    assert (Hlate : (dt_micros now < 54000000000)%Z)
      by (Z.div_mod_to_equations; lia).
    destruct (Qlt_le_dec _ _) as [Hq | Hq].
    + split; [intros _ | reflexivity].
      pose proof (proj1 (total_seconds_lt (dt_sub (dt_replace_hm now 15 0) now) 600) Hq) as Hz.
      unfold dt_sub, dt_replace_hm, micros_per_second in Hz. cbn [dt_date dt_micros] in Hz. lia.
    + split; [discriminate | intros Hm; exfalso].
      apply Qle_not_lt in Hq. apply Hq.
      apply (proj2 (total_seconds_lt (dt_sub (dt_replace_hm now 15 0) now) 600)).
      unfold dt_sub, dt_replace_hm, micros_per_second. cbn [dt_date dt_micros]. lia.
Qed.

(** With positive capital the drawdown division is defined, so the
    [except] branch is not taken: the call returns the state with the
    new [daily_pnl] and [max_drawdown_today], and the snapshot built
    from the status chain. *)
Lemma check_trading_allowed_ok (now : datetime) (self : RiskManager)
    (active_positions : list (string * Position)) :
  0 < initial_capital self ->
  0 < start_of_day_capital self ->
  let self0 := reset_daily_metrics now self in
  let capital := get_current_capital self0 in
  let start := start_of_day_capital self0 in
  let drawdown :=
    if Qlt_le_dec capital start
    then Py.max (max_drawdown_today self0) ((start - capital) / start)
    else max_drawdown_today self0 in
  let self1 :=
    set_max_drawdown_today
      (set_daily_pnl self0
         (Py.sum (map (fun kv => unrealized_pnl (snd kv)) active_positions)))
      drawdown in
  let active := Z.of_nat (List.length active_positions) in
  check_trading_allowed now self active_positions =
  (self1,
   {| total_capital := initial_capital self1;
      available_capital := capital;
      used_capital := initial_capital self1 - capital;
      ar_daily_pnl := daily_pnl self1;
      ar_daily_loss_count := daily_loss_count self1;
      ar_max_drawdown_today := max_drawdown_today self1;
      active_trades_count := active;
      is_trading_allowed := fst (trading_status now self1 active);
      risk_status := snd (trading_status now self1 active) |}).
Proof.
  intros Hinit Hstart self0 capital start drawdown self1 active.
  assert (Hstart0 : 0 < start) by (apply reset_start_positive; assumption).
  unfold check_trading_allowed.
  fold self0. fold capital. fold active.
  cbn [start_of_day_capital set_daily_pnl with_daily max_drawdown_today].
  fold start.
  unfold self1, drawdown.
  destruct (Qlt_le_dec capital start) as [Hdd | Hdd].
  - rewrite py_div_some by lra.
    destruct (trading_status _ _ _). reflexivity.
  - replace (set_max_drawdown_today
               (set_daily_pnl self0
                  (Py.sum (map (fun kv => unrealized_pnl (snd kv)) active_positions)))
               (max_drawdown_today self0))
      with (set_daily_pnl self0
              (Py.sum (map (fun kv => unrealized_pnl (snd kv)) active_positions)))
      by reflexivity.
    destruct (trading_status _ _ _). reflexivity.
Qed.

(** Without start-of-day capital and with the current capital below it,
    the drawdown division raises and the [except] branch answers. *)
Lemma check_trading_allowed_error (now : datetime) (self : RiskManager)
    (active_positions : list (string * Position)) :
  let self0 := reset_daily_metrics now self in
  start_of_day_capital self0 == 0 ->
  get_current_capital self0 < 0 ->
  risk_status (snd (check_trading_allowed now self active_positions)) = ERROR.
Proof.
  intros self0 Hzero Hneg. unfold check_trading_allowed. fold self0.
  cbn [start_of_day_capital set_daily_pnl with_daily].
  destruct (Qlt_le_dec _ _) as [_ | Hge]; [| lra].
  rewrite py_div_none by assumption. reflexivity.
Qed.



(** ** Recording trade outcomes *)

(** With a non-zero position value the outcome is computed, appended
    and counted as the specification says. *)
Lemma record_trade_outcome_recorded (now : datetime) (self : RiskManager)
    (symbol : string) (entry exit : Q) (quantity : Z) (side : string) :
  ~ entry * inject_Z quantity == 0 ->
  let pnl := if String.eqb side "BUY"
             then (exit - entry) * inject_Z quantity
             else (entry - exit) * inject_Z quantity in
  let result := record_trade_outcome now self symbol entry exit quantity side in
  exists record : TradeRecord,
    snd result = Some record
    /\ tr_pnl record = pnl
    /\ daily_trades (fst result) = daily_trades self ++ [record]
    /\ daily_pnl (fst result) = daily_pnl self + pnl
    /\ (pnl < 0 -> daily_loss_count (fst result) = (daily_loss_count self + 1)%Z)
    /\ (0 <= pnl -> daily_loss_count (fst result) = daily_loss_count self).
Proof.
  intros Hnz pnl result. unfold result, record_trade_outcome. fold pnl.
  rewrite py_div_some by assumption.
  eexists. split; [reflexivity |].
  destruct (Qlt_le_dec pnl 0) as [Hneg | Hpos]; cbn;
    repeat split; intros; try reflexivity; lra.
Qed.

(** C6.  A closed trade of quantity 0 (the order quantity that
    [execute_trade_decision] computes for a 1% position in a share
    priced above 1000) is not recorded: the percentage return divides
    by [entry_price * quantity], the exception is swallowed, and the
    call returns the empty dictionary with the state untouched. *)
Theorem record_trade_outcome_drops_zero_quantity (now : datetime)
    (self : RiskManager) :
  record_trade_outcome now self "RELIANCE" 2500 2550 0 "BUY" = (self, None).
Proof.
  unfold record_trade_outcome. rewrite py_div_none; reflexivity.
Qed.

Lemma record_keeps_reset_fields (now : datetime) (self : RiskManager)
    (symbol : string) (entry exit : Q) (quantity : Z) (side : string) :
  let self' := fst (record_trade_outcome now self symbol entry exit quantity side) in
  last_reset_date self' = last_reset_date self
  /\ start_of_day_capital self' = start_of_day_capital self
  /\ initial_capital self' = initial_capital self.
Proof.
  unfold record_trade_outcome.
  destruct (Py.div _ _); [| cbn; repeat split; reflexivity].
  destruct (Qlt_le_dec _ 0); cbn; repeat split; reflexivity.
Qed.

(** ** The reset along runs *)

Ltac case_split :=
  repeat match goal with
         | |- context [match ?x with _ => _ end] => destruct x
         end.

Lemma validate_state (now : datetime) (self : RiskManager) (symbol : string)
    (entry stop target confidence : float) :
  fst (validate_trade_risk now self symbol entry stop target confidence)
  = reset_daily_metrics now self.
Proof.
  unfold validate_trade_risk.
  generalize (reset_daily_metrics now self). intros self0.
  case_split; reflexivity.
Qed.

Lemma check_state (now : datetime) (self : RiskManager)
    (active_positions : list (string * Position)) :
  let self0 := reset_daily_metrics now self in
  let self' := fst (check_trading_allowed now self active_positions) in
  daily_trades self' = daily_trades self0
  /\ daily_loss_count self' = daily_loss_count self0
  /\ start_of_day_capital self' = start_of_day_capital self0
  /\ last_reset_date self' = last_reset_date self0
  /\ initial_capital self' = initial_capital self0.
Proof.
  unfold check_trading_allowed.
  generalize (reset_daily_metrics now self). intros self0.
  cbv zeta.
  destruct (Qlt_le_dec _ _).
  - destruct (Py.div _ _).
    + destruct (trading_status _ _ _). cbn. repeat split; reflexivity.
    + cbn. repeat split; reflexivity.
  - destruct (trading_status _ _ _). cbn. repeat split; reflexivity.
Qed.



Lemma perform_start_of_day (now : datetime) (c : Call) (self : RiskManager) :
  start_of_day_capital self == initial_capital self ->
  start_of_day_capital (perform now c self) == initial_capital (perform now c self)
  /\ initial_capital (perform now c self) = initial_capital self.
Proof.
  intros Hinv.
  assert (Hreset :
    start_of_day_capital (reset_daily_metrics now self)
      == initial_capital (reset_daily_metrics now self)
    /\ initial_capital (reset_daily_metrics now self) = initial_capital self).
  { destruct (reset_cases now self) as [[_ E] | [_ E]]; rewrite E; cbn.
    - split; [assumption | reflexivity].
    - split; [ring | reflexivity]. }
  destruct c; cbn [perform].
  - exact Hreset.
  - rewrite validate_state. exact Hreset.
  - destruct (check_state now self active_positions) as (_ & _ & Hs & _ & Hi).
    rewrite Hs, Hi. exact Hreset.
  - destruct (record_keeps_reset_fields now self symbol entry_price exit_price
                quantity transaction_type) as (_ & Hs & Hi).
    rewrite Hs, Hi. split; [assumption | reflexivity].
Qed.

Lemma run_start_of_day (self : RiskManager) (calls : list (datetime * Call)) :
  start_of_day_capital self == initial_capital self ->
  start_of_day_capital (run self calls) == initial_capital self
  /\ initial_capital (run self calls) = initial_capital self.
Proof.
  revert self. induction calls as [| [now c] rest IH]; intros self Hinv.
  - split; [assumption | reflexivity].
  - cbn [run].
    destruct (perform_start_of_day now c self Hinv) as [Hinv' Hi].
    destruct (IH _ Hinv') as [H1 H2].
    rewrite Hi in H1, H2. split; assumption.
Qed.

(** Every state reached from construction with a positive
    [INITIAL_CAPITAL] has positive initial and start-of-day capital. *)
Lemma run_positive_capital (config : TradingBotConfig) (t0 : datetime)
    (calls : list (datetime * Call)) :
  0 < INITIAL_CAPITAL config ->
  0 < initial_capital (run (init config t0) calls)
  /\ 0 < start_of_day_capital (run (init config t0) calls).
Proof.
  intros Hpos.
  destruct (run_start_of_day (init config t0) calls) as [Hs Hi];
    [reflexivity |].
  cbn [init initial_capital] in Hs, Hi. rewrite Hi, Hs. split; assumption.
Qed.

(** *** Resets of a process *)








(** ** Start-of-day capital *)

(** C10. A reset on a new date leaves [start_of_day_capital] equal to
    [initial_capital], whatever the P&L of the day before, because
    [daily_pnl] is zero when the capital is read.  The equality holds in
    every state the manager reaches from its construction, so the
    drawdown computed by [check_trading_allowed] is the drop of the
    current capital below the initial capital, as a fraction of it. *)
Theorem start_of_day_capital_is_initial :
  (forall (now : datetime) (self : RiskManager),
      dt_date now <> last_reset_date self ->
      let self' := reset_daily_metrics now self in
      daily_pnl self' == 0
      /\ start_of_day_capital self' == initial_capital self
      /\ initial_capital self' = initial_capital self)
  /\ (forall (config : TradingBotConfig) (t0 : datetime)
             (calls : list (datetime * Call)),
        start_of_day_capital (run (init config t0) calls)
        == INITIAL_CAPITAL config)
  /\ (forall (config : TradingBotConfig) (t0 : datetime)
             (calls : list (datetime * Call)) (now : datetime)
             (active_positions : list (string * Position)),
        0 < INITIAL_CAPITAL config ->
        let self := reset_daily_metrics now (run (init config t0) calls) in
        let capital := get_current_capital self in
        let start := start_of_day_capital self in
        start == INITIAL_CAPITAL config
        /\ max_drawdown_today
             (fst (check_trading_allowed now (run (init config t0) calls)
                     active_positions))
           = (if Qlt_le_dec capital start
              then Py.max (max_drawdown_today self) ((start - capital) / start)
              else max_drawdown_today self)).
Proof.
  assert (Hrun : forall config t0 calls,
             start_of_day_capital (run (init config t0) calls)
             == INITIAL_CAPITAL config
             /\ initial_capital (run (init config t0) calls)
                = INITIAL_CAPITAL config).
  { intros config t0 calls.
    apply (run_start_of_day (init config t0) calls). reflexivity. }
  repeat apply conj.
  - intros now self Hnew. cbv zeta. rewrite (reset_new_day now self Hnew).
    cbn. repeat split; try reflexivity. ring.
  - intros config t0 calls. apply Hrun.
  - intros config t0 calls now active_positions Hpos.
    destruct (Hrun config t0 calls) as [Hs Hi].
    set (before := run (init config t0) calls) in *.
    assert (Hi0 : 0 < initial_capital before) by (rewrite Hi; assumption).
    assert (Hs0 : 0 < start_of_day_capital before) by (rewrite Hs; assumption).
    assert (Hinv : start_of_day_capital before == initial_capital before)
      by (rewrite Hi; exact Hs).
    cbv zeta. split.
    + destruct (perform_start_of_day now ResetDailyMetrics before Hinv) as [H1 H2].
      cbn [perform] in H1, H2. rewrite H1, H2, Hi. reflexivity.
    + rewrite (check_trading_allowed_ok now before active_positions Hi0 Hs0).
      reflexivity.
Qed.

Lemma start_of_day_capital_is_initial_witness :
  let yesterday := mkDatetime 739000 36000000000 in
  let now := mkDatetime 739001 33300000000 in
  let self :=
    fst (record_trade_outcome yesterday (init default_config yesterday)
           "RELIANCE" 2500 2450 10 "BUY") in
  daily_pnl self == - (500)
  /\ start_of_day_capital (reset_daily_metrics now self) == 100000.
Proof.
  intros yesterday now self.
  split; [vm_compute; reflexivity |].
  destruct (proj1 start_of_day_capital_is_initial now self) as (_ & H & _).
  - vm_compute. discriminate.
  - exact H.
Defined.

(** ** The trade lifecycle *)

Import poller.

Lemma dict_get_del_other {V : Type} (k k' : string) (d : list (string * V)) :
  k <> k' -> Dict.get k' (Dict.del k d) = Dict.get k' d.
Proof.
  intros Hne. induction d as [| [k0 v0] rest IH]; [reflexivity |].
  cbn [Dict.del Dict.get].
  destruct (String.eqb k k0) eqn:E.
  - apply String.eqb_eq in E. subst k0.
    destruct (String.eqb k' k) eqn:E'; [| reflexivity].
    apply String.eqb_eq in E'. congruence.
  - cbn [Dict.get]. rewrite IH. reflexivity.
Qed.

Lemma dict_mem_del_other {V : Type} (k k' : string) (d : list (string * V)) :
  k <> k' -> Dict.mem k' (Dict.del k d) = Dict.mem k' d.
Proof.
  intros Hne. unfold Dict.mem. rewrite dict_get_del_other by assumption. reflexivity.
Qed.

Lemma dict_keys_del_subset {V : Type} (k x : string) (d : list (string * V)) :
  In x (Dict.keys (Dict.del k d)) -> In x (Dict.keys d).
Proof.
  unfold Dict.keys. induction d as [| [k0 v0] rest IH]; cbn [Dict.del map fst In];
    [tauto |].
  destruct (String.eqb k k0); cbn [map fst In]; tauto.
Qed.

(** Assignment and deletion keep the keys of a dictionary distinct. *)
Lemma dict_del_nodup {V : Type} (k : string) (d : list (string * V)) :
  NoDup (Dict.keys d) -> NoDup (Dict.keys (Dict.del k d)).
Proof.
  unfold Dict.keys. induction d as [| [k0 v0] rest IH]; cbn [Dict.del map fst];
    intros Hnd; [assumption |].
  inversion Hnd as [| ? ? Hnotin Hrest]; subst.
  destruct (String.eqb k k0); [assumption |].
  cbn [map fst]. constructor; [| apply IH; assumption].
  intros Hin. apply Hnotin. apply (dict_keys_del_subset k k0 rest Hin).
Qed.

Lemma dict_keys_set {V : Type} (k x : string) (v : V) (d : list (string * V)) :
  In x (Dict.keys (Dict.set k v d)) -> x = k \/ In x (Dict.keys d).
Proof.
  unfold Dict.keys. induction d as [| [k0 v0] rest IH]; cbn [Dict.set map fst In].
  - intros [H | []]. left. congruence.
  - destruct (String.eqb k k0) eqn:E; cbn [map fst In].
    + apply String.eqb_eq in E. subst k0. intros [H | H]; [left; congruence | tauto].
    + intros [H | H]; [tauto |]. destruct (IH H); tauto.
Qed.

Lemma dict_set_nodup {V : Type} (k : string) (v : V) (d : list (string * V)) :
  NoDup (Dict.keys d) -> NoDup (Dict.keys (Dict.set k v d)).
Proof.
  unfold Dict.keys. induction d as [| [k0 v0] rest IH]; cbn [Dict.set map fst];
    intros Hnd.
  - constructor; [intros [] | constructor].
  - inversion Hnd as [| ? ? Hnotin Hrest]; subst.
    destruct (String.eqb k k0) eqn:E.
    + apply String.eqb_eq in E. subst k0. cbn [map fst]. constructor; assumption.
    + apply String.eqb_neq in E. cbn [map fst].
      constructor; [| apply IH; assumption].
      intros Hin. destruct (dict_keys_set k k0 v rest Hin) as [H | H];
        [congruence | contradiction].
Qed.

Lemma dict_mem_keys {V : Type} (k : string) (d : list (string * V)) :
  In k (Dict.keys d) -> Dict.mem k d = true.
Proof.
  unfold Dict.mem, Dict.keys.
  induction d as [| [k0 v0] rest IH]; cbn [map fst In Dict.get]; [tauto |].
  intros [H | H].
  - subst k0. rewrite String.eqb_refl. reflexivity.
  - destruct (String.eqb k k0); [reflexivity | apply IH; assumption].
Qed.

Section Lifecycle.
Context {W : Type} {C : Collaborators W}.

Lemma exits_announced_app (a b : list Event) :
  exits_announced (a ++ b) = exits_announced a ++ exits_announced b.
Proof. unfold exits_announced. apply flat_map_app. Qed.

Lemma exit_results_app (a b : list Event) :
  exit_results (a ++ b) = exit_results a ++ exit_results b.
Proof. unfold exit_results. apply flat_map_app. Qed.

(** A refused exit changes nothing but the outside world and the trace. *)
Lemma exit_active_trade_refused (now : datetime) (symbol : string)
    (active_trade : ActiveTrade) (reason : ExitReason) (s : System W) (w' : W) :
  exit_position symbol (world s) = (false, w') ->
  exit_active_trade now symbol active_trade reason s =
  (tt, mkSystem (self_ s) w'
         (trace s ++ [Exiting symbol reason; ExitPosition symbol false])).
Proof.
  intros Hexit. unfold exit_active_trade, bind, emit, call.
  cbn [world self_ trace]. rewrite Hexit. unfold ret.
  rewrite <- app_assoc. reflexivity.
Qed.


(** In both cases one exit is announced and one broker call is made. *)
Lemma exit_active_trade_trace (now : datetime) (symbol : string)
    (active_trade : ActiveTrade) (reason : ExitReason) (s : System W) :
  let s' := snd (exit_active_trade now symbol active_trade reason s) in
  exits_announced (trace s') = exits_announced (trace s) ++ [(symbol, reason)]
  /\ exit_results (trace s')
     = exit_results (trace s) ++ [(symbol, fst (exit_position symbol (world s)))].
Proof.
  unfold exit_active_trade, bind, emit, call, modify_self, get_self, ret.
  cbn [world self_ trace].
  destruct (exit_position symbol (world s)) as [[|] w'].
  - cbn [world self_ trace].
    destruct (log_trade_exit _ _ _ _ w') as [logged w''].
    cbn [world self_ trace snd fst set_risk_manager active_trades].
    destruct (Dict.mem symbol (active_trades (self_ s)));
      cbn [snd trace fst];
      rewrite !exits_announced_app, !exit_results_app; cbn;
      rewrite ?app_nil_r; split; reflexivity.
  - cbn [snd trace fst].
    rewrite !exits_announced_app, !exit_results_app; cbn;
      rewrite ?app_nil_r; split; reflexivity.
Qed.

Lemma should_force_exit_ext (now : datetime) (a b : StockPoller) :
  config a = config b ->
  force_exit_triggered a = force_exit_triggered b ->
  should_force_exit now a = should_force_exit now b.
Proof.
  intros Hc Hf. unfold should_force_exit. rewrite Hc, Hf. reflexivity.
Qed.


Lemma exit_conditions_ext (now : datetime) (a b : StockPoller)
    (active_trade : ActiveTrade) (price : Q) :
  config a = config b ->
  force_exit_triggered a = force_exit_triggered b ->
  exit_conditions now a active_trade price = exit_conditions now b active_trade price.
Proof.
  intros Hc Hf. unfold exit_conditions.
  rewrite (should_force_exit_ext now a b Hc Hf). reflexivity.
Qed.

Lemma monitor_active_trade_priced (now : datetime) (symbol : string)
    (active_trade : ActiveTrade) (s : System W) (price : Q) (w' : W) :
  get_current_price symbol (world s) = (Some price, w') ->
  ~ price == 0 ->
  monitor_active_trade now symbol active_trade s =
  match exit_conditions now (self_ s) (refresh_trade now active_trade price) price with
  | Some exit_reason =>
      exit_active_trade now symbol (refresh_trade now active_trade price)
        exit_reason (refreshed now symbol active_trade price w' s)
  | None => (tt, refreshed now symbol active_trade price w' s)
  end.
Proof.
  intros Hprice Hnz.
  unfold monitor_active_trade, bind, call, modify_self, get_self, ret.
  rewrite Hprice.
  assert (Hz : Qeq_bool price 0 = false).
  { destruct (Qeq_bool price 0) eqn:E; [| reflexivity].
    apply Qeq_bool_iff in E. contradiction. }
  rewrite Hz. cbn [self_ world trace].
  fold (refreshed now symbol active_trade price w' s).
  rewrite (exit_conditions_ext now
             (self_ (refreshed now symbol active_trade price w' s)) (self_ s)).
  - destruct (exit_conditions _ _ _ _); reflexivity.
  - unfold refreshed. cbn [self_]. destruct (Dict.mem _ _); reflexivity.
  - unfold refreshed. cbn [self_]. destruct (Dict.mem _ _); reflexivity.
Qed.

(** The source's [if not current_price]: without a price, or with the
    [0.0] some brokers answer on failure, the step ends after the call. *)
Lemma monitor_active_trade_no_price (now : datetime) (symbol : string)
    (active_trade : ActiveTrade) (s : System W) (answer : option Q) (w' : W) :
  get_current_price symbol (world s) = (answer, w') ->
  match answer with Some price => price == 0 | None => True end ->
  monitor_active_trade now symbol active_trade s =
  (tt, mkSystem (self_ s) w' (trace s ++ [GetCurrentPrice symbol])).
Proof.
  intros Hprice Hfalsy.
  unfold monitor_active_trade, bind, call, ret. rewrite Hprice.
  destruct answer as [price |]; [| reflexivity].
  apply Qeq_bool_iff in Hfalsy. rewrite Hfalsy. reflexivity.
Qed.

Lemma Qle_bool_false (x y : Q) : Qle_bool x y = false -> y < x.
Proof.
  intros H. apply Qnot_le_lt. intros Hle. apply Qle_bool_iff in Hle. congruence.
Qed.









(** C9 (amended).  When the broker refuses the exit, the poller is left
    exactly as it was: the trade stays in the registry and no outcome is
    recorded; only the refused call is added to the trace.  Nothing
    counts the refusals: a later monitoring step calls the broker's exit
    again when, and only when, an exit condition matches the price it
    then gets. *)
Theorem exit_refused_then_reconsidered (now : datetime) (symbol : string)
    (t : ActiveTrade) (reason : ExitReason) (s : System W) (w' : W) :
  exit_position symbol (world s) = (false, w') ->
  let s' := snd (exit_active_trade now symbol t reason s) in
  self_ s' = self_ s
  /\ world s' = w'
  /\ exit_results (trace s') = exit_results (trace s) ++ [(symbol, false)]
  /\ (forall (later : datetime) (t' : ActiveTrade) (price : Q) (w'' : W),
        get_current_price symbol (world s') = (Some price, w'') ->
        ~ price == 0 ->
        let after := snd (monitor_active_trade later symbol t' s') in
        (forall r,
            exit_conditions later (self_ s) (refresh_trade later t' price) price
            = Some r ->
            exit_results (trace after)
            = exit_results (trace s') ++ [(symbol, fst (exit_position symbol w''))])
        /\ (exit_conditions later (self_ s) (refresh_trade later t' price) price
            = None ->
            exit_results (trace after) = exit_results (trace s'))).
Proof.
  intros Hexit s'.
  assert (Hs' : s' = mkSystem (self_ s) w'
                       (trace s ++ [Exiting symbol reason; ExitPosition symbol false])).
  { unfold s'. rewrite (exit_active_trade_refused now symbol t reason s w' Hexit).
    reflexivity. }
  repeat apply conj.
  - rewrite Hs'. reflexivity.
  - rewrite Hs'. reflexivity.
  - rewrite Hs'. cbn [trace]. rewrite exit_results_app. reflexivity.
  - intros later t' price w'' Hprice Hnz after.
    assert (Hself : self_ s' = self_ s) by (rewrite Hs'; reflexivity).
    assert (Hstep := monitor_active_trade_priced later symbol t' s' price w'' Hprice Hnz).
    rewrite Hself in Hstep.
    split.
    + intros r Hr. unfold after. rewrite Hstep, Hr.
      destruct (exit_active_trade_trace later symbol (refresh_trade later t' price) r
                  (refreshed later symbol t' price w'' s')) as [_ Hb].
      rewrite Hb. unfold refreshed. cbn [trace world].
      rewrite exit_results_app. cbn [exit_results flat_map].
      rewrite app_nil_r. reflexivity.
    + intros Hr. unfold after. rewrite Hstep, Hr.
      unfold refreshed. cbn [snd trace].
      rewrite exit_results_app. cbn [exit_results flat_map].
      rewrite app_nil_r. reflexivity.
Qed.

End Lifecycle.

(** ** The lifecycle on the sample inputs *)


(** C5.  One tick of a freshly constructed poller at 10:00, with the
    default cap of two active trades, three screened candidates and a
    decision oracle that approves each of them: the risk status is
    checked once, before the loop over the candidates, and the tick ends
    with three active trades. *)
Theorem tick_opens_more_than_max_active_trades :
  let after := snd (tick ten_am (mkSystem fresh_poller approving [])) in
  MAX_ACTIVE_TRADES (config (self_ after)) = 2%Z
  /\ Dict.keys (active_trades (self_ after)) = ["AAA"; "BBB"; "CCC"]%string
  /\ Dict.keys (positions (world after)) = ["AAA"; "BBB"; "CCC"]%string.
Proof.
  vm_compute. repeat split; reflexivity.
Qed.



Lemma refused_poll_step (now : datetime) (price pnl : Q)
    (checked polled : option datetime) (tr : list Event) :
  snd (poll_active_trades now
         (mkSystem (holding_reliance_at price pnl checked polled)
            (quoting (Some 2450) false) tr))
  = mkSystem
      (holding_reliance_at 2450 ((2450 - 2500) * inject_Z 20) (Some now) (Some now))
      (quoting (Some 2450) false)
      (((tr ++ [GetCurrentPrice "RELIANCE"]) ++ [Exiting "RELIANCE" STOP_LOSS])
       ++ [ExitPosition "RELIANCE" false]).
Proof. reflexivity. Qed.

Lemma refused_polls_count (instants : list datetime) :
  forall (price pnl : Q) (checked polled : option datetime) (tr : list Event),
    let s := poll_at instants
               (mkSystem (holding_reliance_at price pnl checked polled)
                  (quoting (Some 2450) false) tr) in
    List.length (exit_results (trace s))
    = (List.length (exit_results tr) + List.length instants)%nat
    /\ Dict.keys (active_trades (self_ s)) = ["RELIANCE"%string]
    /\ daily_trades (risk_manager (self_ s)) = [].
Proof.
  induction instants as [| now rest IH]; intros price pnl checked polled tr.
  - cbv zeta. cbn [poll_at trace self_]. rewrite Nat.add_0_r.
    repeat split; reflexivity.
  - cbn [poll_at]. rewrite refused_poll_step.
    destruct (IH 2450 ((2450 - 2500) * inject_Z 20) (Some now) (Some now)
                (((tr ++ [GetCurrentPrice "RELIANCE"])
                  ++ [Exiting "RELIANCE" STOP_LOSS])
                 ++ [ExitPosition "RELIANCE" false]))
      as (Hlen & Hkeys & Htrades).
    cbv zeta. rewrite Hlen, Hkeys, Htrades.
    rewrite !exit_results_app, !length_app. cbn. repeat split; try reflexivity. lia.
Qed.

(** C9 (as stated, refuted).  With the price at the stop and a broker
    that refuses every exit, each poll asks for the exit again: three
    polls give three refused calls with the trade still registered and
    nothing recorded, and the number of calls grows with the number of
    polls without bound.  And once the price is back between stop and
    target, the next poll does not ask again although no exit ever
    succeeded. *)
Lemma exit_retried_without_ceiling :
  let s0 := mkSystem holding_reliance (quoting (Some 2450) false) [] in
  (let s3 := poll_at [one_past_ten; two_past_ten; three_past_ten] s0 in
   exit_results (trace s3)
   = [("RELIANCE"%string, false); ("RELIANCE"%string, false);
      ("RELIANCE"%string, false)]
   /\ Dict.keys (active_trades (self_ s3)) = ["RELIANCE"%string]
   /\ daily_trades (risk_manager (self_ s3)) = [])
  /\ (forall instants : list datetime,
        List.length (exit_results (trace (poll_at instants s0)))
        = List.length instants)
  /\ ~ (exists ceiling : nat,
          forall instants : list datetime,
            (List.length (exit_results (trace (poll_at instants s0)))
             <= ceiling)%nat)
  /\ (let s1 := poll_at [one_past_ten] s0 in
      let s2 :=
        snd (poll_active_trades two_past_ten
               (mkSystem (self_ s1) (quoting (Some 2500) false) (trace s1))) in
      exit_results (trace s2) = [("RELIANCE"%string, false)]
      /\ Dict.keys (active_trades (self_ s2)) = ["RELIANCE"%string]).
Proof.
  assert (Hcount : forall instants : list datetime,
    List.length
      (exit_results
         (trace (poll_at instants
                   (mkSystem holding_reliance (quoting (Some 2450) false) []))))
    = List.length instants).
  { intros instants.
    exact (proj1 (refused_polls_count instants 2500 0 None None [])). }
  cbv zeta. repeat apply conj; try reflexivity.
  - exact Hcount.
  - intros [ceiling Hceiling].
    specialize (Hceiling (repeat ten_am (S ceiling))).
    rewrite Hcount, repeat_length in Hceiling. lia.
Qed.

Lemma exit_refused_then_reconsidered_witness :
  let s := mkSystem holding_reliance (quoting (Some 2450) false) [] in
  let s' :=
    snd (exit_active_trade one_past_ten "RELIANCE" reliance_trade STOP_LOSS s) in
  self_ s' = self_ s
  /\ exit_results (trace s') = [("RELIANCE"%string, false)].
Proof.
  intros s s'.
  assert (Hexit : exit_position "RELIANCE" (world s)
                  = (false, quoting (Some 2450) false)) by reflexivity.
  destruct (exit_refused_then_reconsidered one_past_ten "RELIANCE" reliance_trade
              STOP_LOSS s (quoting (Some 2450) false) Hexit)
    as (Hself & _ & Hcalls & _).
  split; assumption.
Defined.

(* ================================================================== *)
(** * Further properties *)

(** ** Risk reporting *)

Import risk_report.

Lemma py_sum_from (xs : list Q) (a : Q) :
  fold_left Qplus xs a == a + Py.sum xs.
Proof.
  unfold Py.sum. revert a. induction xs as [| x rest IH]; intros a; cbn.
  - ring.
  - rewrite (IH (a + x)), (IH (0 + x)). ring.
Qed.

Lemma py_sum_app (xs : list Q) (x : Q) : Py.sum (xs ++ [x]) == Py.sum xs + x.
Proof.
  unfold Py.sum. rewrite fold_left_app. cbn. reflexivity.
Qed.

Lemma py_sum_nonneg (xs : list Q) : Forall (fun x => 0 <= x) xs -> 0 <= Py.sum xs.
Proof.
  induction xs as [| x rest IH] using rev_ind; intros H.
  - unfold Py.sum. cbn. lra.
  - rewrite py_sum_app. apply Forall_app in H. destruct H as [Hr Hx].
    inversion Hx; subst. specialize (IH Hr). lra.
Qed.

Lemma py_sum_nonpos (xs : list Q) : Forall (fun x => x <= 0) xs -> Py.sum xs <= 0.
Proof.
  induction xs as [| x rest IH] using rev_ind; intros H.
  - unfold Py.sum. cbn. lra.
  - rewrite py_sum_app. apply Forall_app in H. destruct H as [Hr Hx].
    inversion Hx; subst. specialize (IH Hr). lra.
Qed.

Lemma wins_and_losses_bounded (trades : list TradeRecord) :
  (List.length (filter is_win trades) + List.length (filter is_losing trades)
   <= List.length trades)%nat.
Proof.
  induction trades as [| t rest IH]; cbn [filter List.length]; [lia |].
  unfold is_win at 1, is_losing at 1.
  destruct (Qlt_le_dec 0 (tr_pnl t)), (Qlt_le_dec (tr_pnl t) 0);
    cbn [List.length]; try lia; lra.
Qed.

(** What [record_trade_outcome] does to the counters, in both of its
    outcomes. *)
Lemma record_trade_outcome_effect (now : datetime) (self : RiskManager)
    (symbol : string) (entry exit : Q) (quantity : Z) (side : string) :
  let self' := fst (record_trade_outcome now self symbol entry exit quantity side) in
  self' = self
  \/ exists record : TradeRecord,
       daily_trades self' = daily_trades self ++ [record]
       /\ daily_pnl self' = daily_pnl self + tr_pnl record
       /\ daily_loss_count self'
          = (daily_loss_count self + (if is_losing record then 1 else 0))%Z.
Proof.
  unfold record_trade_outcome.
  destruct (Py.div _ _) as [ratio |]; [| left; reflexivity].
  right.
  set (pnl := if String.eqb side "BUY"
              then (exit - entry) * inject_Z quantity
              else (entry - exit) * inject_Z quantity).
  destruct (Qlt_le_dec pnl 0) as [Hneg | Hpos] eqn:E.
  - exists (mkTradeRecord symbol now entry exit quantity side pnl (ratio * 100) true).
    unfold is_losing. cbn. fold pnl. rewrite E. repeat split; reflexivity.
  - exists (mkTradeRecord symbol now entry exit quantity side pnl (ratio * 100) false).
    unfold is_losing. cbn. fold pnl. rewrite E, Z.add_0_r. repeat split; reflexivity.
Qed.

Lemma perform_losses_counted (now : datetime) (c : Call) (self : RiskManager) :
  losses_counted self -> losses_counted (perform now c self).
Proof.
  unfold losses_counted. intros Hinv.
  assert (Hreset : losses_counted (reset_daily_metrics now self)).
  { unfold losses_counted.
    destruct (reset_cases now self) as [[_ E] | [_ E]]; rewrite E;
      [assumption | reflexivity]. }
  unfold losses_counted in Hreset.
  destruct c as [| sym entry stop target confidence | held
                  | sym entry exit qty side]; cbn [perform].
  - exact Hreset.
  - rewrite validate_state. exact Hreset.
  - destruct (check_state now self held) as (Ht & Hc & _).
    rewrite Ht, Hc. exact Hreset.
  - destruct (record_trade_outcome_effect now self sym entry exit qty side)
      as [E | (record & Ht & _ & Hc)].
    + rewrite E. assumption.
    + rewrite Ht, Hc, Hinv, filter_app, length_app. cbn [filter].
      destruct (is_losing record); cbn [List.length]; lia.
Qed.

Lemma run_losses_counted (self : RiskManager) (calls : list (datetime * Call)) :
  losses_counted self -> losses_counted (run self calls).
Proof.
  revert self. induction calls as [| [now c] rest IH]; intros self Hinv;
    [assumption |].
  cbn [run]. apply IH, perform_losses_counted, Hinv.
Qed.

Lemma get_risk_summary_state (now : datetime) (self : RiskManager) :
  fst (get_risk_summary now self) = reset_daily_metrics now self.
Proof.
  unfold get_risk_summary. destruct (Py.div _ _); reflexivity.
Qed.

(** X1. In every state the risk manager reaches from its construction,
    [daily_loss_count] is the number of the day's recorded trades with a
    negative P&L; so the [losing_trades] figure of [get_risk_summary]
    always equals the loss counter the trading limits are checked
    against. *)
Theorem loss_counter_matches_records (config : TradingBotConfig) (t0 : datetime)
    (calls : list (datetime * Call)) (now : datetime) :
  let self := run (risk_manager.init config t0) calls in
  daily_loss_count self
  = Z.of_nat (List.length (filter is_losing (daily_trades self)))
  /\ forall summary : RiskSummary,
       snd (get_risk_summary now self) = Some summary ->
       losing_trades summary = rs_daily_loss_count summary.
Proof.
  cbv zeta.
  assert (Hinv : losses_counted (run (risk_manager.init config t0) calls))
    by (apply run_losses_counted; reflexivity).
  split; [exact Hinv |].
  intros summary Hsum.
  assert (Hreset := perform_losses_counted now ResetDailyMetrics _ Hinv).
  cbn [perform] in Hreset. unfold losses_counted in Hreset.
  unfold get_risk_summary in Hsum.
  destruct (Py.div _ _); [| discriminate].
  cbn [snd] in Hsum. injection Hsum as <-. cbn [losing_trades rs_daily_loss_count].
  symmetry. exact Hreset.
Qed.
Lemma wins_nonneg (trades : list TradeRecord) :
  0 <= Py.sum (map tr_pnl (filter is_win trades)).
Proof.
  apply py_sum_nonneg. apply Forall_forall. intros x Hx.
  apply in_map_iff in Hx. destruct Hx as (t & <- & Ht).
  apply filter_In in Ht. destruct Ht as [_ Hw]. unfold is_win in Hw.
  destruct (Qlt_le_dec 0 (tr_pnl t)); [lra | discriminate].
Qed.

Lemma losses_nonpos (trades : list TradeRecord) :
  Py.sum (map tr_pnl (filter is_losing trades)) <= 0.
Proof.
  apply py_sum_nonpos. apply Forall_forall. intros x Hx.
  apply in_map_iff in Hx. destruct Hx as (t & <- & Ht).
  apply filter_In in Ht. destruct Ht as [_ Hw]. unfold is_losing in Hw.
  destruct (Qlt_le_dec (tr_pnl t) 0); [lra | discriminate].
Qed.

Lemma inject_Z_pos (n : Z) : (0 < n)%Z -> 0 < inject_Z n.
Proof. intros H. change (inject_Z 0 < inject_Z n). rewrite <- Zlt_Qlt. assumption. Qed.

Lemma share_of_hundred (w t : Z) :
  (0 <= w <= t)%Z -> (0 < t)%Z ->
  0 <= inject_Z w / inject_Z t * 100 /\ inject_Z w / inject_Z t * 100 <= 100.
Proof.
  intros [Hw Hwt] Ht.
  assert (Ht' := inject_Z_pos t Ht).
  assert (Hw' := inject_Z_nonneg w Hw).
  assert (Hle : inject_Z w <= inject_Z t) by (rewrite <- Zle_Qle; assumption).
  assert (H0 : 0 <= inject_Z w / inject_Z t) by (apply div_nonneg; assumption).
  assert (H1 : inject_Z w / inject_Z t <= 1).
  { apply Qle_shift_div_r; [assumption | lra]. }
  split; lra.
Qed.

(** X2. [get_risk_summary] returns the empty dictionary exactly when
    the initial capital is zero (the capital-change percentage divides
    by it).  Otherwise its figures are consistent: winners and losers
    are disjoint parts of the day's trades, the win rate lies between 0
    and 100, the average win is not negative and the average loss not
    positive, every average is 0 on a day without trades, and the
    reported capital is the initial capital plus the daily P&L. *)
Theorem get_risk_summary_figures (now : datetime) (self : RiskManager) :
  (initial_capital self == 0 -> snd (get_risk_summary now self) = None)
  /\ (~ initial_capital self == 0 ->
      exists summary : RiskSummary,
        snd (get_risk_summary now self) = Some summary
        /\ (0 <= winning_trades summary)%Z
        /\ (0 <= losing_trades summary)%Z
        /\ (winning_trades summary + losing_trades summary
            <= total_trades summary)%Z
        /\ 0 <= win_rate_pct summary <= 100
        /\ 0 <= avg_win summary
        /\ avg_loss summary <= 0
        /\ (total_trades summary = 0%Z ->
            win_rate_pct summary == 0 /\ avg_pnl summary == 0
            /\ avg_win summary == 0 /\ avg_loss summary == 0)
        /\ current_capital summary
           == initial_capital self + rs_daily_pnl summary
        /\ capital_change_pct summary
           == rs_daily_pnl summary / initial_capital self * 100).
Proof.
  destruct (reset_keeps_parameters now self) as (Hinit & _).
  unfold get_risk_summary.
  set (self0 := reset_daily_metrics now self) in *.
  split.
  - intros Hzero. rewrite py_div_none; [reflexivity |]. rewrite Hinit. assumption.
  - intros Hnz. rewrite py_div_some by (rewrite Hinit; assumption).
    eexists. split; [reflexivity |].
    cbn [winning_trades losing_trades total_trades win_rate_pct avg_pnl avg_win
         avg_loss current_capital capital_change_pct rs_daily_pnl].
    set (trades := daily_trades self0).
    assert (Hbound := wins_and_losses_bounded trades).
    assert (Hwins := wins_nonneg trades).
    assert (Hlosses := losses_nonpos trades).
    set (w := List.length (filter is_win trades)) in *.
    set (l := List.length (filter is_losing trades)) in *.
    repeat apply conj.
    + lia.
    + lia.
    + lia.
    + destruct (0 <? Z.of_nat (List.length trades))%Z eqn:Ht.
      * apply Z.ltb_lt in Ht. apply share_of_hundred; lia.
      * lra.
    + destruct (0 <? Z.of_nat (List.length trades))%Z eqn:Ht.
      * apply Z.ltb_lt in Ht. apply share_of_hundred; lia.
      * lra.
    + destruct trades as [| t rest] eqn:Et; cbn [fst snd]; [lra |].
      apply div_nonneg; [exact Hwins | apply inject_Z_pos; lia].
    + destruct trades as [| t rest] eqn:Et; cbn [fst snd]; [lra |].
      assert (Hd : 0 < inject_Z (Z.max (Z.of_nat l) 1)) by (apply inject_Z_pos; lia).
      apply Qle_shift_div_r; [assumption | lra].
    + intros Hnone.
      assert (trades = []) by (destruct trades; [reflexivity | cbn in Hnone; lia]).
      clearbody trades. subst trades. cbn. repeat split; reflexivity.
    + unfold get_current_capital. rewrite Hinit. reflexivity.
    + rewrite Hinit. reflexivity.
Qed.

Lemma get_risk_summary_figures_witness :
  let now := mkDatetime 739000 36000000000 in
  let self :=
    fst (record_trade_outcome now (risk_manager.init default_config now)
           "RELIANCE" 2500 2550 10 "BUY") in
  exists summary : RiskSummary,
    snd (get_risk_summary now self) = Some summary
    /\ (winning_trades summary + losing_trades summary
        <= total_trades summary)%Z
    /\ 0 <= win_rate_pct summary <= 100.
Proof.
  intros now self.
  assert (Hnz : ~ initial_capital self == 0) by (vm_compute; discriminate).
  destruct (proj2 (get_risk_summary_figures now self) Hnz)
    as (summary & Hsome & _ & _ & Hparts & Hrate & _).
  exists summary. repeat split; try assumption; apply Hrate.
Defined.
(** X3. Right after a permission check on an account with positive
    capital, the narrative of [get_current_risk_status] and the status
    of the check agree on every stop reason but the trade cap, which
    the narrative does not look at: below the cap, the check answers
    [MAX_DAILY_LOSSES], [MAX_DRAWDOWN_EXCEEDED] or [NEAR_MARKET_CLOSE]
    exactly when the narrative is the corresponding STOPPED or STOPPING
    line, and trading is allowed exactly when the narrative is a CAUTION
    or NORMAL line. *)
Theorem narrative_agrees_with_permission (now : datetime) (self : RiskManager)
    (held : list (string * Position)) :
  0 < initial_capital self ->
  0 < start_of_day_capital self ->
  (Z.of_nat (List.length held) < max_active_trades self)%Z ->
  let result := check_trading_allowed now self held in
  let narrative := get_current_risk_status now (fst result) in
  (risk_status (snd result) = MAX_DAILY_LOSSES_STATUS
   <-> narrative = STOPPED_MAX_DAILY_LOSSES)
  /\ (risk_status (snd result) = MAX_DRAWDOWN_EXCEEDED
      <-> narrative = STOPPED_MAX_DRAWDOWN)
  /\ (risk_status (snd result) = NEAR_MARKET_CLOSE
      <-> narrative = STOPPING_NEAR_MARKET_CLOSE)
  /\ (is_trading_allowed (snd result) = true
      <-> narrative = CAUTION_LOSS_LIMIT \/ narrative = CAUTION_DRAWDOWN_LIMIT
          \/ narrative = NORMAL_TRADING_ALLOWED).
Proof.
  intros Hinit Hstart Hcap result narrative. unfold narrative, result.
  rewrite (check_trading_allowed_ok now self held Hinit Hstart).
  cbn [fst snd risk_status is_trading_allowed].
  destruct (reset_keeps_parameters now self) as (_ & _ & Hmat & _).
  match goal with
  | |- context [trading_status now ?s ?a] => set (self1 := s)
  end.
  assert (Hmat1 : max_active_trades self1 = max_active_trades self)
    by (unfold self1; cbn; exact Hmat).
  unfold trading_status, get_current_risk_status. rewrite Hmat1.
  destruct (max_active_trades self <=? Z.of_nat (List.length held))%Z eqn:H0;
    [apply Z.leb_le in H0; lia |].
  destruct (max_daily_losses self1 <=? daily_loss_count self1)%Z;
    [cbn; repeat split; intros; try reflexivity; try discriminate;
     intuition discriminate |].
  destruct (Qle_bool (max_daily_drawdown self1) (max_drawdown_today self1));
    [cbn; repeat split; intros; try reflexivity; try discriminate;
     intuition discriminate |].
  destruct (is_near_market_close now);
    [cbn; repeat split; intros; try reflexivity; try discriminate;
     intuition discriminate |].
  destruct (Qle_bool _ _);
    [cbn; repeat split; intros; try reflexivity; try discriminate; tauto |].
  destruct (Qle_bool _ _);
    cbn; repeat split; intros; try reflexivity; try discriminate; tauto.
Qed.

Lemma narrative_agrees_with_permission_witness :
  let now := mkDatetime 739000 36000000000 in
  let self :=
    risk_manager.with_daily (risk_manager.init default_config now)
      [] 500 3 0 100000 739000 in
  get_current_risk_status now (fst (check_trading_allowed now self []))
  = STOPPED_MAX_DAILY_LOSSES.
Proof.
  intros now self.
  assert (Hinit : 0 < initial_capital self) by (vm_compute; reflexivity).
  assert (Hstart : 0 < start_of_day_capital self) by (vm_compute; reflexivity).
  assert (Hcap : (Z.of_nat (@List.length (string * Position) [])
                  < max_active_trades self)%Z) by (vm_compute; reflexivity).
  destruct (narrative_agrees_with_permission now self [] Hinit Hstart Hcap)
    as (Hlosses & _).
  apply Hlosses. reflexivity.
Defined.

Lemma late_hour_is_near_close (now : datetime) :
  (15 <=? dt_hour now)%Z = true -> is_near_market_close now = true.
Proof.
  intros H. unfold is_near_market_close. rewrite H. reflexivity.
Qed.

(** X4. Whenever [should_force_exit_all] asks for every position to be
    closed (from 10 minutes past an hour from 15:00 on, or with the
    drawdown or the loss cap reached), the permission check made at the
    same instant has refused new trades. *)
Theorem force_exit_all_implies_no_trading (now : datetime) (self : RiskManager)
    (held : list (string * Position)) :
  0 < initial_capital self ->
  0 < start_of_day_capital self ->
  let result := check_trading_allowed now self held in
  should_force_exit_all now (fst result) = true ->
  is_trading_allowed (snd result) = false.
Proof.
  intros Hinit Hstart result. unfold result.
  rewrite (check_trading_allowed_ok now self held Hinit Hstart).
  cbn [fst snd is_trading_allowed].
  match goal with
  | |- context [trading_status now ?s ?a] => set (self1 := s); set (active := a)
  end.
  unfold should_force_exit_all, trading_status.
  destruct (max_active_trades self1 <=? active)%Z; [reflexivity |].
  destruct (max_daily_losses self1 <=? daily_loss_count self1)%Z; [reflexivity |].
  destruct (Qle_bool (max_daily_drawdown self1) (max_drawdown_today self1));
    [reflexivity |].
  destruct (15 <=? dt_hour now)%Z eqn:Hh.
  - rewrite (late_hour_is_near_close now Hh). reflexivity.
  - cbn [andb]. discriminate.
Qed.

Lemma force_exit_all_implies_no_trading_witness :
  let now := mkDatetime 739000 54900000000 in
  let self := risk_manager.init default_config now in
  is_trading_allowed (snd (check_trading_allowed now self [])) = false.
Proof.
  intros now self.
  assert (Hinit : 0 < initial_capital self) by (vm_compute; reflexivity).
  assert (Hstart : 0 < start_of_day_capital self) by (vm_compute; reflexivity).
  apply (force_exit_all_implies_no_trading now self [] Hinit Hstart).
  vm_compute. reflexivity.
Defined.
Lemma perform_pnl_booked (now : datetime) (c : Call) (self : RiskManager) :
  no_permission_check c -> pnl_booked self -> pnl_booked (perform now c self).
Proof.
  unfold pnl_booked. intros Hc Hinv.
  assert (Hreset : pnl_booked (reset_daily_metrics now self)).
  { unfold pnl_booked.
    destruct (reset_cases now self) as [[_ E] | [_ E]]; rewrite E;
      [assumption | reflexivity]. }
  unfold pnl_booked in Hreset.
  destruct c as [| sym entry stop target confidence | held
                  | sym entry exit qty side]; cbn [perform].
  - exact Hreset.
  - rewrite validate_state. exact Hreset.
  - contradiction.
  - destruct (record_trade_outcome_effect now self sym entry exit qty side)
      as [E | (record & Ht & Hp & _)].
    + rewrite E. assumption.
    + rewrite Ht, Hp, map_app. cbn [map].
      rewrite py_sum_app, Hinv. reflexivity.
Qed.

(** X5. As long as no permission check is made, [daily_pnl] is the sum
    of the P&L of the trades recorded that day, across resets,
    validations and recorded outcomes (a permission check replaces it
    by the unrealized total of the open positions). *)
Theorem daily_pnl_is_booked_pnl (config : TradingBotConfig) (t0 : datetime)
    (calls : list (datetime * Call)) :
  Forall (fun call => no_permission_check (snd call)) calls ->
  let self := run (risk_manager.init config t0) calls in
  daily_pnl self == Py.sum (map tr_pnl (daily_trades self)).
Proof.
  intros Hcalls. cbv zeta.
  assert (Hgen : forall self, pnl_booked self -> pnl_booked (run self calls)).
  { induction calls as [| [now c] rest IH]; intros self Hinv; [assumption |].
    inversion Hcalls as [| ? ? Hc Hrest]; subst.
    cbn [run]. apply IH; [assumption |].
    apply perform_pnl_booked; assumption. }
  apply Hgen. unfold pnl_booked. reflexivity.
Qed.

Lemma daily_pnl_is_booked_pnl_witness :
  let now := mkDatetime 739000 36000000000 in
  let self :=
    run (risk_manager.init default_config now)
      [(now, RecordTradeOutcome "RELIANCE" 2500 2550 10 "BUY");
       (now, RecordTradeOutcome "TCS" 3800 3700 5 "BUY");
       (now, ResetDailyMetrics)] in
  daily_pnl self == Py.sum (map tr_pnl (daily_trades self))
  /\ daily_pnl self == 0.
Proof.
  intros now self. split.
  - apply daily_pnl_is_booked_pnl. repeat constructor.
  - vm_compute. reflexivity.
Defined.


(** ** The polling loop *)

Import spy.

Lemma orders_placed_app (a b : list Event) :
  orders_placed (a ++ b) = orders_placed a ++ orders_placed b.
Proof. unfold orders_placed. apply flat_map_app. Qed.

Lemma prices_requested_app (a b : list Event) :
  prices_requested (a ++ b) = prices_requested a ++ prices_requested b.
Proof. unfold prices_requested. apply flat_map_app. Qed.

Lemma is_market_hours_iff (now : datetime) (self : StockPoller) :
  is_market_hours now self = true
  <-> (market_open_micros self <= dt_micros now <= market_close_micros)%Z.
Proof.
  unfold is_market_hours, market_open_micros, market_close_micros, dt_geb,
    dt_replace_hm, micros_per_second.
  cbn [dt_date dt_micros].
  rewrite Z.ltb_irrefl, Z.eqb_refl. cbn [orb andb].
  rewrite andb_true_iff, !Z.leb_le. lia.
Qed.

Lemma dict_keys_set_present {V : Type} (k : string) (v : V) (d : list (string * V)) :
  Dict.mem k d = true -> Dict.keys (Dict.set k v d) = Dict.keys d.
Proof.
  unfold Dict.mem, Dict.keys.
  induction d as [| [k0 v0] rest IH]; cbn [Dict.get Dict.set map fst];
    [discriminate |].
  destruct (String.eqb k k0) eqn:E.
  - apply String.eqb_eq in E. subst k0. reflexivity.
  - intros H. cbn [map fst]. rewrite IH by assumption. reflexivity.
Qed.

Lemma near_close_refuses (now : datetime) (rm : RiskManager)
    (held : list (string * Position)) :
  (53400000000 < dt_micros now)%Z ->
  is_trading_allowed (snd (check_trading_allowed now rm held)) = false.
Proof.
  intros Hlate. apply near_market_close_iff in Hlate.
  unfold check_trading_allowed.
  match goal with
  | |- context [match ?step with Some _ => _ | None => _ end] =>
      destruct step as [self1 |]
  end; [| reflexivity].
  unfold trading_status. rewrite Hlate.
  destruct (_ <=? _)%Z; [reflexivity |].
  destruct (_ <=? _)%Z; [reflexivity |].
  destruct (Qle_bool _ _); reflexivity.
Qed.

Section Loop.
Context {W : Type} {C : Collaborators W}.

(** The state a tick works on once the rollover test is done. *)
Lemma tick_outside_hours (now : datetime) (s : System W) :
  is_market_hours now (self_ s) = false ->
  tick now s =
  (tt,
   match last_screening_time (self_ s) with
   | Some t =>
       if (dt_date t <? dt_date now)%Z
       then snd (reset_daily_state now s)
       else s
   | None => s
   end).
Proof.
  intros Hclosed. unfold tick, bind, get_self, ret.
  destruct (last_screening_time (self_ s)) as [t |].
  - destruct (dt_date t <? dt_date now)%Z.
    + unfold reset_daily_state, modify_self. cbn [self_ world trace snd].
      unfold is_market_hours in *. cbn [config]. rewrite Hclosed. reflexivity.
    + rewrite Hclosed. reflexivity.
  - rewrite Hclosed. reflexivity.
Qed.

(** X6. Before the configured opening time and after 15:30 a tick calls
    no collaborator.  If the date is later than that of the last
    screening it empties both registries (without asking the broker to
    exit the trades they held), clears the two daily flags and applies
    the daily reset check to the risk manager; otherwise it leaves the
    poller exactly as it was. *)
Theorem tick_outside_market_hours (now : datetime) (s : System W) :
  (dt_micros now < market_open_micros (self_ s)
   \/ market_close_micros < dt_micros now)%Z ->
  let s' := snd (tick now s) in
  trace s' = trace s
  /\ world s' = world s
  /\ (new_day now (self_ s) ->
      active_trades (self_ s') = []
      /\ monitored_stocks (self_ s') = []
      /\ daily_screening_done (self_ s') = false
      /\ force_exit_triggered (self_ s') = false
      /\ risk_manager (self_ s')
         = reset_daily_metrics now (risk_manager (self_ s)))
  /\ (~ new_day now (self_ s) -> self_ s' = self_ s).
Proof.
  intros Hout.
  assert (Hclosed : is_market_hours now (self_ s) = false).
  { destruct (is_market_hours now (self_ s)) eqn:E; [| reflexivity].
    apply is_market_hours_iff in E. lia. }
  cbv zeta. rewrite (tick_outside_hours now s Hclosed). cbn [snd].
  unfold new_day.
  destruct (last_screening_time (self_ s)) as [t |].
  - destruct (dt_date t <? dt_date now)%Z eqn:E;
      [apply Z.ltb_lt in E | apply Z.ltb_ge in E].
    + unfold reset_daily_state, modify_self. cbn [snd self_ world trace].
      split; [reflexivity |]. split; [reflexivity |]. split.
      * intros _. cbn. repeat split; reflexivity.
      * intros Hn. exfalso. apply Hn. exact E.
    + split; [reflexivity |]. split; [reflexivity |]. split.
      * intros Hn. lia.
      * intros _. reflexivity.
  - split; [reflexivity |]. split; [reflexivity |]. split.
    + intros Hn. contradiction.
    + intros _. reflexivity.
Qed.

(** What one exit leaves of the trace and of the registry. *)
Lemma exit_active_trade_quiet (now : datetime) (symbol : string)
    (t : ActiveTrade) (reason : ExitReason) (s : System W) :
  let s' := snd (exit_active_trade now symbol t reason s) in
  orders_placed (trace s') = orders_placed (trace s)
  /\ prices_requested (trace s') = prices_requested (trace s)
  /\ (forall x, In x (Dict.keys (active_trades (self_ s'))) ->
                In x (Dict.keys (active_trades (self_ s)))).
Proof.
  unfold exit_active_trade, bind, emit, call, modify_self, get_self, ret.
  cbn [world self_ trace].
  destruct (exit_position symbol (world s)) as [[|] w'].
  - cbn [world self_ trace].
    destruct (log_trade_exit _ _ _ _ w') as [logged w''].
    cbn [world self_ trace snd fst set_risk_manager active_trades].
    destruct (Dict.mem symbol (active_trades (self_ s)));
      cbn [snd trace fst self_ set_monitored_stocks set_active_trades
           set_risk_manager active_trades];
      rewrite !orders_placed_app, !prices_requested_app; cbn;
      rewrite ?app_nil_r; repeat split; try reflexivity; try tauto.
    intros x Hx. apply (dict_keys_del_subset symbol x _ Hx).
  - cbn [snd trace fst self_].
    rewrite !orders_placed_app, !prices_requested_app; cbn;
      rewrite ?app_nil_r; repeat split; try reflexivity; tauto.
Qed.

(** One monitoring step asks for one price, places no order and adds
    nothing to the registry. *)
Lemma monitor_active_trade_quiet (now : datetime) (symbol : string)
    (t : ActiveTrade) (s : System W) :
  let s' := snd (monitor_active_trade now symbol t s) in
  orders_placed (trace s') = orders_placed (trace s)
  /\ prices_requested (trace s') = prices_requested (trace s) ++ [symbol]
  /\ (forall x, In x (Dict.keys (active_trades (self_ s'))) ->
                In x (Dict.keys (active_trades (self_ s)))).
Proof.
  destruct (get_current_price symbol (world s)) as [answer w'] eqn:Hprice.
  assert (Hquiet : forall s1 : System W,
    s1 = mkSystem (self_ s) w' (trace s ++ [GetCurrentPrice symbol]) ->
    orders_placed (trace s1) = orders_placed (trace s)
    /\ prices_requested (trace s1) = prices_requested (trace s) ++ [symbol]
    /\ (forall x, In x (Dict.keys (active_trades (self_ s1))) ->
                  In x (Dict.keys (active_trades (self_ s))))).
  { intros s1 ->. cbn [trace self_].
    rewrite orders_placed_app, prices_requested_app. cbn.
    rewrite app_nil_r. repeat split; try reflexivity. tauto. }
  destruct answer as [price |].
  - destruct (Qeq_dec price 0) as [Hz | Hnz].
    + rewrite (monitor_active_trade_no_price now symbol t s (Some price) w' Hprice Hz).
      apply Hquiet. reflexivity.
    + cbv zeta.
      rewrite (monitor_active_trade_priced now symbol t s price w' Hprice Hnz).
      assert (Href :
        orders_placed (trace (refreshed now symbol t price w' s))
        = orders_placed (trace s)
        /\ prices_requested (trace (refreshed now symbol t price w' s))
           = prices_requested (trace s) ++ [symbol]
        /\ (forall x,
              In x (Dict.keys (active_trades
                                 (self_ (refreshed now symbol t price w' s)))) ->
              In x (Dict.keys (active_trades (self_ s))))).
      { unfold refreshed. cbn [trace self_].
        rewrite orders_placed_app, prices_requested_app. cbn.
        rewrite app_nil_r. repeat split; try reflexivity.
        destruct (Dict.mem symbol (active_trades (self_ s))) eqn:Hmem;
          [| tauto].
        cbn [set_active_trades active_trades].
        rewrite dict_keys_set_present by assumption. tauto. }
      destruct Href as (Ho & Hp & Hk).
      destruct (exit_conditions _ _ _ _) as [reason |]; [| cbn [snd]; tauto].
      destruct (exit_active_trade_quiet now symbol (refresh_trade now t price)
                  reason (refreshed now symbol t price w' s)) as (Ho' & Hp' & Hk').
      rewrite Ho', Hp', Ho, Hp. repeat split; try reflexivity.
      intros x Hx. apply Hk, Hk', Hx.
  - rewrite (monitor_active_trade_no_price now symbol t s None w' Hprice I).
    apply Hquiet. reflexivity.
Qed.

Lemma monitor_each_quiet (now : datetime) (items : list (string * ActiveTrade)) :
  forall s : System W,
    let s' := snd (monitor_each now items s) in
    orders_placed (trace s') = orders_placed (trace s)
    /\ prices_requested (trace s') = prices_requested (trace s) ++ Dict.keys items
    /\ (forall x, In x (Dict.keys (active_trades (self_ s'))) ->
                  In x (Dict.keys (active_trades (self_ s)))).
Proof.
  induction items as [| [symbol t] rest IH]; intros s.
  - cbn. rewrite app_nil_r. repeat split; try reflexivity. tauto.
  - cbn [monitor_each]. unfold bind.
    destruct (monitor_active_trade now symbol t s) as [u s1] eqn:Hstep.
    destruct (monitor_active_trade_quiet now symbol t s) as (Ho & Hp & Hk).
    rewrite Hstep in Ho, Hp, Hk. cbn [snd] in Ho, Hp, Hk.
    destruct (IH s1) as (Ho' & Hp' & Hk').
    cbv zeta. rewrite Ho', Hp', Ho, Hp. cbn [Dict.keys map fst].
    rewrite <- app_assoc. repeat split; try reflexivity.
    intros x Hx. apply Hk, Hk', Hx.
Qed.

(** X7. One active-trade poll asks the broker for the price of every
    registered trade exactly once, in registry order; it places no
    order, and no symbol enters the registry. *)
Theorem poll_active_trades_asks_each_price_once (now : datetime) (s : System W) :
  let s' := snd (poll_active_trades now s) in
  prices_requested (trace s')
  = prices_requested (trace s) ++ Dict.keys (active_trades (self_ s))
  /\ orders_placed (trace s') = orders_placed (trace s)
  /\ (forall x, In x (Dict.keys (active_trades (self_ s'))) ->
                In x (Dict.keys (active_trades (self_ s)))).
Proof.
  unfold poll_active_trades, bind, get_self, modify_self, ret.
  destruct (active_trades (self_ s)) as [| item rest] eqn:Hreg.
  - cbn. rewrite app_nil_r, Hreg. repeat split; try reflexivity. tauto.
  - destruct (monitor_each now (item :: rest) s) as [u s1] eqn:Hrun.
    destruct (monitor_each_quiet now (item :: rest) s) as (Ho & Hp & Hk).
    rewrite Hrun in Ho, Hp, Hk. cbn [snd] in Ho, Hp, Hk.
    cbn [snd trace self_ set_last_active_poll active_trades].
    rewrite Hreg in Hk. repeat split; assumption.
Qed.

(** X8. When the risk manager refuses trading, the inactive-stock poll
    calls no collaborator: no price is asked, no decision is requested,
    no order is placed.  The registries and the time of the last
    inactive poll stay as they were, so the poll is due again at the
    next tick; only the risk manager carries the outcome of the check. *)
Theorem poll_inactive_stocks_refused (now : datetime) (s : System W) :
  is_trading_allowed
    (snd (check_trading_allowed now (risk_manager (self_ s))
            (positions (world s)))) = false ->
  let s' := snd (poll_inactive_stocks now s) in
  trace s' = trace s
  /\ world s' = world s
  /\ active_trades (self_ s') = active_trades (self_ s)
  /\ monitored_stocks (self_ s') = monitored_stocks (self_ s)
  /\ last_inactive_poll (self_ s') = last_inactive_poll (self_ s).
Proof.
  intros Hrefused.
  unfold poll_inactive_stocks, bind, get_self, ret.
  destruct (monitored_stocks (self_ s)) as [| m rest] eqn:Hm.
  - cbn [snd]. rewrite Hm. repeat split; reflexivity.
  - destruct (check_trading_allowed now (risk_manager (self_ s))
                (positions (world s))) as [rm account_risk].
    cbn [snd] in Hrefused. rewrite Hrefused.
    cbn [snd trace world self_ set_risk_manager active_trades
         monitored_stocks last_inactive_poll].
    rewrite Hm. repeat split; reflexivity.
Qed.

Lemma poll_inactive_stocks_late (now : datetime) (s : System W) :
  (53400000000 < dt_micros now)%Z ->
  orders_placed (trace (snd (poll_inactive_stocks now s)))
  = orders_placed (trace s).
Proof.
  intros Hlate.
  pose proof (near_close_refuses now (risk_manager (self_ s))
                (positions (world s)) Hlate) as Hrefused.
  unfold poll_inactive_stocks, bind, get_self, ret.
  destruct (monitored_stocks (self_ s)) as [| m rest]; [reflexivity |].
  destruct (check_trading_allowed now (risk_manager (self_ s))
              (positions (world s))) as [rm account_risk].
  cbn [snd] in Hrefused. rewrite Hrefused. reflexivity.
Qed.

Lemma exit_each_quiet (now : datetime) (symbols : list string) :
  forall s : System W,
    orders_placed (trace (snd (exit_each now symbols s)))
    = orders_placed (trace s).
Proof.
  induction symbols as [| symbol rest IH]; intros s; [reflexivity |].
  cbn [exit_each]. unfold bind, get_self, ret.
  destruct (Dict.get symbol (active_trades (self_ s))) as [t |];
    [| reflexivity].
  destruct (exit_active_trade now symbol t MARKET_CLOSE s) as [u s1] eqn:Hstep.
  destruct (exit_active_trade_quiet now symbol t MARKET_CLOSE s) as (Ho & _).
  rewrite Hstep in Ho. cbn [snd] in Ho. rewrite IH. exact Ho.
Qed.

Lemma force_exit_all_trades_quiet (now : datetime) (s : System W) :
  orders_placed (trace (snd (force_exit_all_trades now s)))
  = orders_placed (trace s).
Proof.
  unfold force_exit_all_trades, bind, get_self, ret, call, modify_self.
  destruct (force_exit_triggered (self_ s)); [reflexivity |].
  pose proof (exit_each_quiet now (Dict.keys (active_trades (self_ s))) s) as Ho.
  destruct (exit_each now (Dict.keys (active_trades (self_ s))) s)
    as [[|] s1]; cbn [snd] in Ho; [| exact Ho].
  cbn [world self_ trace].
  destruct (force_exit_all_positions (world s1)) as [[r |] w'];
    cbn [snd trace]; rewrite orders_placed_app, Ho; cbn;
    apply app_nil_r.
Qed.

Lemma daily_market_screening_quiet (now : datetime) (s : System W) :
  orders_placed (trace (snd (daily_market_screening now s)))
  = orders_placed (trace s).
Proof.
  unfold daily_market_screening, bind, get_self, ret, call, modify_self.
  cbn [world self_ trace].
  destruct (screen_top_stocks (world s)) as [[| c rest] w'];
    cbn [snd trace]; rewrite orders_placed_app; cbn; apply app_nil_r.
Qed.

Lemma poll_active_trades_quiet (now : datetime) (s : System W) :
  orders_placed (trace (snd (poll_active_trades now s)))
  = orders_placed (trace s).
Proof.
  unfold poll_active_trades, bind, get_self, modify_self, ret.
  destruct (active_trades (self_ s)) as [| item rest]; [reflexivity |].
  destruct (monitor_each_quiet now (item :: rest) s) as (Ho & _).
  destruct (monitor_each now (item :: rest) s) as [u s1].
  exact Ho.
Qed.

(** A tick places an order only through the inactive-stock poll. *)
Lemma tick_orders_through_inactive_poll (now : datetime) (s : System W) :
  (forall s1 : System W,
     orders_placed (trace (snd (poll_inactive_stocks now s1)))
     = orders_placed (trace s1)) ->
  orders_placed (trace (snd (tick now s))) = orders_placed (trace s).
Proof.
  intros Hpoll.
  unfold tick. unfold bind at 1. unfold get_self at 1.
  unfold bind at 1.
  set (rolled := match last_screening_time (self_ s) with
                 | Some t => if (dt_date t <? dt_date now)%Z
                             then reset_daily_state now else ret tt
                 | None => ret tt
                 end s).
  assert (Hrolled : trace (snd rolled) = trace s).
  { subst rolled. destruct (last_screening_time (self_ s)) as [t |];
      [destruct (dt_date t <? dt_date now)%Z |]; reflexivity. }
  destruct rolled as [u s0]. cbn [snd] in Hrolled. rewrite <- Hrolled.
  clear Hrolled s. rename s0 into s.
  unfold bind at 1. unfold get_self at 1.
  destruct (is_market_hours now (self_ s)); cbn [negb]; [| reflexivity].
  destruct (should_force_exit now (self_ s));
    [apply force_exit_all_trades_quiet |].
  unfold bind at 1.
  set (screened := (if daily_screening_done (self_ s) then ret tt
                    else daily_market_screening now) s).
  assert (Hscreened : orders_placed (trace (snd screened))
                      = orders_placed (trace s)).
  { subst screened. destruct (daily_screening_done (self_ s));
      [reflexivity | apply daily_market_screening_quiet]. }
  destruct screened as [u1 s1]. cbn [snd] in Hscreened.
  rewrite <- Hscreened. clear Hscreened.
  unfold bind at 1. unfold get_self at 1. unfold bind at 1.
  set (polled := (if poll_due now (last_active_poll (self_ s1))
                       (ACTIVE_POLL_INTERVAL (config (self_ s1)))
                  then poll_active_trades now else ret tt) s1).
  assert (Hpolled : orders_placed (trace (snd polled))
                    = orders_placed (trace s1)).
  { subst polled. destruct (poll_due _ _ _);
      [apply poll_active_trades_quiet | reflexivity]. }
  destruct polled as [u2 s2]. cbn [snd] in Hpolled.
  rewrite <- Hpolled. clear Hpolled.
  unfold bind at 1. unfold get_self at 1.
  destruct (poll_due _ _ _); [| reflexivity].
  apply Hpoll.
Qed.


(** X9. From 14:50:00 (exclusive) on, a tick places no bracket order,
    whatever the state of the poller, the answers of the broker and the
    decisions of the engine: new positions are never opened in the last
    forty minutes of the session. *)
Theorem tick_places_no_order_near_close (now : datetime) (s : System W) :
  (53400000000 < dt_micros now)%Z ->
  orders_placed (trace (snd (tick now s))) = orders_placed (trace s).
Proof.
  intros Hlate. apply tick_orders_through_inactive_poll.
  intros s1. apply poll_inactive_stocks_late. exact Hlate.
Qed.

End Loop.

Lemma tick_outside_market_hours_witness :
  let tomorrow_early := mkDatetime 739001 28800000000 in
  let s := mkSystem holding_reliance (quoting (Some 2500) true) [] in
  let s' := snd (tick tomorrow_early s) in
  trace s' = [] /\ active_trades (self_ s') = [].
Proof.
  intros tomorrow_early s s'.
  assert (Hout : (dt_micros tomorrow_early < market_open_micros (self_ s)
                  \/ market_close_micros < dt_micros tomorrow_early)%Z)
    by (left; vm_compute; reflexivity).
  destruct (tick_outside_market_hours tomorrow_early s Hout)
    as (Htrace & _ & Hnew & _).
  split; [exact Htrace |].
  apply Hnew. vm_compute. reflexivity.
Defined.
Lemma poll_inactive_stocks_refused_witness :
  let five_to_three := mkDatetime 739000 53700000000 in
  let watching :=
    set_monitored_stocks fresh_poller
      [("AAA"%string,
        mkMonitoredStock "AAA"%string ten_am ten_am 0 0 false)] in
  let s := mkSystem watching approving [] in
  let s' := snd (poll_inactive_stocks five_to_three s) in
  trace s' = [] /\ active_trades (self_ s') = [].
Proof.
  intros five_to_three watching s s'.
  assert (Hrefused :
    is_trading_allowed
      (snd (check_trading_allowed five_to_three (risk_manager (self_ s))
              (positions (world s)))) = false)
    by (vm_compute; reflexivity).
  destruct (poll_inactive_stocks_refused five_to_three s Hrefused)
    as (Htrace & _ & Hactive & _).
  split; [exact Htrace | exact Hactive].
Defined.

Lemma tick_places_no_order_near_close_witness :
  let five_to_three := mkDatetime 739000 53700000000 in
  let s := mkSystem fresh_poller approving [] in
  orders_placed (trace (snd (tick five_to_three s))) = [].
Proof.
  intros five_to_three s.
  assert (Hlate : (53400000000 < dt_micros five_to_three)%Z)
    by (vm_compute; reflexivity).
  exact (tick_places_no_order_near_close five_to_three s Hlate).
Defined.


(** ** The decision engine *)

Section Engine.
Import Builtins.
Import ai_decision_engine.

Lemma min_le_iff (a b c : Q) : c <= min a b <-> c <= a /\ c <= b.
Proof. unfold min. destruct (Qlt_le_dec b a); lra. Qed.

Lemma signals_bounded (c : MarketContext) :
  (0 <= bullish_signals c <= 5)%Z /\ (0 <= bearish_signals c <= 3)%Z.
Proof.
  unfold bullish_signals, bearish_signals.
  repeat match goal with
         | |- context [if ?b then _ else _] => destruct b
         end; lia.
Qed.

(** A BUY or SELL of the mock: priced at a positive current price, with
    a confidence of at least 0.6, and sized at 0 or at 30% of the
    capital. *)
Lemma mock_ai_decision_trade (self : AIDecisionEngine) (c : MarketContext) :
  let d := mock_ai_decision self c in
  decision d = "HOLD"%string
  \/ ((decision d = "BUY"%string \/ decision d = "SELL"%string)
      /\ (6 # 10) <= confidence d
      /\ (confidence d < min_confidence self
          \/ position_size d == 3 # 10)).
Proof.
  destruct (signals_bounded c) as (Hbull & Hbear).
  assert (Hconf : forall n : Z, (3 <= n)%Z ->
            (6 # 10) <= min ((6 # 10) + inject_Z (n - 3) * (1 # 10)) (9 # 10)).
  { intros n Hn. apply min_le_iff. split; [| lra].
    assert (0 <= inject_Z (n - 3)) by (apply inject_Z_nonneg; lia). nra. }
  assert (Hsize : forall (side : string) (conf : Q),
            String.eqb side "HOLD" = false -> (6 # 10) <= conf ->
            conf < min_confidence self \/ sized self side conf == 3 # 10).
  { intros side conf Hside Hc. unfold sized. rewrite Hside. cbn [orb].
    destruct (Qlt_le_dec conf (min_confidence self)); [left; assumption |].
    right. unfold min. destruct (Qlt_le_dec (3 # 10) (conf * (1 # 2))); lra. }
  unfold mock_ai_decision. cbv zeta.
  destruct (current_price c) as [price |].
  - destruct (3 <=? bullish_signals c)%Z eqn:Hb; cbn [andb].
    + destruct (Qlt_le_dec 0 price).
      * right. cbn [decision confidence position_size].
        apply Z.leb_le in Hb.
        split; [left; reflexivity |]. split; [apply Hconf; assumption |].
        apply Hsize; [reflexivity | apply Hconf; assumption].
      * destruct (3 <=? bearish_signals c)%Z; cbn [andb]; left; reflexivity.
    + destruct (3 <=? bearish_signals c)%Z eqn:Hs; cbn [andb];
        [| left; reflexivity].
      destruct (Qlt_le_dec 0 price); [| left; reflexivity].
      right. cbn [decision confidence position_size].
      apply Z.leb_le in Hs.
      split; [right; reflexivity |]. split; [apply Hconf; assumption |].
      apply Hsize; [reflexivity | apply Hconf; assumption].
  - destruct ((3 <=? bullish_signals c)%Z || (3 <=? bearish_signals c)%Z);
      left; reflexivity.
Qed.

(** The answer of the AI call is the mock's, unless the prompt cannot be
    written. *)
Lemma call_ai_for_decision_cases (self : AIDecisionEngine) (c : MarketContext) :
  call_ai_for_decision self c = mock_ai_decision self c
  \/ (MOCK_AI self = false
      /\ current_price c = None
      /\ call_ai_for_decision self c = error_decision).
Proof.
  unfold call_ai_for_decision, build_ai_prompt.
  destruct (MOCK_AI self); [left; reflexivity |].
  destruct (current_price c); [left; reflexivity |].
  right. repeat split; reflexivity.
Qed.

Lemma call_ai_for_decision_trade (self : AIDecisionEngine) (c : MarketContext) :
  let d := call_ai_for_decision self c in
  decision d = "HOLD"%string
  \/ ((decision d = "BUY"%string \/ decision d = "SELL"%string)
      /\ (6 # 10) <= confidence d
      /\ (confidence d < min_confidence self
          \/ position_size d == 3 # 10)).
Proof.
  cbv zeta.
  destruct (call_ai_for_decision_cases self c) as [-> | (_ & _ & ->)].
  - apply mock_ai_decision_trade.
  - left. reflexivity.
Qed.

(** X10. With a position cap below 30% of the capital (the default is
    1%), [make_trading_decision] never approves a trade, whatever the
    market data, the sentiment and the two other thresholds: a BUY or
    SELL of the mock that is confident enough is sized at 30% of the
    capital, which the validation rejects.  Every final action is HOLD. *)
Theorem engine_never_approves_a_trade (self : AIDecisionEngine)
    (stock_data : StockData) (sentiment_data : SentimentData) :
  max_capital_per_trade self < 3 # 10 ->
  let t := make_trading_decision self stock_data sentiment_data in
  should_trade t = false
  /\ final_action t = "HOLD"%string
  /\ (decision (ai_decision t) <> "HOLD"%string ->
      validation t = CONFIDENCE_BELOW_THRESHOLD
      \/ validation t = RISK_REWARD_BELOW_MINIMUM
      \/ validation t = POSITION_SIZE_EXCEEDS_MAXIMUM).
Proof.
  intros Hcap. unfold make_trading_decision, final_decision. cbv zeta.
  cbn [should_trade final_action validation ai_decision].
  set (d := call_ai_for_decision self (prepare_market_context stock_data sentiment_data)).
  destruct (call_ai_for_decision_trade self
              (prepare_market_context stock_data sentiment_data))
    as [Hhold | (Hside & Hconf & Hsize)]; fold d in Hhold || fold d in Hside, Hconf, Hsize.
  - rewrite Hhold. cbn [String.eqb orb]. rewrite andb_false_r.
    split; [reflexivity |]. split; [destruct (is_valid _); reflexivity |].
    intros Hno. contradiction Hno. reflexivity.
  - assert (Hverdict :
      validate_decision self d = CONFIDENCE_BELOW_THRESHOLD
      \/ validate_decision self d = RISK_REWARD_BELOW_MINIMUM
      \/ validate_decision self d = POSITION_SIZE_EXCEEDS_MAXIMUM).
    { unfold validate_decision.
      destruct (Qlt_le_dec (confidence d) (min_confidence self)) as [Hlow | Hok];
        [left; reflexivity |].
      match goal with
      | |- context [if ?b && ?c then _ else _] => destruct (b && c)
      end; [right; left; reflexivity |].
      destruct (Qlt_le_dec (max_capital_per_trade self) (position_size d))
        as [Hbig | Hsmall]; [right; right; reflexivity |].
      exfalso. destruct Hsize as [Hlow | Hthirty]; lra. }
    assert (Hinvalid : is_valid (validate_decision self d) = false)
      by (destruct Hverdict as [-> | [-> | ->]]; reflexivity).
    rewrite Hinvalid. cbn [andb].
    split; [reflexivity |]. split; [reflexivity |]. intros _. exact Hverdict.
Qed.

Lemma engine_never_approves_a_trade_witness :
  let stock_data := mkStockData (Some (Some 2500)) (Some 35) (Some (21 # 10))
                      (Some true) in
  let sentiment_data := mkSentimentData (Some (6 # 10)) (Some (8 # 10)) in
  let t := make_trading_decision default_engine stock_data sentiment_data in
  decision (ai_decision t) = "BUY"%string
  /\ should_trade t = false
  /\ validation t = POSITION_SIZE_EXCEEDS_MAXIMUM.
Proof.
  intros stock_data sentiment_data t.
  assert (Hcap : max_capital_per_trade default_engine < 3 # 10)
    by (vm_compute; reflexivity).
  destruct (engine_never_approves_a_trade default_engine stock_data
              sentiment_data Hcap) as (Hnever & _ & _).
  split; [vm_compute; reflexivity |].
  split; [exact Hnever | vm_compute; reflexivity].
Defined.

(** What the mock answers on the two dictionaries the poller builds. *)
Lemma mock_ai_decision_for_poller (self : AIDecisionEngine)
    (price : option Q) (sentiment_score : Q) :
  let context :=
    prepare_market_context (poller_stock_data price)
      (poller_sentiment_data sentiment_score) in
  (bullish_signals context <= 2)%Z
  /\ (bearish_signals context <= 2)%Z
  /\ mock_ai_decision self context = mkDecision "HOLD" (3 # 10) price 0 0 0 0.
Proof.
  cbv zeta.
  set (context := prepare_market_context (poller_stock_data price)
                    (poller_sentiment_data sentiment_score)).
  assert (Hbull : (bullish_signals context <= 2)%Z).
  { unfold bullish_signals, context. cbn.
    destruct (Qlt_le_dec (3 # 10) sentiment_score); lia. }
  assert (Hbear : (bearish_signals context <= 2)%Z).
  { unfold bearish_signals, context. cbn.
    destruct (Qlt_le_dec (3 # 10) sentiment_score);
      [| destruct (Qlt_le_dec sentiment_score (- (3 # 10)))]; lia. }
  split; [exact Hbull |]. split; [exact Hbear |].
  unfold mock_ai_decision. cbv zeta.
  assert (H3 : (3 <=? bullish_signals context)%Z = false)
    by (apply Z.leb_gt; lia).
  assert (H3' : (3 <=? bearish_signals context)%Z = false)
    by (apply Z.leb_gt; lia).
  rewrite H3, H3'. cbn [andb orb].
  replace (current_price context) with price by reflexivity.
  destruct price; reflexivity.
Qed.

(** What the AI call answers on them: the mock's HOLD, or the
    dictionary of the [except] branch when the price is [None] and the
    prompt is written. *)
Lemma call_ai_for_poller (self : AIDecisionEngine)
    (price : option Q) (sentiment_score : Q) :
  call_ai_for_decision self
    (prepare_market_context (poller_stock_data price)
       (poller_sentiment_data sentiment_score))
  = if negb (MOCK_AI self) && match price with None => true | Some _ => false end
    then error_decision
    else mkDecision "HOLD" (3 # 10) price 0 0 0 0.
Proof.
  destruct (mock_ai_decision_for_poller self price sentiment_score)
    as (_ & _ & Hd).
  cbv zeta in Hd. unfold call_ai_for_decision, build_ai_prompt. rewrite Hd.
  replace (current_price (prepare_market_context (poller_stock_data price)
                            (poller_sentiment_data sentiment_score)))
    with price by reflexivity.
  destruct (MOCK_AI self), price; reflexivity.
Qed.

Lemma no_trade_for_poller (self : AIDecisionEngine)
    (price : option Q) (sentiment_score : Q) :
  should_trade
    (make_trading_decision self (poller_stock_data price)
       (poller_sentiment_data sentiment_score)) = false.
Proof.
  unfold make_trading_decision, final_decision. cbv zeta.
  rewrite call_ai_for_poller.
  destruct (negb (MOCK_AI self) && _);
    cbn [should_trade decision error_decision String.eqb orb];
    apply andb_false_r.
Qed.

(** X11. On the two dictionaries the poller builds in
    [analyze_and_decide] (a price and a sentiment score; no RSI, no
    volume ratio, no VWAP flag) the decision is HOLD with a position
    size of 0 and no trade, whatever the price, the sentiment and the
    configuration of the engine: at most two signals of either kind can
    be counted.  The answer is the mock's HOLD, with confidence 0.3 and
    the price as entry price; only when [MOCK_AI] is off and the broker
    had no price, writing the prompt raises and the answer is the HOLD
    of the [except] branch, with confidence 0 and entry price 0. *)
Theorem poller_decisions_are_hold (self : AIDecisionEngine)
    (price : option Q) (sentiment_score : Q) :
  let context :=
    prepare_market_context (poller_stock_data price)
      (poller_sentiment_data sentiment_score) in
  let t :=
    make_trading_decision self (poller_stock_data price)
      (poller_sentiment_data sentiment_score) in
  let prompt_fails :=
    negb (MOCK_AI self) && match price with None => true | Some _ => false end in
  (bullish_signals context <= 2)%Z
  /\ (bearish_signals context <= 2)%Z
  /\ decision (ai_decision t) = "HOLD"%string
  /\ entry_price (ai_decision t) = (if prompt_fails then Some 0 else price)
  /\ confidence (ai_decision t) = (if prompt_fails then 0 else 3 # 10)
  /\ ai_decision t
     = (if prompt_fails then error_decision
        else mkDecision "HOLD" (3 # 10) price 0 0 0 0)
  /\ position_size (ai_decision t) = 0
  /\ final_action t = "HOLD"%string
  /\ should_trade t = false.
Proof.
  cbv zeta.
  destruct (mock_ai_decision_for_poller self price sentiment_score)
    as (Hbull & Hbear & _).
  cbv zeta in Hbull, Hbear.
  split; [exact Hbull |]. split; [exact Hbear |].
  assert (Hd := call_ai_for_poller self price sentiment_score).
  unfold make_trading_decision, final_decision. cbv zeta.
  cbn [ai_decision final_action should_trade]. rewrite Hd.
  destruct (negb (MOCK_AI self) && _);
    cbn [decision entry_price confidence position_size error_decision
         String.eqb orb];
    repeat split; try reflexivity;
    try (destruct (is_valid _); reflexivity);
    apply andb_false_r.
Qed.

End Engine.

Section Wired.
Context {W : Type} {C : Collaborators W}.
Variable engine : ai_decision_engine.AIDecisionEngine.

(** The poller's decisions are the engine's, on the dictionaries of
    [analyze_and_decide]. *)
Hypothesis wired :
  forall (symbol : string) (price : option Q) (sentiment : Q) (w : W),
    should_trade (fst (make_trading_decision symbol price sentiment w))
    = ai_decision_engine.should_trade
        (ai_decision_engine.make_trading_decision engine
           (ai_decision_engine.poller_stock_data price)
           (ai_decision_engine.poller_sentiment_data sentiment)).

Lemma analyze_and_decide_holds (now : datetime) (symbol : string)
    (m : MonitoredStock) (s : System W) :
  orders_placed (trace (snd (analyze_and_decide now symbol m s)))
  = orders_placed (trace s).
Proof.
  unfold analyze_and_decide, bind, call, modify_self, ret.
  cbn [world self_ trace].
  destruct (get_current_price symbol (world s)) as [price w1].
  cbn [world self_ trace].
  pose proof (wired symbol price (sentiment_score m) w1) as Hflag.
  rewrite no_trade_for_poller in Hflag.
  destruct (make_trading_decision symbol price (sentiment_score m) w1)
    as [result w2].
  cbn [fst] in Hflag. cbn [world self_ trace].
  destruct (log_trade_decision symbol result w2) as [decision_id w3].
  rewrite Hflag. cbn [snd trace fst self_ world].
  rewrite !orders_placed_app. cbn. rewrite !app_nil_r. reflexivity.
Qed.

Lemma analyze_each_holds (now : datetime) (symbols : list string) :
  forall s : System W,
    orders_placed (trace (snd (analyze_each now symbols s)))
    = orders_placed (trace s).
Proof.
  induction symbols as [| symbol rest IH]; intros s; [reflexivity |].
  cbn [analyze_each]. unfold bind, get_self, ret.
  destruct (Dict.get symbol (monitored_stocks (self_ s))) as [m |];
    [| apply IH].
  destruct (is_active_trade m); [apply IH |].
  pose proof (analyze_and_decide_holds now symbol m s) as Hstep.
  destruct (analyze_and_decide now symbol m s) as [u s1].
  cbn [snd] in Hstep. rewrite IH. exact Hstep.
Qed.

Lemma poll_inactive_stocks_holds (now : datetime) (s : System W) :
  orders_placed (trace (snd (poll_inactive_stocks now s)))
  = orders_placed (trace s).
Proof.
  unfold poll_inactive_stocks, bind, get_self, ret, modify_self.
  destruct (monitored_stocks (self_ s)) as [| m rest]; [reflexivity |].
  destruct (check_trading_allowed now (risk_manager (self_ s))
              (positions (world s))) as [rm account_risk].
  destruct (is_trading_allowed account_risk); [| reflexivity].
  match goal with
  | |- context [analyze_each now ?symbols ?s1] =>
      pose proof (analyze_each_holds now symbols s1) as Hloop;
      destruct (analyze_each now symbols s1) as [u s2]
  end.
  cbn [snd trace] in *. exact Hloop.
Qed.

(** X12. A poller whose decisions come from this engine places no
    bracket order, at any sequence of instants and whatever the broker,
    the screener and the configuration answer: the market data it hands
    to the engine can never add up to three signals. *)
Theorem wired_poller_never_orders (instants : list datetime) :
  forall s : System W,
    orders_placed (trace (ticks instants s)) = orders_placed (trace s).
Proof.
  induction instants as [| now rest IH]; intros s; [reflexivity |].
  cbn [ticks]. rewrite IH.
  apply tick_orders_through_inactive_poll.
  intros s1. apply poll_inactive_stocks_holds.
Qed.

End Wired.

Lemma wired_poller_never_orders_witness :
  let s := mkSystem fresh_poller approving [] in
  orders_placed
    (trace (@ticks Script (ai_decision_engine.engine_driven
                             ai_decision_engine.default_engine)
              [ten_am; one_past_ten; two_past_ten] s)) = [].
Proof.
  intros s.
  assert (Hwired :
    forall (symbol : string) (price : option Q) (sentiment : Q) (w : Script),
      should_trade
        (fst (@make_trading_decision Script
                (ai_decision_engine.engine_driven
                   ai_decision_engine.default_engine)
                symbol price sentiment w))
      = ai_decision_engine.should_trade
          (ai_decision_engine.make_trading_decision
             ai_decision_engine.default_engine
             (ai_decision_engine.poller_stock_data price)
             (ai_decision_engine.poller_sentiment_data sentiment)))
    by (intros; reflexivity).
  exact (@wired_poller_never_orders Script
           (ai_decision_engine.engine_driven ai_decision_engine.default_engine)
           ai_decision_engine.default_engine Hwired
           [ten_am; one_past_ten; two_past_ten] s).
Defined.


(** ** From an approved decision to a booked exit *)

Lemma dict_get_set_same {V : Type} (k : string) (v : V) (d : list (string * V)) :
  Dict.get k (Dict.set k v d) = Some v.
Proof.
  induction d as [| [k0 v0] rest IH]; cbn [Dict.get Dict.set].
  - rewrite String.eqb_refl. reflexivity.
  - destruct (String.eqb k k0) eqn:E; cbn [Dict.get]; rewrite ?E;
      [rewrite String.eqb_refl; reflexivity | exact IH].
Qed.



Section Lifecycle.
Context {W : Type} {C : Collaborators W}.


(** The risk manager after an exit the broker accepted. *)
Lemma exit_active_trade_books (now : datetime) (symbol : string)
    (t : ActiveTrade) (reason : ExitReason) (s : System W) (w' : W) :
  exit_position symbol (world s) = (true, w') ->
  let s' := snd (exit_active_trade now symbol t reason s) in
  risk_manager (self_ s')
  = fst (record_trade_outcome now (risk_manager (self_ s)) symbol
           (entry_price t) (current_price t) (quantity t) (transaction_type t))
  /\ In (Exiting symbol reason) (trace s').
Proof.
  intros Hexit.
  unfold exit_active_trade, bind, emit, call, modify_self, get_self, ret.
  cbn [world self_ trace]. rewrite Hexit. cbn [world self_ trace].
  destruct (log_trade_exit _ _ _ _ w') as [logged w''].
  cbn [world self_ trace snd fst set_risk_manager active_trades].
  destruct (Dict.mem symbol (active_trades (self_ s)));
    cbn [snd trace fst self_ set_monitored_stocks set_active_trades
         set_risk_manager risk_manager];
    (split; [reflexivity |]);
    rewrite !in_app_iff; left; left; right; left; reflexivity.
Qed.

(** X14. A priced monitoring step on a trade whose stop and target are
    on the proper sides of its entry, when the broker accepts the exit:
    a price at or beyond the stop exits for STOP_LOSS and is booked as a
    loss (the daily P&L falls and the loss counter goes up by one); a
    price at or beyond the target exits for TARGET and is booked as a
    gain (the daily P&L rises and the loss counter is unchanged).  The
    two cannot both hold. *)
Theorem stop_and_target_exits_booked (now : datetime) (symbol : string)
    (t : ActiveTrade) (s : System W) (price : Q) (w1 w2 : W) :
  well_placed t ->
  get_current_price symbol (world s) = (Some price, w1) ->
  ~ price == 0 ->
  exit_position symbol w1 = (true, w2) ->
  let s' := snd (monitor_active_trade now symbol t s) in
  let before := risk_manager (self_ s) in
  let after := risk_manager (self_ s') in
  (stop_hit t price ->
     ~ target_hit t price
     /\ In (Exiting symbol STOP_LOSS) (trace s')
     /\ daily_loss_count after = (daily_loss_count before + 1)%Z
     /\ daily_pnl after < daily_pnl before)
  /\ (target_hit t price ->
        ~ stop_hit t price
        /\ In (Exiting symbol TARGET) (trace s')
        /\ daily_loss_count after = daily_loss_count before
        /\ daily_pnl before < daily_pnl after).
Proof.
  intros (Hqty & Hentry & Hsides) Hprice Hnz Hexit. cbv zeta.
  rewrite (monitor_active_trade_priced now symbol t s price w1 Hprice Hnz).
  assert (Hq : 0 < inject_Z (quantity t)).
  { change (inject_Z 0 < inject_Z (quantity t)). rewrite <- Zlt_Qlt. assumption. }
  assert (Hnotional : ~ entry_price t * inject_Z (quantity t) == 0) by nra.
  assert (Hworld : exit_position symbol
                     (world (refreshed now symbol t price w1 s)) = (true, w2))
    by exact Hexit.
  assert (Hrm : risk_manager (self_ (refreshed now symbol t price w1 s))
                = risk_manager (self_ s)).
  { unfold refreshed. cbn [self_]. destruct (Dict.mem _ _); reflexivity. }
  assert (Hbook : forall reason : ExitReason,
    exit_conditions now (self_ s) (refresh_trade now t price) price = Some reason ->
    let s' :=
      snd (match exit_conditions now (self_ s) (refresh_trade now t price) price with
           | Some exit_reason =>
               exit_active_trade now symbol (refresh_trade now t price)
                 exit_reason (refreshed now symbol t price w1 s)
           | None => (tt, refreshed now symbol t price w1 s)
           end) in
    let pnl := if String.eqb (transaction_type t) "BUY"
               then (price - entry_price t) * inject_Z (quantity t)
               else (entry_price t - price) * inject_Z (quantity t) in
    In (Exiting symbol reason) (trace s')
    /\ daily_pnl (risk_manager (self_ s'))
       = daily_pnl (risk_manager (self_ s)) + pnl
    /\ (pnl < 0 -> daily_loss_count (risk_manager (self_ s'))
                   = (daily_loss_count (risk_manager (self_ s)) + 1)%Z)
    /\ (0 <= pnl -> daily_loss_count (risk_manager (self_ s'))
                    = daily_loss_count (risk_manager (self_ s)))).
  { intros reason Hreason. rewrite Hreason. cbv zeta.
    destruct (exit_active_trade_books now symbol (refresh_trade now t price)
                reason (refreshed now symbol t price w1 s) w2 Hworld)
      as (Hafter & Hannounced).
    split; [exact Hannounced |].
    rewrite Hafter, Hrm.
    destruct (record_trade_outcome_recorded now (risk_manager (self_ s)) symbol
                (entry_price t) price (quantity t) (transaction_type t) Hnotional)
      as (record & _ & _ & _ & Hpnl & Hloss & Hgain).
    cbn [refresh_trade entry_price current_price quantity transaction_type].
    repeat split; assumption. }
  unfold stop_hit, target_hit.
  destruct Hsides as [(Hside & Hstop & Htarget) | (Hside & Htarget & Hstop)];
    rewrite Hside; cbn [String.eqb Ascii.eqb Bool.eqb].
  - (* BUY *)
    split; intros Hhit.
    + assert (Hreason : exit_conditions now (self_ s) (refresh_trade now t price)
                          price = Some STOP_LOSS).
      { unfold exit_conditions. cbn [refresh_trade transaction_type stop_loss].
        rewrite Hside. cbn [String.eqb Ascii.eqb Bool.eqb andb].
        apply Qle_bool_iff in Hhit. rewrite Hhit. reflexivity. }
      destruct (Hbook STOP_LOSS Hreason) as (Hin & Hpnl & Hloss & _).
      rewrite Hside in Hpnl, Hloss. cbn [String.eqb Ascii.eqb Bool.eqb] in Hpnl, Hloss.
      split; [lra |]. split; [exact Hin |].
      split; [apply Hloss; nra | rewrite Hpnl; nra].
    + assert (Hreason : exit_conditions now (self_ s) (refresh_trade now t price)
                          price = Some TARGET).
      { unfold exit_conditions. cbn [refresh_trade transaction_type stop_loss
                                     target_price].
        rewrite Hside. cbn [String.eqb Ascii.eqb Bool.eqb andb].
        assert (Hs : Qle_bool price (stop_loss t) = false).
        { destruct (Qle_bool price (stop_loss t)) eqn:E; [| reflexivity].
          apply Qle_bool_iff in E. lra. }
        rewrite Hs. apply Qle_bool_iff in Hhit. rewrite Hhit. reflexivity. }
      destruct (Hbook TARGET Hreason) as (Hin & Hpnl & _ & Hgain).
      rewrite Hside in Hpnl, Hgain. cbn [String.eqb Ascii.eqb Bool.eqb] in Hpnl, Hgain.
      split; [lra |]. split; [exact Hin |].
      split; [apply Hgain; nra | rewrite Hpnl; nra].
  - (* SELL *)
    split; intros Hhit.
    + assert (Hreason : exit_conditions now (self_ s) (refresh_trade now t price)
                          price = Some STOP_LOSS).
      { unfold exit_conditions. cbn [refresh_trade transaction_type stop_loss].
        rewrite Hside. cbn [String.eqb Ascii.eqb Bool.eqb andb].
        apply Qle_bool_iff in Hhit. rewrite Hhit. reflexivity. }
      destruct (Hbook STOP_LOSS Hreason) as (Hin & Hpnl & Hloss & _).
      rewrite Hside in Hpnl, Hloss. cbn [String.eqb Ascii.eqb Bool.eqb] in Hpnl, Hloss.
      split; [lra |]. split; [exact Hin |].
      split; [apply Hloss; nra | rewrite Hpnl; nra].
    + assert (Hreason : exit_conditions now (self_ s) (refresh_trade now t price)
                          price = Some TARGET).
      { unfold exit_conditions. cbn [refresh_trade transaction_type stop_loss
                                     target_price].
        rewrite Hside. cbn [String.eqb Ascii.eqb Bool.eqb andb].
        assert (Hs : Qle_bool (stop_loss t) price = false).
        { destruct (Qle_bool (stop_loss t) price) eqn:E; [| reflexivity].
          apply Qle_bool_iff in E. lra. }
        rewrite Hs. apply Qle_bool_iff in Hhit. rewrite Hhit. reflexivity. }
      destruct (Hbook TARGET Hreason) as (Hin & Hpnl & _ & Hgain).
      rewrite Hside in Hpnl, Hgain. cbn [String.eqb Ascii.eqb Bool.eqb] in Hpnl, Hgain.
      split; [lra |]. split; [exact Hin |].
      split; [apply Hgain; nra | rewrite Hpnl; nra].
Qed.

End Lifecycle.


Lemma stop_and_target_exits_booked_witness :
  let s := mkSystem holding_reliance (quoting (Some 2440) true) [] in
  let s' := snd (monitor_active_trade one_past_ten "RELIANCE" reliance_trade s) in
  In (Exiting "RELIANCE" STOP_LOSS) (trace s')
  /\ daily_loss_count (risk_manager (self_ s'))
     = (daily_loss_count (risk_manager (self_ s)) + 1)%Z.
Proof.
  intros s s'.
  assert (Hplaced : well_placed reliance_trade).
  { split; [reflexivity |]. split; [reflexivity |].
    left. split; [reflexivity |]. split; reflexivity. }
  assert (Hprice : get_current_price "RELIANCE" (world s)
                   = (Some 2440, world s)) by reflexivity.
  assert (Hnz : ~ 2440 == 0) by (intros H; vm_compute in H; discriminate).
  assert (Hexit : exit_position "RELIANCE" (world s)
                  = (true, with_positions (world s)
                             (Dict.del "RELIANCE" (open_positions (world s)))))
    by reflexivity.
  destruct (stop_and_target_exits_booked one_past_ten "RELIANCE" reliance_trade
              s 2440 (world s) _ Hplaced Hprice Hnz Hexit) as (Hstop & _).
  assert (Hhit : stop_hit reliance_trade 2440) by (vm_compute; discriminate).
  destruct (Hstop Hhit) as (_ & Hin & Hcount & _).
  split; [exact Hin | exact Hcount].
Defined.


(** ** The two registries *)

Lemma dict_get_set_other {V : Type} (k k' : string) (v : V)
    (d : list (string * V)) :
  k <> k' -> Dict.get k' (Dict.set k v d) = Dict.get k' d.
Proof.
  intros Hne. induction d as [| [k0 v0] rest IH]; cbn [Dict.get Dict.set].
  - destruct (String.eqb k' k) eqn:E; [| reflexivity].
    apply String.eqb_eq in E. congruence.
  - destruct (String.eqb k k0) eqn:E; cbn [Dict.get].
    + apply String.eqb_eq in E. subst k0.
      destruct (String.eqb k' k) eqn:E'; [| reflexivity].
      apply String.eqb_eq in E'. congruence.
    + rewrite IH. reflexivity.
Qed.

Lemma dict_mem_set {V : Type} (k k' : string) (v : V) (d : list (string * V)) :
  Dict.mem k' (Dict.set k v d) = String.eqb k k' || Dict.mem k' d.
Proof.
  unfold Dict.mem. destruct (String.eqb k k') eqn:E.
  - apply String.eqb_eq in E. subst k'. rewrite dict_get_set_same. reflexivity.
  - apply String.eqb_neq in E. rewrite dict_get_set_other by assumption.
    reflexivity.
Qed.

Lemma dict_keys_mem {V : Type} (k : string) (d : list (string * V)) :
  Dict.mem k d = true -> In k (Dict.keys d).
Proof.
  unfold Dict.mem, Dict.keys.
  induction d as [| [k0 v0] rest IH]; cbn [map fst In Dict.get];
    [discriminate |].
  destruct (String.eqb k k0) eqn:E.
  - apply String.eqb_eq in E. left. congruence.
  - intros H. right. apply IH. exact H.
Qed.

Lemma dict_mem_del_same {V : Type} (k : string) (d : list (string * V)) :
  NoDup (Dict.keys d) -> Dict.mem k (Dict.del k d) = false.
Proof.
  intros Hnd. induction d as [| [k0 v0] rest IH]; [reflexivity |].
  cbn [Dict.keys map fst] in Hnd. inversion Hnd as [| ? ? Hnotin Hrest]; subst.
  cbn [Dict.del]. destruct (String.eqb k k0) eqn:E.
  - apply String.eqb_eq in E. subst k0.
    destruct (Dict.mem k rest) eqn:Hmem; [| reflexivity].
    apply dict_keys_mem in Hmem. contradiction.
  - unfold Dict.mem. cbn [Dict.get]. rewrite E. apply IH. exact Hrest.
Qed.

Lemma dict_mem_del_true {V : Type} (k k' : string) (d : list (string * V)) :
  Dict.mem k' (Dict.del k d) = true -> Dict.mem k' d = true.
Proof.
  intros H. apply dict_mem_keys. apply (dict_keys_del_subset k).
  apply dict_keys_mem. exact H.
Qed.

(** Rewriting the entry of a monitored stock keeps the keys. *)
Lemma rewritten_entry (symbol : string) (f : MonitoredStock -> MonitoredStock)
    (ms : list (string * MonitoredStock)) :
  let ms' := match Dict.get symbol ms with
             | Some m => Dict.set symbol (f m) ms
             | None => ms
             end in
  Dict.keys ms' = Dict.keys ms
  /\ (forall k, Dict.mem k ms' = Dict.mem k ms)
  /\ (forall k, Dict.get k ms'
                = if String.eqb symbol k then option_map f (Dict.get k ms)
                  else Dict.get k ms).
Proof.
  cbv zeta. destruct (Dict.get symbol ms) as [m |] eqn:Hget.
  - assert (Hmem : Dict.mem symbol ms = true)
      by (unfold Dict.mem; rewrite Hget; reflexivity).
    split; [apply dict_keys_set_present; exact Hmem |]. split.
    + intros k. rewrite dict_mem_set.
      destruct (String.eqb symbol k) eqn:E; [| reflexivity].
      apply String.eqb_eq in E. subst k. rewrite Hmem. reflexivity.
    + intros k. destruct (String.eqb symbol k) eqn:E.
      * apply String.eqb_eq in E. subst k.
        rewrite dict_get_set_same, Hget. reflexivity.
      * apply String.eqb_neq in E. apply dict_get_set_other. exact E.
  - split; [reflexivity |]. split; [reflexivity |].
    intros k. destruct (String.eqb symbol k) eqn:E; [| reflexivity].
    apply String.eqb_eq in E. subst k. rewrite Hget. reflexivity.
Qed.

Lemma consistent_empty : consistent [] [].
Proof.
  split; [constructor |]. split; [constructor |].
  split; [intros symbol H; exact H |].
  intros symbol m H. discriminate.
Qed.

(** Closing a trade: [del self.active_trades[symbol]] and the flag set
    to [False]. *)
Lemma consistent_closed (symbol : string)
    (ms : list (string * MonitoredStock)) (ats : list (string * ActiveTrade)) :
  consistent ms ats ->
  consistent (mark_active_trade symbol false ms) (Dict.del symbol ats).
Proof.
  intros (Hats & Hms & Hsub & Hflags).
  destruct (rewritten_entry symbol
              (fun m => mkMonitoredStock (ms_symbol m) (added_time m)
                          (last_analysis_time m) (sentiment_score m)
                          (technical_score m) false) ms)
    as (Hkeys & Hmem & Hget).
  cbv zeta in Hkeys, Hmem, Hget. fold (mark_active_trade symbol false ms) in *.
  split; [apply dict_del_nodup; exact Hats |].
  split; [rewrite Hkeys; exact Hms |].
  split.
  - intros k Hk. rewrite Hmem. apply Hsub. apply (dict_mem_del_true symbol).
    exact Hk.
  - intros k m Hk. rewrite Hget in Hk.
    destruct (String.eqb symbol k) eqn:E.
    + apply String.eqb_eq in E. subst k.
      destruct (Dict.get symbol ms) as [m0 |]; [| discriminate].
      injection Hk as <-. cbn [is_active_trade].
      symmetry. apply dict_mem_del_same. exact Hats.
    + apply String.eqb_neq in E.
      rewrite dict_mem_del_other by assumption. apply Hflags. exact Hk.
Qed.

(** Writing the refreshed trade back under its key. *)
Lemma consistent_refreshed (symbol : string) (t : ActiveTrade)
    (ms : list (string * MonitoredStock)) (ats : list (string * ActiveTrade)) :
  consistent ms ats -> Dict.mem symbol ats = true ->
  consistent ms (Dict.set symbol t ats).
Proof.
  intros (Hats & Hms & Hsub & Hflags) Hmem.
  assert (Hsame : forall k, Dict.mem k (Dict.set symbol t ats) = Dict.mem k ats).
  { intros k. rewrite dict_mem_set.
    destruct (String.eqb symbol k) eqn:E; [| reflexivity].
    apply String.eqb_eq in E. subst k. rewrite Hmem. reflexivity. }
  split; [apply dict_set_nodup; exact Hats |].
  split; [exact Hms |].
  split.
  - intros k Hk. rewrite Hsame in Hk. apply Hsub. exact Hk.
  - intros k m Hk. rewrite Hsame. apply Hflags. exact Hk.
Qed.

(** Registering a trade on a monitored stock and flagging the stock. *)
Lemma consistent_opened (symbol : string) (t : ActiveTrade)
    (ms : list (string * MonitoredStock)) (ats : list (string * ActiveTrade)) :
  consistent ms ats -> Dict.mem symbol ms = true ->
  consistent (mark_active_trade symbol true ms) (Dict.set symbol t ats).
Proof.
  intros (Hats & Hms & Hsub & Hflags) Hmonitored.
  destruct (rewritten_entry symbol
              (fun m => mkMonitoredStock (ms_symbol m) (added_time m)
                          (last_analysis_time m) (sentiment_score m)
                          (technical_score m) true) ms)
    as (Hkeys & Hmem & Hget).
  cbv zeta in Hkeys, Hmem, Hget. fold (mark_active_trade symbol true ms) in *.
  split; [apply dict_set_nodup; exact Hats |].
  split; [rewrite Hkeys; exact Hms |].
  split.
  - intros k Hk. rewrite Hmem. rewrite dict_mem_set in Hk.
    destruct (String.eqb symbol k) eqn:E.
    + apply String.eqb_eq in E. subst k. exact Hmonitored.
    + apply Hsub. exact Hk.
  - intros k m Hk. rewrite Hget in Hk. rewrite dict_mem_set.
    destruct (String.eqb symbol k) eqn:E.
    + destruct (Dict.get k ms) as [m0 |]; [| discriminate].
      injection Hk as <-. reflexivity.
    + cbn [orb]. apply Hflags. exact Hk.
Qed.

(** [monitored_stock.last_analysis_time = now] *)
Lemma consistent_touched (symbol : string) (now : datetime)
    (ms : list (string * MonitoredStock)) (ats : list (string * ActiveTrade)) :
  consistent ms ats -> consistent (touch_analysis_time symbol now ms) ats.
Proof.
  intros (Hats & Hms & Hsub & Hflags).
  destruct (rewritten_entry symbol
              (fun m => mkMonitoredStock (ms_symbol m) (added_time m) now
                          (sentiment_score m) (technical_score m)
                          (is_active_trade m)) ms)
    as (Hkeys & Hmem & Hget).
  cbv zeta in Hkeys, Hmem, Hget. fold (touch_analysis_time symbol now ms) in *.
  split; [exact Hats |].
  split; [rewrite Hkeys; exact Hms |].
  split.
  - intros k Hk. rewrite Hmem. apply Hsub. exact Hk.
  - intros k m Hk. rewrite Hget in Hk.
    destruct (String.eqb symbol k) eqn:E; [| apply Hflags; exact Hk].
    destruct (Dict.get k ms) as [m0 |] eqn:Hm0; [| discriminate].
    injection Hk as <-. cbn [is_active_trade]. apply Hflags. exact Hm0.
Qed.

(** The registry the day's screening builds while no trade is open. *)
Lemma consistent_screened (now : datetime) (screened : list Screened) :
  forall ms : list (string * MonitoredStock),
    consistent ms [] ->
    consistent
      (fold_left
         (fun ms stock =>
            Dict.set (sc_symbol stock)
              (mkMonitoredStock (sc_symbol stock) now now
                 (sc_sentiment stock) (sc_score stock) false) ms)
         screened ms) [].
Proof.
  induction screened as [| stock rest IH]; intros ms Hms; [exact Hms |].
  cbn [fold_left]. apply IH.
  destruct Hms as (Hats & Hnd & Hsub & Hflags).
  split; [exact Hats |].
  split; [apply dict_set_nodup; exact Hnd |].
  split; [intros k Hk; discriminate |].
  intros k m Hk.
  destruct (String.eqb (sc_symbol stock) k) eqn:E.
  - apply String.eqb_eq in E. subst k. rewrite dict_get_set_same in Hk.
    injection Hk as <-. reflexivity.
  - apply String.eqb_neq in E. rewrite dict_get_set_other in Hk by assumption.
    apply Hflags. exact Hk.
Qed.

(** [tidy] looks at the two registries and the screening flag only. *)
Lemma tidy_ext (a b : StockPoller) :
  monitored_stocks b = monitored_stocks a ->
  active_trades b = active_trades a ->
  daily_screening_done b = daily_screening_done a ->
  tidy a -> tidy b.
Proof.
  unfold tidy, registries_consistent. intros -> -> ->. tauto.
Qed.

Section Registries.
Context {W : Type} {C : Collaborators W}.

Lemma exit_active_trade_tidy (now : datetime) (symbol : string)
    (t : ActiveTrade) (reason : ExitReason) (s : System W) :
  tidy (self_ s) -> tidy (self_ (snd (exit_active_trade now symbol t reason s))).
Proof.
  intros Htidy.
  unfold exit_active_trade, bind, emit, call, modify_self, get_self, ret.
  cbn [world self_ trace].
  destruct (exit_position symbol (world s)) as [[|] w']; [| exact Htidy].
  cbn [world self_ trace].
  destruct (log_trade_exit _ _ _ _ w') as [logged w''].
  cbn [world self_ trace snd fst set_risk_manager active_trades].
  destruct (Dict.mem symbol (active_trades (self_ s))) eqn:Hmem.
  - cbn [snd self_ fst]. destruct Htidy as (Hcons & Hearly).
    split.
    + unfold registries_consistent.
      cbn [set_monitored_stocks set_active_trades set_risk_manager
           monitored_stocks active_trades].
      apply consistent_closed. exact Hcons.
    + cbn [set_monitored_stocks set_active_trades set_risk_manager
           monitored_stocks active_trades daily_screening_done].
      intros Hdone. destruct (Hearly Hdone) as (Hms & Hats).
      rewrite Hats in Hmem. discriminate.
  - cbn [snd self_]. revert Htidy. apply tidy_ext; reflexivity.
Qed.

Lemma monitor_active_trade_tidy (now : datetime) (symbol : string)
    (t : ActiveTrade) (s : System W) :
  tidy (self_ s) -> tidy (self_ (snd (monitor_active_trade now symbol t s))).
Proof.
  intros Htidy.
  destruct (get_current_price symbol (world s)) as [answer w'] eqn:Hprice.
  destruct answer as [price |].
  - destruct (Qeq_dec price 0) as [Hz | Hnz].
    + rewrite (monitor_active_trade_no_price now symbol t s (Some price) w'
                 Hprice Hz). exact Htidy.
    + rewrite (monitor_active_trade_priced now symbol t s price w' Hprice Hnz).
      assert (Href : tidy (self_ (refreshed now symbol t price w' s))).
      { unfold refreshed. cbn [self_].
        destruct (Dict.mem symbol (active_trades (self_ s))) eqn:Hmem;
          [| exact Htidy].
        destruct Htidy as (Hcons & Hearly). split.
        - unfold registries_consistent.
          cbn [set_active_trades monitored_stocks active_trades].
          apply consistent_refreshed; assumption.
        - cbn [set_active_trades monitored_stocks active_trades
               daily_screening_done].
          intros Hdone. destruct (Hearly Hdone) as (Hms & Hats).
          rewrite Hats in Hmem. discriminate. }
      destruct (exit_conditions _ _ _ _) as [reason |]; [| exact Href].
      apply exit_active_trade_tidy. exact Href.
  - rewrite (monitor_active_trade_no_price now symbol t s None w' Hprice I).
    exact Htidy.
Qed.

Lemma monitor_each_tidy (now : datetime) (items : list (string * ActiveTrade)) :
  forall s : System W,
    tidy (self_ s) -> tidy (self_ (snd (monitor_each now items s))).
Proof.
  induction items as [| [symbol t] rest IH]; intros s Htidy; [exact Htidy |].
  cbn [monitor_each]. unfold bind.
  pose proof (monitor_active_trade_tidy now symbol t s Htidy) as Hstep.
  destruct (monitor_active_trade now symbol t s) as [u s1].
  apply IH. exact Hstep.
Qed.

Lemma poll_active_trades_tidy (now : datetime) (s : System W) :
  tidy (self_ s) -> tidy (self_ (snd (poll_active_trades now s))).
Proof.
  intros Htidy. unfold poll_active_trades, bind, get_self, modify_self, ret.
  destruct (active_trades (self_ s)) as [| item rest]; [exact Htidy |].
  pose proof (monitor_each_tidy now (item :: rest) s Htidy) as Hloop.
  destruct (monitor_each now (item :: rest) s) as [u s1].
  cbn [snd self_] in *. revert Hloop. apply tidy_ext; reflexivity.
Qed.

Lemma exit_each_tidy (now : datetime) (symbols : list string) :
  forall s : System W,
    tidy (self_ s) -> tidy (self_ (snd (exit_each now symbols s))).
Proof.
  induction symbols as [| symbol rest IH]; intros s Htidy; [exact Htidy |].
  cbn [exit_each]. unfold bind, get_self, ret.
  destruct (Dict.get symbol (active_trades (self_ s))) as [t |];
    [| exact Htidy].
  pose proof (exit_active_trade_tidy now symbol t MARKET_CLOSE s Htidy) as Hstep.
  destruct (exit_active_trade now symbol t MARKET_CLOSE s) as [u s1].
  apply IH. exact Hstep.
Qed.

Lemma force_exit_all_trades_tidy (now : datetime) (s : System W) :
  tidy (self_ s) -> tidy (self_ (snd (force_exit_all_trades now s))).
Proof.
  intros Htidy.
  unfold force_exit_all_trades, bind, get_self, ret, call, modify_self.
  destruct (force_exit_triggered (self_ s)); [exact Htidy |].
  pose proof (exit_each_tidy now (Dict.keys (active_trades (self_ s))) s Htidy)
    as Hloop.
  destruct (exit_each now (Dict.keys (active_trades (self_ s))) s)
    as [[|] s1]; cbn [snd] in Hloop; [| exact Hloop].
  cbn [world self_ trace].
  destruct (force_exit_all_positions (world s1)) as [[r |] w'];
    cbn [snd self_]; [| exact Hloop].
  revert Hloop. apply tidy_ext; reflexivity.
Qed.

Lemma execute_trade_decision_tidy (now : datetime) (symbol : string)
    (result : DecisionResult) (decision_id : string) (s : System W) :
  Dict.mem symbol (monitored_stocks (self_ s)) = true ->
  tidy (self_ s) ->
  tidy (self_ (snd (execute_trade_decision now symbol result decision_id s))).
Proof.
  intros Hmonitored Htidy.
  unfold execute_trade_decision, bind, get_self, call, modify_self, ret.
  cbv zeta.
  destruct (Py.div _ _) as [shares |]; [| exact Htidy].
  cbn [world self_ trace].
  destruct (place_bracket_order _ _ _ _ _ _ _ (world s)) as [[order_id |] w1];
    [| exact Htidy].
  cbn [world self_ trace].
  destruct (String.eqb order_id ""); [exact Htidy |].
  cbn [world self_ trace].
  destruct (log_trade_execution _ _ _ _ _ w1) as [new_trade_id w2].
  cbn [snd self_ fst]. destruct Htidy as (Hcons & Hearly). split.
  - unfold registries_consistent.
    cbn [set_monitored_stocks set_active_trades monitored_stocks active_trades].
    apply consistent_opened; assumption.
  - cbn [set_monitored_stocks set_active_trades monitored_stocks active_trades
         daily_screening_done].
    intros Hdone. destruct (Hearly Hdone) as (Hms & Hats).
    rewrite Hms in Hmonitored. discriminate.
Qed.

Lemma analyze_and_decide_tidy (now : datetime) (symbol : string)
    (m : MonitoredStock) (s : System W) :
  Dict.mem symbol (monitored_stocks (self_ s)) = true ->
  tidy (self_ s) ->
  tidy (self_ (snd (analyze_and_decide now symbol m s))).
Proof.
  intros Hmonitored Htidy.
  unfold analyze_and_decide, bind, call, modify_self.
  cbn [world self_ trace].
  destruct (get_current_price symbol (world s)) as [price w1].
  cbn [world self_ trace].
  destruct (make_trading_decision symbol price (sentiment_score m) w1)
    as [result w2].
  cbn [world self_ trace].
  destruct (log_trade_decision symbol result w2) as [decision_id w3].
  set (s3 := mkSystem (self_ s) w3 _).
  assert (Hdecided :
    tidy (self_ (snd ((if should_trade result
                       then execute_trade_decision now symbol result decision_id
                       else ret tt) s3)))).
  { destruct (should_trade result); [| exact Htidy].
    apply execute_trade_decision_tidy; assumption. }
  destruct ((if should_trade result
             then execute_trade_decision now symbol result decision_id
             else ret tt) s3) as [u s4].
  cbn [snd self_] in *. destruct Hdecided as (Hcons & Hearly). split.
  - unfold registries_consistent.
    cbn [set_monitored_stocks monitored_stocks active_trades].
    apply consistent_touched. exact Hcons.
  - cbn [set_monitored_stocks monitored_stocks active_trades
         daily_screening_done].
    intros Hdone. destruct (Hearly Hdone) as (Hms & Hats).
    rewrite Hms. split; [reflexivity | exact Hats].
Qed.

Lemma analyze_each_tidy (now : datetime) (symbols : list string) :
  forall s : System W,
    tidy (self_ s) -> tidy (self_ (snd (analyze_each now symbols s))).
Proof.
  induction symbols as [| symbol rest IH]; intros s Htidy; [exact Htidy |].
  cbn [analyze_each]. unfold bind, get_self, ret.
  destruct (Dict.get symbol (monitored_stocks (self_ s))) as [m |] eqn:Hget;
    [| apply IH; exact Htidy].
  destruct (is_active_trade m); [apply IH; exact Htidy |].
  assert (Hmonitored : Dict.mem symbol (monitored_stocks (self_ s)) = true)
    by (unfold Dict.mem; rewrite Hget; reflexivity).
  pose proof (analyze_and_decide_tidy now symbol m s Hmonitored Htidy) as Hstep.
  destruct (analyze_and_decide now symbol m s) as [u s1].
  apply IH. exact Hstep.
Qed.

Lemma poll_inactive_stocks_tidy (now : datetime) (s : System W) :
  tidy (self_ s) -> tidy (self_ (snd (poll_inactive_stocks now s))).
Proof.
  intros Htidy.
  unfold poll_inactive_stocks, bind, get_self, ret, modify_self.
  destruct (monitored_stocks (self_ s)) as [| m rest] eqn:Hms; [exact Htidy |].
  destruct (check_trading_allowed now (risk_manager (self_ s))
              (positions (world s))) as [rm account_risk].
  assert (Hchecked : tidy (set_risk_manager (self_ s) rm))
    by (revert Htidy; apply tidy_ext; reflexivity).
  destruct (is_trading_allowed account_risk); [| exact Hchecked].
  match goal with
  | |- context [analyze_each now ?symbols ?s1] =>
      pose proof (analyze_each_tidy now symbols s1 Hchecked) as Hloop;
      destruct (analyze_each now symbols s1) as [u s2]
  end.
  cbn [snd self_] in *. revert Hloop. apply tidy_ext; reflexivity.
Qed.

Lemma daily_market_screening_tidy (now : datetime) (s : System W) :
  daily_screening_done (self_ s) = false ->
  tidy (self_ s) -> tidy (self_ (snd (daily_market_screening now s))).
Proof.
  intros Hdone Htidy.
  unfold daily_market_screening, bind, get_self, ret, call, modify_self.
  cbn [world self_ trace].
  destruct (screen_top_stocks (world s)) as [[| c rest] w'];
    [exact Htidy |].
  cbn [snd self_ fst]. destruct Htidy as (Hcons & Hearly).
  destruct (Hearly Hdone) as (Hms & Hats).
  split.
  - unfold registries_consistent.
    cbn [set_screening_done set_monitored_stocks monitored_stocks active_trades].
    rewrite Hats, Hms.
    apply (consistent_screened now (c :: rest) []). apply consistent_empty.
  - cbn [set_screening_done daily_screening_done]. discriminate.
Qed.

Lemma reset_daily_state_tidy (now : datetime) (s : System W) :
  tidy (self_ (snd (reset_daily_state now s))).
Proof.
  unfold reset_daily_state, modify_self. cbn [snd self_].
  split; [apply consistent_empty |]. intros _. split; reflexivity.
Qed.

Lemma tick_tidy (now : datetime) (s : System W) :
  tidy (self_ s) -> tidy (self_ (snd (tick now s))).
Proof.
  intros Htidy.
  unfold tick. unfold bind at 1. unfold get_self at 1.
  unfold bind at 1.
  set (rolled := match last_screening_time (self_ s) with
                 | Some t => if (dt_date t <? dt_date now)%Z
                             then reset_daily_state now else ret tt
                 | None => ret tt
                 end s).
  assert (Hrolled : tidy (self_ (snd rolled))).
  { subst rolled. destruct (last_screening_time (self_ s)) as [t |];
      [destruct (dt_date t <? dt_date now)%Z |];
      [apply reset_daily_state_tidy | exact Htidy | exact Htidy]. }
  destruct rolled as [u s0]. cbn [snd] in Hrolled.
  clear Htidy s. rename s0 into s.
  unfold bind at 1. unfold get_self at 1.
  destruct (is_market_hours now (self_ s)); cbn [negb]; [| exact Hrolled].
  destruct (should_force_exit now (self_ s));
    [apply force_exit_all_trades_tidy; exact Hrolled |].
  unfold bind at 1.
  set (screened := (if daily_screening_done (self_ s) then ret tt
                    else daily_market_screening now) s).
  assert (Hscreened : tidy (self_ (snd screened))).
  { subst screened. destruct (daily_screening_done (self_ s)) eqn:Hdone;
      [exact Hrolled | apply daily_market_screening_tidy; assumption]. }
  destruct screened as [u1 s1]. cbn [snd] in Hscreened.
  unfold bind at 1. unfold get_self at 1. unfold bind at 1.
  set (polled := (if poll_due now (last_active_poll (self_ s1))
                       (ACTIVE_POLL_INTERVAL (config (self_ s1)))
                  then poll_active_trades now else ret tt) s1).
  assert (Hpolled : tidy (self_ (snd polled))).
  { subst polled. destruct (poll_due _ _ _);
      [apply poll_active_trades_tidy; exact Hscreened | exact Hscreened]. }
  destruct polled as [u2 s2]. cbn [snd] in Hpolled.
  unfold bind at 1. unfold get_self at 1.
  destruct (poll_due _ _ _); [| exact Hpolled].
  apply poll_inactive_stocks_tidy. exact Hpolled.
Qed.

Lemma ticks_tidy (instants : list datetime) :
  forall s : System W, tidy (self_ s) -> tidy (self_ (ticks instants s)).
Proof.
  induction instants as [| now rest IH]; intros s Htidy; [exact Htidy |].
  cbn [ticks]. apply IH. apply tick_tidy. exact Htidy.
Qed.

(** X15. Over any sequence of loop iterations from the poller as
    constructed, whatever the collaborators answer: both registries keep
    one entry per symbol, every active trade is on a monitored stock,
    and a monitored stock is flagged [is_active_trade] exactly when the
    active-trade registry holds its symbol; the registries are empty
    whenever the day's screening has not been done. *)
Theorem registries_stay_consistent (config : TradingBotConfig)
    (rm : RiskManager) (w : W) (instants : list datetime) :
  let s := ticks instants (mkSystem (init config rm) w []) in
  registries_consistent (self_ s)
  /\ (daily_screening_done (self_ s) = false ->
      monitored_stocks (self_ s) = [] /\ active_trades (self_ s) = []).
Proof.
  cbv zeta. apply (ticks_tidy instants).
  split; [apply consistent_empty |]. intros _. split; reflexivity.
Qed.

(** The orders of one decision: none or one, on its symbol; no trade
    leaves the registry. *)
Lemma execute_trade_decision_orders (now : datetime) (symbol : string)
    (result : DecisionResult) (decision_id : string) (s : System W) :
  let s' := snd (execute_trade_decision now symbol result decision_id s) in
  (exists new,
     orders_placed (trace s') = orders_placed (trace s) ++ new
     /\ (new = [] \/ exists side q, new = [(symbol, side, q)]))
  /\ (forall k, Dict.mem k (active_trades (self_ s)) = true ->
                Dict.mem k (active_trades (self_ s')) = true).
Proof.
  unfold execute_trade_decision, bind, get_self, call, modify_self, ret.
  cbv zeta.
  destruct (Py.div _ _) as [shares |].
  2: { cbn [snd]. split; [| tauto]. exists []. rewrite app_nil_r. auto. }
  cbn [world self_ trace].
  destruct (place_bracket_order _ _ _ _ _ _ _ (world s)) as [[order_id |] w1].
  - cbn [world self_ trace].
    destruct (String.eqb order_id "").
    + cbn [snd trace self_]. rewrite orders_placed_app. cbn.
      split; [| tauto]. eexists. split; [reflexivity |]. right. eauto.
    + cbn [world self_ trace].
      destruct (log_trade_execution _ _ _ _ _ w1) as [new_trade_id w2].
      cbn [snd trace self_ fst set_active_trades set_monitored_stocks
           active_trades].
      rewrite !orders_placed_app. cbn. rewrite app_nil_r. split.
      * eexists. split; [reflexivity |]. right. eauto.
      * intros k Hk. rewrite dict_mem_set, Hk. apply orb_true_r.
  - cbn [snd trace self_]. rewrite orders_placed_app. cbn.
    split; [| tauto]. eexists. split; [reflexivity |]. right. eauto.
Qed.

Lemma analyze_and_decide_orders (now : datetime) (symbol : string)
    (m : MonitoredStock) (s : System W) :
  let s' := snd (analyze_and_decide now symbol m s) in
  (exists new,
     orders_placed (trace s') = orders_placed (trace s) ++ new
     /\ (new = [] \/ exists side q, new = [(symbol, side, q)]))
  /\ (forall k, Dict.mem k (active_trades (self_ s)) = true ->
                Dict.mem k (active_trades (self_ s')) = true).
Proof.
  unfold analyze_and_decide, bind, call, modify_self.
  cbn [world self_ trace].
  destruct (get_current_price symbol (world s)) as [price w1].
  cbn [world self_ trace].
  destruct (make_trading_decision symbol price (sentiment_score m) w1)
    as [result w2].
  cbn [world self_ trace].
  destruct (log_trade_decision symbol result w2) as [decision_id w3].
  set (s3 := mkSystem (self_ s) w3 _).
  assert (Hs3 : orders_placed (trace s3) = orders_placed (trace s)).
  { subst s3. cbn [trace]. rewrite !orders_placed_app. cbn.
    rewrite !app_nil_r. reflexivity. }
  assert (Hdecided :
    let s4 := snd ((if should_trade result
                    then execute_trade_decision now symbol result decision_id
                    else ret tt) s3) in
    (exists new,
       orders_placed (trace s4) = orders_placed (trace s3) ++ new
       /\ (new = [] \/ exists side q, new = [(symbol, side, q)]))
    /\ (forall k, Dict.mem k (active_trades (self_ s3)) = true ->
                  Dict.mem k (active_trades (self_ s4)) = true)).
  { destruct (should_trade result).
    - apply execute_trade_decision_orders.
    - cbn. split; [| tauto]. exists []. rewrite app_nil_r. auto. }
  cbv zeta in Hdecided.
  destruct ((if should_trade result
             then execute_trade_decision now symbol result decision_id
             else ret tt) s3) as [u s4].
  cbn [snd self_ trace set_monitored_stocks active_trades] in *.
  rewrite <- Hs3. exact Hdecided.
Qed.

Lemma analyze_each_orders (now : datetime) (symbols : list string) :
  forall s : System W,
    NoDup symbols -> tidy (self_ s) ->
    let s' := snd (analyze_each now symbols s) in
    (exists new,
       orders_placed (trace s') = orders_placed (trace s) ++ new
       /\ NoDup (map (fun o => fst (fst o)) new)
       /\ (forall o, In o new ->
             In (fst (fst o)) symbols
             /\ Dict.mem (fst (fst o)) (active_trades (self_ s)) = false))
    /\ (forall k, Dict.mem k (active_trades (self_ s)) = true ->
                  Dict.mem k (active_trades (self_ s')) = true).
Proof.
  induction symbols as [| symbol rest IH]; intros s Hnd Htidy.
  - cbn. split; [| tauto]. exists []. rewrite app_nil_r.
    split; [reflexivity |]. split; [constructor | intros o []].
  - inversion Hnd as [| ? ? Hfresh Hrest]; subst.
    assert (Hskip :
      let s' := snd (analyze_each now rest s) in
      (exists new,
         orders_placed (trace s') = orders_placed (trace s) ++ new
         /\ NoDup (map (fun o => fst (fst o)) new)
         /\ (forall o, In o new ->
               In (fst (fst o)) (symbol :: rest)
               /\ Dict.mem (fst (fst o)) (active_trades (self_ s)) = false))
      /\ (forall k, Dict.mem k (active_trades (self_ s)) = true ->
                    Dict.mem k (active_trades (self_ s')) = true)).
    { destruct (IH s Hrest Htidy) as ((new & Ho & Hd & Heach) & Hmono).
      split; [| exact Hmono]. exists new. split; [exact Ho |].
      split; [exact Hd |]. intros o Hin. destruct (Heach o Hin).
      split; [right |]; assumption. }
    cbn [analyze_each]. unfold bind, get_self, ret.
    destruct (Dict.get symbol (monitored_stocks (self_ s))) as [m |] eqn:Hget;
      [| exact Hskip].
    destruct (is_active_trade m) eqn:Hflag; [exact Hskip |].
    clear Hskip.
    assert (Hmonitored : Dict.mem symbol (monitored_stocks (self_ s)) = true)
      by (unfold Dict.mem; rewrite Hget; reflexivity).
    assert (Hfree : Dict.mem symbol (active_trades (self_ s)) = false).
    { destruct Htidy as ((_ & _ & _ & Hflags) & _).
      rewrite <- (Hflags symbol m Hget). exact Hflag. }
    pose proof (analyze_and_decide_tidy now symbol m s Hmonitored Htidy)
      as Htidy1.
    destruct (analyze_and_decide_orders now symbol m s)
      as ((new1 & Ho1 & Hshape) & Hmono1).
    destruct (analyze_and_decide now symbol m s) as [u s1].
    cbn [snd] in Htidy1, Ho1, Hmono1.
    destruct (IH s1 Hrest Htidy1) as ((new2 & Ho2 & Hd2 & Heach2) & Hmono2).
    cbv zeta. split; [| intros k Hk; apply Hmono2, Hmono1, Hk].
    exists (new1 ++ new2). rewrite Ho2, Ho1, app_assoc.
    split; [reflexivity |].
    assert (Hlater : forall o, In o new2 ->
              In (fst (fst o)) rest
              /\ Dict.mem (fst (fst o)) (active_trades (self_ s)) = false).
    { intros o Hin. destruct (Heach2 o Hin) as (Hr & Hf). split; [exact Hr |].
      destruct (Dict.mem (fst (fst o)) (active_trades (self_ s))) eqn:E;
        [| reflexivity].
      apply Hmono1 in E. congruence. }
    destruct Hshape as [-> | (side & q & ->)]; cbn [app map fst].
    + split; [exact Hd2 |]. intros o Hin. destruct (Hlater o Hin).
      split; [right |]; assumption.
    + split.
      * constructor; [| exact Hd2]. intros Hin. apply in_map_iff in Hin.
        destruct Hin as (o & Hsym & Hin). destruct (Hlater o Hin) as (Hr & _).
        rewrite Hsym in Hr. contradiction.
      * intros o [<- | Hin]; cbn [fst].
        -- split; [left; reflexivity | exact Hfree].
        -- destruct (Hlater o Hin). split; [right |]; assumption.
Qed.

(** X16. On consistent registries one inactive-stock poll places at
    most one bracket order per monitored stock, and none on a stock
    that has an active trade when the poll starts: the symbols of the
    orders it places are distinct, monitored, and free of active trade. *)
Theorem poll_inactive_stocks_one_order_per_stock (now : datetime)
    (s : System W) :
  tidy (self_ s) ->
  let s' := snd (poll_inactive_stocks now s) in
  exists new,
    orders_placed (trace s') = orders_placed (trace s) ++ new
    /\ NoDup (map (fun o => fst (fst o)) new)
    /\ (forall o, In o new ->
          Dict.mem (fst (fst o)) (monitored_stocks (self_ s)) = true
          /\ Dict.mem (fst (fst o)) (active_trades (self_ s)) = false).
Proof.
  intros Htidy.
  unfold poll_inactive_stocks, bind, get_self, ret, modify_self.
  destruct (monitored_stocks (self_ s)) as [| m0 rest0] eqn:Hms.
  { exists []. cbn. rewrite app_nil_r. split; [reflexivity |].
    split; [constructor | intros o []]. }
  destruct (check_trading_allowed now (risk_manager (self_ s))
              (positions (world s))) as [rm account_risk].
  destruct (is_trading_allowed account_risk).
  2: { exists []. cbn. rewrite app_nil_r. split; [reflexivity |].
       split; [constructor | intros o []]. }
  assert (Hchecked : tidy (set_risk_manager (self_ s) rm))
    by (revert Htidy; apply tidy_ext; reflexivity).
  assert (Hnd : NoDup (Dict.keys (monitored_stocks (self_ s)))).
  { destruct Htidy as ((_ & Hnd & _) & _). exact Hnd. }
  cbn [self_ set_risk_manager monitored_stocks].
  destruct (analyze_each_orders now (Dict.keys (monitored_stocks (self_ s)))
              (mkSystem (set_risk_manager (self_ s) rm) (world s) (trace s))
              Hnd Hchecked) as ((new & Ho & Hd & Heach) & _).
  cbv zeta in Ho, Heach.
  destruct (analyze_each now (Dict.keys (monitored_stocks (self_ s))) _)
    as [u s2].
  cbn [snd self_ trace set_risk_manager active_trades] in *.
  exists new. split; [exact Ho |]. split; [exact Hd |].
  intros o Hin. destruct (Heach o Hin) as (Hkey & Hfree).
  split; [| exact Hfree]. rewrite <- Hms. apply dict_mem_keys. exact Hkey.
Qed.

End Registries.

Lemma poll_inactive_stocks_one_order_per_stock_witness :
  let watching :=
    mkStockPoller default_config (risk_manager.init default_config ten_am)
      [("AAA"%string,
        mkMonitoredStock "AAA"%string ten_am ten_am 0 0 false);
       ("BBB"%string,
        mkMonitoredStock "BBB"%string ten_am ten_am 0 0 false)]
      [] (Some ten_am) None None true false in
  let s := mkSystem watching approving [] in
  let s' := snd (poll_inactive_stocks one_past_ten s) in
  exists new,
    orders_placed (trace s') = new
    /\ NoDup (map (fun o => fst (fst o)) new)
    /\ List.length new = 2%nat.
Proof.
  intros watching s s'.
  assert (Htidy : tidy (self_ s)).
  { split; [| intros Hdone; discriminate].
    split; [constructor |]. split.
    - repeat constructor; cbn; intuition discriminate.
    - split; [intros symbol H; discriminate |].
      intros symbol m H. unfold s, watching in H.
      cbn [self_ monitored_stocks Dict.get] in H.
      destruct (String.eqb symbol "AAA");
        [inversion H; reflexivity |].
      destruct (String.eqb symbol "BBB");
        [inversion H; reflexivity | discriminate]. }
  destruct (poll_inactive_stocks_one_order_per_stock one_past_ten s Htidy)
    as (new & Horders & Hdistinct & _).
  exists new. split; [exact Horders |]. split; [exact Hdistinct |].
  assert (Hrun : orders_placed (trace s')
                 = [("AAA"%string, "BUY"%string, 10%Z);
                    ("BBB"%string, "BUY"%string, 10%Z)])
    by (vm_compute; reflexivity).
  change (orders_placed (trace s') = [] ++ new) in Horders.
  cbn [app] in Horders. rewrite <- Horders, Hrun. reflexivity.
Defined.


(** ** The mock broker *)

Section Broker.
Import broker_zerodha_backup.

Lemma dict_del_set_fresh {V : Type} (k : string) (v : V) (d : list (string * V)) :
  Dict.mem k d = false -> Dict.del k (Dict.set k v d) = d.
Proof.
  unfold Dict.mem.
  induction d as [| [k0 v0] rest IH]; cbn [Dict.get Dict.set Dict.del].
  - rewrite String.eqb_refl. reflexivity.
  - destruct (String.eqb k k0) eqn:E; [discriminate |].
    intros H. cbn [Dict.del]. rewrite E, IH by assumption. reflexivity.
Qed.

(** What [update_position_from_order] does to the account: nothing, or
    the order value moved between the two margins. *)
Lemma update_position_from_order_margins (self : BrokerInterface) (order : Order) :
  let self' := update_position_from_order self order in
  let order_value := inject_Z (filled_quantity order) * ord_average_price order in
  orders self' = orders self
  /\ order_counter self' = order_counter self
  /\ account_balance self' = account_balance self
  /\ (self' = self
      \/ (ord_transaction_type order = "BUY"%string
          /\ available_margin self' = available_margin self - order_value
          /\ used_margin self' = used_margin self + order_value)
      \/ (ord_transaction_type order <> "BUY"%string
          /\ available_margin self' = available_margin self + order_value
          /\ used_margin self' = used_margin self - order_value)).
Proof.
  unfold update_position_from_order. cbv zeta.
  match goal with
  | |- context [match ?u with Some _ => _ | None => _ end] =>
      match u with
      | context [Dict.get] => destruct u as [held |]
      end
  end; [| repeat split; left; reflexivity].
  destruct (String.eqb (ord_transaction_type order) "BUY") eqn:Hside.
  - apply String.eqb_eq in Hside. cbn. repeat split.
    right. left. repeat split. exact Hside.
  - apply String.eqb_neq in Hside. cbn. repeat split.
    right. right. repeat split. exact Hside.
Qed.

(** An order that is not a MARKET order touches the order book only. *)
Lemma place_order_pending (market : string -> option Q)
    (self : BrokerInterface) (symbol side : string) (quantity : Z)
    (kind : string) (price : Q) (tag : option string) :
  String.eqb kind "MARKET" = false ->
  let result := place_order market self symbol side quantity kind price tag in
  snd result = Some (order_counter self + 1)%Z
  /\ positions (fst result) = positions self
  /\ available_margin (fst result) = available_margin self
  /\ used_margin (fst result) = used_margin self
  /\ order_counter (fst result) = (order_counter self + 1)%Z
  /\ orders (fst result)
     = orders self
       ++ [mkOrder (order_counter self + 1) symbol side quantity kind price
             OPEN 0 0 tag].
Proof.
  intros Hkind. unfold place_order. cbv zeta. rewrite Hkind.
  repeat split; reflexivity.
Qed.

(** [place_bracket_order] books three open orders and nothing else. *)
Lemma place_bracket_order_books (market : string -> option Q)
    (self : BrokerInterface) (symbol side : string) (quantity : Z)
    (entry stop target : Q) (tag : option string) :
  let result :=
    place_bracket_order market self symbol side quantity entry stop target tag in
  positions (fst result) = positions self
  /\ available_margin (fst result) = available_margin self
  /\ used_margin (fst result) = used_margin self
  /\ (exists a b c : Order,
        orders (fst result) = orders self ++ [a; b; c]
        /\ status a = OPEN /\ status b = OPEN /\ status c = OPEN)
  /\ snd result
     = Some (mkBracketOrder (order_counter self + 1)
               (Some (order_counter self + 2)%Z)
               (Some (order_counter self + 3)%Z)).
Proof.
  unfold place_bracket_order. cbv zeta.
  unfold place_order. cbv zeta.
  cbn [String.eqb Ascii.eqb Bool.eqb fst snd positions available_margin
       used_margin orders order_counter].
  repeat split.
  - eexists _, _, _. rewrite <- !app_assoc. cbn [app].
    split; [reflexivity |]. repeat split; reflexivity.
  - rewrite <- !Z.add_assoc. reflexivity.
Qed.

(** [exit_position] with a quote: the position is closed whatever its
    side and its quantity. *)
Lemma exit_position_quoted (market : string -> option Q)
    (self : BrokerInterface) (symbol : string) (position : Position) (price : Q) :
  Dict.get symbol (positions self) = Some position ->
  market symbol = Some price ->
  ~ price == 0 ->
  let value := inject_Z (pos_quantity position) * price in
  let result := exit_position market self symbol in
  snd result = true
  /\ positions (fst result) = Dict.del symbol (positions self)
  /\ available_margin (fst result)
     = (if String.eqb (pos_transaction_type position) "BUY"
        then available_margin self + value
        else available_margin self - value)
  /\ used_margin (fst result)
     = (if String.eqb (pos_transaction_type position) "BUY"
        then used_margin self - value
        else used_margin self + value).
Proof.
  intros Hheld Hquote Hnz. cbv zeta.
  unfold exit_position. rewrite Hheld.
  unfold place_order. cbv zeta. cbn [String.eqb Ascii.eqb Bool.eqb].
  rewrite Hquote.
  assert (Hz : Qeq_bool price 0 = false).
  { destruct (Qeq_bool price 0) eqn:E; [| reflexivity].
    apply Qeq_bool_iff in E. contradiction. }
  rewrite Hz.
  unfold update_position_from_order. cbv zeta.
  cbn [ord_symbol ord_transaction_type filled_quantity ord_average_price
       positions orders order_counter account_balance available_margin
       used_margin].
  rewrite Hheld.
  assert (Hopposite :
    String.eqb (if String.eqb (pos_transaction_type position) "BUY"
                then "SELL"%string else "BUY"%string)
      (pos_transaction_type position) = false).
  { destruct (String.eqb (pos_transaction_type position) "BUY") eqn:E.
    - apply String.eqb_eq in E. rewrite E. reflexivity.
    - rewrite String.eqb_sym. exact E. }
  rewrite Hopposite, Z.leb_refl, Z.sub_diag.
  cbn [Z.ltb Z.compare].
  destruct (String.eqb (pos_transaction_type position) "BUY");
    cbn [String.eqb Ascii.eqb Bool.eqb fst snd positions available_margin
         used_margin]; repeat split; reflexivity.
Qed.

(** X18. [exit_position] answers [False] for a symbol without position
    and [True] for every symbol with one.  With a price for the symbol
    the position is removed, whatever its side and quantity, and its
    value at that price moves between the margins; without a price the
    answer is still [True] but positions and margins are left as they
    were, and only a rejected order is booked. *)
Theorem exit_position_answers (market : string -> option Q)
    (self : BrokerInterface) (symbol : string) :
  let result := exit_position market self symbol in
  (Dict.get symbol (positions self) = None ->
     result = (self, false))
  /\ (forall position : Position,
        Dict.get symbol (positions self) = Some position ->
        snd result = true
        /\ (forall price : Q,
              market symbol = Some price -> ~ price == 0 ->
              positions (fst result) = Dict.del symbol (positions self)
              /\ available_margin (fst result)
                 == available_margin self
                    + realised (pos_transaction_type position)
                        (pos_quantity position) 0 price
              /\ used_margin (fst result)
                 == used_margin self
                    - realised (pos_transaction_type position)
                        (pos_quantity position) 0 price)
        /\ (match market symbol with
            | Some price => price == 0
            | None => True
            end ->
            positions (fst result) = positions self
            /\ available_margin (fst result) = available_margin self
            /\ used_margin (fst result) = used_margin self
            /\ exists rejected : Order,
                 orders (fst result) = orders self ++ [rejected]
                 /\ status rejected = REJECTED)).
Proof.
  cbv zeta. split.
  - intros Hnone. unfold exit_position. rewrite Hnone. reflexivity.
  - intros position Hheld. split; [| split].
    + unfold exit_position. rewrite Hheld.
      destruct (place_order _ _ _ _ _ _ _ _) as [self1 id] eqn:Hplaced.
      unfold place_order in Hplaced. cbv zeta in Hplaced.
      destruct (if String.eqb "MARKET" "MARKET" then _ else _) as [b o]
        in Hplaced.
      injection Hplaced as <- <-. reflexivity.
    + intros price Hquote Hnz.
      destruct (exit_position_quoted market self symbol position price
                  Hheld Hquote Hnz) as (_ & Hpositions & Ha & Hu).
      cbv zeta in Hpositions, Ha, Hu.
      split; [exact Hpositions |].
      rewrite Ha, Hu. unfold realised.
      destruct (String.eqb (pos_transaction_type position) "BUY");
        split; ring.
    + intros Hfalsy. unfold exit_position. rewrite Hheld.
      unfold place_order. cbv zeta. cbn [String.eqb Ascii.eqb Bool.eqb].
      destruct (market symbol) as [price |].
      * apply Qeq_bool_iff in Hfalsy. rewrite Hfalsy.
        cbn [fst positions available_margin used_margin orders].
        repeat split. eexists. split; reflexivity.
      * cbn [fst positions available_margin used_margin orders].
        repeat split. eexists. split; reflexivity.
Qed.

(** X19. A MARKET order on a symbol without position, filled at one
    price, followed by [exit_position] at another: the exit answers
    [True], the positions are what they were, and each margin has gone
    through its two updates in order, the value of the entry and then
    the value of the exit, the second undoing the direction of the
    first: for a BUY the available margin is
    [(available - quantity * entry) + quantity * exit] and the used
    margin [(used + quantity * entry) - quantity * exit], and the other
    way round for a SELL.  Nothing is said of the sum of the margins. *)
Theorem market_round_trip (first then_ : string -> option Q)
    (self : BrokerInterface) (symbol side : string) (quantity : Z)
    (limit : Q) (tag : option string) (entry exit : Q) :
  Dict.mem symbol (positions self) = false ->
  first symbol = Some entry -> ~ entry == 0 ->
  then_ symbol = Some exit -> ~ exit == 0 ->
  let opened :=
    fst (place_order first self symbol side quantity "MARKET" limit tag) in
  let closed := exit_position then_ opened symbol in
  let paid := inject_Z quantity * entry in
  let received := inject_Z quantity * exit in
  snd closed = true
  /\ positions (fst closed) = positions self
  /\ available_margin (fst closed)
     = (if String.eqb side "BUY"
        then available_margin self - paid + received
        else available_margin self + paid - received)
  /\ used_margin (fst closed)
     = (if String.eqb side "BUY"
        then used_margin self + paid - received
        else used_margin self - paid + received).
Proof.
  intros Hfresh Hentry Hentry_nz Hexit Hexit_nz. cbv zeta.
  assert (Hnone : Dict.get symbol (positions self) = None).
  { unfold Dict.mem in Hfresh.
    destruct (Dict.get symbol (positions self)); [discriminate | reflexivity]. }
  assert (Hz : Qeq_bool entry 0 = false).
  { destruct (Qeq_bool entry 0) eqn:E; [| reflexivity].
    apply Qeq_bool_iff in E. contradiction. }
  set (opened := fst (place_order first self symbol side quantity "MARKET"
                        limit tag)).
  assert (Hopened :
    positions opened
    = Dict.set symbol (mkPosition symbol quantity entry side 0) (positions self)
    /\ available_margin opened
       = (if String.eqb side "BUY"
          then available_margin self - inject_Z quantity * entry
          else available_margin self + inject_Z quantity * entry)
    /\ used_margin opened
       = (if String.eqb side "BUY"
          then used_margin self + inject_Z quantity * entry
          else used_margin self - inject_Z quantity * entry)).
  { subst opened. unfold place_order. cbv zeta.
    cbn [String.eqb Ascii.eqb Bool.eqb]. rewrite Hentry, Hz.
    unfold update_position_from_order. cbv zeta.
    cbn [ord_symbol ord_transaction_type filled_quantity ord_average_price
         positions orders order_counter account_balance available_margin
         used_margin].
    rewrite Hnone.
    destruct (String.eqb side "BUY");
      cbn [fst positions available_margin used_margin]; repeat split. }
  destruct Hopened as (Hpositions & Ha & Hu).
  assert (Hheld : Dict.get symbol (positions opened)
                  = Some (mkPosition symbol quantity entry side 0))
    by (rewrite Hpositions; apply dict_get_set_same).
  destruct (exit_position_quoted then_ opened symbol _ exit Hheld Hexit Hexit_nz)
    as (Hok & Hleft & Ha' & Hu').
  cbv zeta in Hok, Hleft, Ha', Hu'. cbn [pos_transaction_type pos_quantity] in *.
  split; [exact Hok |].
  split; [rewrite Hleft, Hpositions; apply dict_del_set_fresh; exact Hfresh |].
  rewrite Ha', Hu', Ha, Hu.
  destruct (String.eqb side "BUY"); split; reflexivity.
Qed.

Lemma perform_from_poller (market : string -> option Q) (c : Call)
    (self : BrokerInterface) :
  from_poller c -> positions self = [] ->
  let result := perform market c self in
  positions (fst result) = []
  /\ available_margin (fst result) = available_margin self
  /\ used_margin (fst result) = used_margin self
  /\ ~ exit_succeeded c (snd result).
Proof.
  intros Hcall Hempty.
  destruct c as [symbol side quantity kind price tag
                | symbol side quantity entry stop target tag
                | symbol |]; cbn [perform from_poller] in *.
  - contradiction.
  - destruct (place_bracket_order_books market self symbol side quantity entry
                stop target tag) as (Hp & Ha & Hu & _).
    destruct (place_bracket_order _ _ _ _ _ _ _ _ _) as [self1 ids].
    cbn [fst snd] in *. rewrite Hp. repeat split; try assumption.
    intros [].
  - unfold exit_position. rewrite Hempty. cbn [Dict.get fst snd].
    repeat split; try assumption. intros [].
  - unfold force_exit_all_positions. rewrite Hempty.
    cbn [Dict.keys map exit_each fst snd]. repeat split; try assumption.
    intros [].
Qed.

(** X20. Through the calls the poller makes (bracket orders, exits,
    the forced exit of everything) a broker without positions never
    gets one: a bracket order books three open orders and none is
    filled.  So the margins never move and every [exit_position]
    answers [False], also for a symbol a bracket order was placed on. *)
Theorem poller_calls_open_no_position (self : BrokerInterface)
    (calls : list ((string -> option Q) * Call)) :
  positions self = [] ->
  Forall (fun call => from_poller (snd call)) calls ->
  let result := run self calls in
  positions (fst result) = []
  /\ available_margin (fst result) = available_margin self
  /\ used_margin (fst result) = used_margin self
  /\ Forall2 (fun call answer => ~ exit_succeeded (snd call) answer)
       calls (snd result).
Proof.
  revert self. induction calls as [| [market c] rest IH];
    intros self Hempty Hcalls.
  - cbn. repeat split; try assumption. constructor.
  - inversion Hcalls as [| ? ? Hc Hrest]; subst. cbn [snd] in Hc.
    cbn [run].
    destruct (perform_from_poller market c self Hc Hempty)
      as (Hp & Ha & Hu & Hno).
    destruct (perform market c self) as [self1 answer].
    cbn [fst snd] in Hp, Ha, Hu, Hno.
    destruct (IH self1 Hp Hrest) as (Hp' & Ha' & Hu' & Hall).
    destruct (run self1 rest) as [self2 answers].
    cbn [fst snd] in *.
    split; [exact Hp' |]. split; [congruence |]. split; [congruence |].
    constructor; assumption.
Qed.

End Broker.

Lemma market_round_trip_witness :
  let broker := broker_zerodha_backup.init default_config in
  let opened :=
    fst (broker_zerodha_backup.place_order (fun _ => Some 100) broker
           "AAA" "SELL" 10 "MARKET" 0 None) in
  let closed :=
    broker_zerodha_backup.exit_position (fun _ => Some 96) opened "AAA" in
  snd closed = true
  /\ broker_zerodha_backup.positions (fst closed) = []
  /\ broker_zerodha_backup.available_margin (fst closed)
     = 100000 + inject_Z 10 * 100 - inject_Z 10 * 96.
Proof.
  intros broker opened closed.
  assert (Hfresh : Dict.mem "AAA" (broker_zerodha_backup.positions broker) = false)
    by reflexivity.
  assert (Hentry : (fun _ : string => Some 100) "AAA"%string = Some 100)
    by reflexivity.
  assert (Hexit : (fun _ : string => Some 96) "AAA"%string = Some 96)
    by reflexivity.
  assert (Hentry_nz : ~ 100 == 0) by (intros H; vm_compute in H; discriminate).
  assert (Hexit_nz : ~ 96 == 0) by (intros H; vm_compute in H; discriminate).
  destruct (market_round_trip (fun _ => Some 100) (fun _ => Some 96) broker
              "AAA" "SELL" 10 0 None 100 96 Hfresh Hentry Hentry_nz Hexit
              Hexit_nz) as (Hok & Hpositions & Hmargin & _).
  split; [exact Hok |]. split; [exact Hpositions | exact Hmargin].
Defined.

Lemma poller_calls_open_no_position_witness :
  let broker := broker_zerodha_backup.init default_config in
  let quotes := fun _ : string => Some 100 in
  let calls :=
    [(quotes, broker_zerodha_backup.PlaceBracketOrder "AAA" "BUY" 10 100 95 110
                (Some "AI_TRADE_DEC_AAA"%string));
     (quotes, broker_zerodha_backup.ExitPosition "AAA")] in
  let result := broker_zerodha_backup.run broker calls in
  broker_zerodha_backup.positions (fst result) = []
  /\ snd result
     = [broker_zerodha_backup.BracketPlaced
          (Some (broker_zerodha_backup.mkBracketOrder 1001 (Some 1002%Z)
                   (Some 1003%Z)));
        broker_zerodha_backup.Exited false].
Proof.
  intros broker quotes calls result.
  assert (Hempty : broker_zerodha_backup.positions broker = []) by reflexivity.
  assert (Hcalls :
    Forall (fun call => broker_zerodha_backup.from_poller (snd call)) calls)
    by (repeat constructor).
  destruct (poller_calls_open_no_position broker calls Hempty Hcalls)
    as (Hpositions & _).
  split; [exact Hpositions | vm_compute; reflexivity].
Defined.


(** ** Screening *)

Section Screening.
Import Builtins.
Import screener.

Lemma key_scored (stock : Stock) : key (scored stock) = score stock.
Proof. reflexivity. Qed.

(** What the five rules say of a stock that passes. *)
Lemma passes_iff (stock : Stock) :
  passes stock = true
  <-> (12 # 10) <= get_or 0 (volume_ratio stock)
      /\ (1 # 2) <= get_or 0 (volatility_pct stock) <= 5
      /\ 20 <= get_or 50 (rsi stock) <= 80
      /\ 100000 <= get_or 0 (current_volume stock)
      /\ (1 # 2) <= Qabs (get_or 0 (price_change_pct stock)).
Proof.
  unfold passes, passes_volume, passes_volatility, passes_rsi,
    passes_min_volume, passes_movement.
  cbn [forallb]. rewrite !andb_true_iff, !Qle_bool_iff. tauto.
Qed.

(** The least score a passing stock can have. *)
Lemma score_of_passing (stock : Stock) :
  passes stock = true -> (71 # 100) <= score stock.
Proof.
  intros H. apply passes_iff in H.
  destruct H as (Hv & (Hlo & Hhi) & _ & _ & Hm).
  unfold score, min.
  destruct (Qlt_le_dec 3 (get_or 0 (volume_ratio stock)));
    destruct (Qlt_le_dec 3 (get_or 0 (volatility_pct stock)));
    destruct (get_or false (above_vwap stock)); lra.
Qed.

Lemma apply_screening_filters_in (stocks : list Stock) (s : Stock) :
  In s (apply_screening_filters stocks)
  <-> exists c : Stock, In c stocks /\ passes c = true /\ s = scored c.
Proof.
  induction stocks as [| stock rest IH]; cbn [apply_screening_filters In].
  - split; [intros [] | intros (c & [] & _)].
  - destruct (passes stock) eqn:Hp; cbn [In]; rewrite IH; split.
    + intros [<- | (c & Hc & Hpc & ->)];
        [exists stock | exists c]; auto.
    + intros (c & [<- | Hc] & Hpc & ->); [left; reflexivity |].
      right. exists c. auto.
    + intros (c & Hc & Hpc & ->). exists c. auto.
    + intros (c & [<- | Hc] & Hpc & ->); [congruence |].
      exists c. auto.
Qed.

Lemma apply_screening_filters_length (stocks : list Stock) :
  List.length (apply_screening_filters stocks)
  = List.length (filter passes stocks).
Proof.
  induction stocks as [| stock rest IH]; [reflexivity |].
  cbn [apply_screening_filters filter].
  destruct (passes stock); cbn [List.length]; rewrite IH; reflexivity.
Qed.

Lemma insert_in (stock x : Stock) (sorted : list Stock) :
  In x (insert stock sorted) <-> x = stock \/ In x sorted.
Proof.
  induction sorted as [| other rest IH]; cbn [insert In].
  - intuition congruence.
  - destruct (Qle_bool (key other) (key stock)); cbn [In].
    + intuition congruence.
    + rewrite IH. intuition congruence.
Qed.

Lemma insert_length (stock : Stock) (sorted : list Stock) :
  List.length (insert stock sorted) = S (List.length sorted).
Proof.
  induction sorted as [| other rest IH]; [reflexivity |].
  cbn [insert]. destruct (Qle_bool _ _); cbn [List.length];
    [reflexivity | rewrite IH; reflexivity].
Qed.

Lemma insert_descending (stock : Stock) (sorted : list Stock) :
  descending sorted -> descending (insert stock sorted).
Proof.
  induction sorted as [| other rest IH]; cbn [insert descending].
  - intros _. split; [intros other [] | exact I].
  - intros (Hhead & Hrest).
    destruct (Qle_bool (key other) (key stock)) eqn:E.
    + apply Qle_bool_iff in E. cbn [descending]. split; [| split; assumption].
      intros y [<- | Hy]; [exact E |].
      apply Qle_trans with (key other); [apply Hhead; exact Hy | exact E].
    + apply Qle_bool_false in E. cbn [descending]. split; [| apply IH; exact Hrest].
      intros y Hy. apply insert_in in Hy. destruct Hy as [-> | Hy];
        [lra | apply Hhead; exact Hy].
Qed.

Lemma sort_in (stocks : list Stock) (x : Stock) :
  In x (sort stocks) <-> In x stocks.
Proof.
  induction stocks as [| stock rest IH]; cbn [sort In]; [tauto |].
  rewrite insert_in, IH. intuition congruence.
Qed.

Lemma sort_length (stocks : list Stock) :
  List.length (sort stocks) = List.length stocks.
Proof.
  induction stocks as [| stock rest IH]; [reflexivity |].
  cbn [sort]. rewrite insert_length, IH. reflexivity.
Qed.

Lemma sort_descending (stocks : list Stock) : descending (sort stocks).
Proof.
  induction stocks as [| stock rest IH]; [exact I |].
  cbn [sort]. apply insert_descending. exact IH.
Qed.

Lemma in_firstn {A : Type} (n : nat) (xs : list A) (x : A) :
  In x (firstn n xs) -> In x xs.
Proof.
  intros H. rewrite <- (firstn_skipn n xs). apply in_or_app. left. exact H.
Qed.

(** A cut of a descending list: descending, and ahead of what it drops. *)
Lemma firstn_descending (n : nat) (stocks : list Stock) :
  descending stocks ->
  descending (firstn n stocks)
  /\ forall x y, In x (firstn n stocks) -> In y (skipn n stocks) ->
                 key y <= key x.
Proof.
  revert stocks. induction n as [| n IH]; intros stocks Hd.
  - cbn. split; [exact I | intros x y []].
  - destruct stocks as [| stock rest]; [cbn; split; [exact I | intros x y []] |].
    destruct Hd as (Hhead & Hrest). destruct (IH rest Hrest) as (Hd' & Hcut).
    cbn [firstn skipn descending]. split.
    + split; [| exact Hd']. intros y Hy. apply Hhead.
      exact (in_firstn _ _ _ Hy).
    + intros x y [<- | Hx] Hy.
      * apply Hhead. rewrite <- (firstn_skipn n rest). apply in_or_app.
        right. exact Hy.
      * apply Hcut; assumption.
Qed.

(** X21. [screen_stocks] with a [max_stocks] that is not negative
    returns at most [max_stocks] stocks, all of them when no more pass
    the filters.  Each one is a screened stock that passes the five
    filters, carrying its score, which is at least 0.71; they come in
    descending order of score; and a passing stock that is left out
    scores no more than any stock returned. *)
Theorem screen_stocks_selects_top (screened_stocks : list Stock)
    (max_stocks : Z) :
  (0 <= max_stocks)%Z ->
  let top := screen_stocks screened_stocks max_stocks in
  let passing := List.length (filter passes screened_stocks) in
  List.length top = Nat.min (Z.to_nat max_stocks) passing
  /\ (forall s, In s top ->
        (71 # 100) <= key s
        /\ exists c, In c screened_stocks /\ passes c = true /\ s = scored c)
  /\ descending top
  /\ (forall c, In c screened_stocks -> passes c = true ->
        In (scored c) top \/ forall s, In s top -> score c <= key s).
Proof.
  intros Hmax. cbv zeta. unfold screen_stocks, slice_to.
  assert (Hpos : (0 <=? max_stocks)%Z = true) by (apply Z.leb_le; exact Hmax).
  rewrite Hpos.
  set (filtered := apply_screening_filters screened_stocks).
  set (n := Z.to_nat max_stocks).
  destruct (firstn_descending n (sort filtered) (sort_descending filtered))
    as (Hdesc & Hcut).
  split; [| split; [| split]].
  - rewrite length_firstn, sort_length. unfold filtered.
    rewrite apply_screening_filters_length. reflexivity.
  - intros s Hs. apply in_firstn in Hs.
    apply (proj1 (sort_in _ _)) in Hs. unfold filtered in Hs.
    apply (proj1 (apply_screening_filters_in _ _)) in Hs.
    destruct Hs as (c & Hc & Hp & ->). split.
    + rewrite key_scored. apply score_of_passing. exact Hp.
    + exists c. auto.
  - exact Hdesc.
  - intros c Hc Hp.
    assert (Hin : In (scored c) (sort filtered)).
    { apply sort_in. unfold filtered. apply apply_screening_filters_in.
      exists c. auto. }
    rewrite <- (firstn_skipn n (sort filtered)) in Hin.
    apply in_app_or in Hin. destruct Hin as [Hin | Hout]; [left; exact Hin |].
    right. intros s Hs. rewrite <- key_scored. apply Hcut; assumption.
Qed.

End Screening.

Lemma screen_stocks_selects_top_witness :
  let steady :=
    screener.mkStock "AAA" (Some 2) (Some 1) (Some 50) (Some 200000) (Some 1)
      (Some true) None in
  let quiet :=
    screener.mkStock "BBB" (Some 1) (Some 1) (Some 50) (Some 200000) (Some 1)
      (Some true) None in
  let lively :=
    screener.mkStock "CCC" (Some 3) (Some 2) (Some 40) (Some 500000)
      (Some (- (2))) (Some false) None in
  let top := screener.screen_stocks [steady; quiet; lively] 1 in
  List.length top = 1%nat
  /\ (forall s, In s top -> (71 # 100) <= screener.key s)
  /\ top = [screener.scored lively].
Proof.
  intros steady quiet lively top.
  assert (Hmax : (0 <= 1)%Z) by lia.
  destruct (screen_stocks_selects_top [steady; quiet; lively] 1 Hmax)
    as (Hlength & Heach & _).
  split; [exact Hlength |].
  split; [intros s Hs; exact (proj1 (Heach s Hs)) | vm_compute; reflexivity].
Defined.


(** ** The trade log and the risk manager *)

(** X22. For the exit of one trade, the record [log_trade_exit] writes
    and the outcome [record_trade_outcome] books are computed from the
    same four values.  With a positive entry price both fail on a zero
    quantity, and otherwise they agree on the P&L and on its percentage.
    With an entry price that is not positive the log always succeeds,
    with the same P&L formula and a percentage of 0. *)
Theorem exit_logged_as_booked (now : datetime) (rm : RiskManager)
    (symbol : string) (t : ActiveTrade) (reason : ExitReason) :
  let logged :=
    trade_logger.log_trade_exit (trade_logger.exit_details_of t)
      (trade_logger.exit_result_of t) reason in
  let booked :=
    snd (record_trade_outcome now rm symbol (entry_price t) (current_price t)
           (quantity t) (transaction_type t)) in
  (0 < entry_price t ->
     match logged, booked with
     | Some update, Some record =>
         quantity t <> 0%Z
         /\ trade_logger.pnl update = tr_pnl record
         /\ trade_logger.pnl_pct update = tr_pnl_pct record
         /\ trade_logger.exit_price update = tr_exit_price record
         /\ trade_logger.exit_quantity update = tr_quantity record
     | None, None => quantity t = 0%Z
     | _, _ => False
     end)
  /\ (entry_price t <= 0 ->
        exists update : trade_logger.ExitUpdate,
          logged = Some update
          /\ trade_logger.pnl_pct update = 0
          /\ trade_logger.pnl update
             = (if String.eqb (transaction_type t) "BUY"
                then (current_price t - entry_price t) * inject_Z (quantity t)
                else (entry_price t - current_price t) * inject_Z (quantity t))).
Proof.
  cbv zeta.
  unfold trade_logger.log_trade_exit, trade_logger.exit_details_of,
    trade_logger.exit_result_of, record_trade_outcome.
  cbn [trade_logger.entry_price trade_logger.original_transaction_type
       trade_logger.executed_price trade_logger.executed_quantity
       Builtins.get_or].
  split.
  - intros Hentry.
    destruct (Qlt_le_dec 0 (entry_price t)) as [_ | Hle]; [| lra].
    unfold Py.div.
    destruct (Qeq_dec (entry_price t * inject_Z (quantity t)) 0) as [Hz | Hnz].
    + cbn [snd].
      assert (Hq : inject_Z (quantity t) == 0) by nra.
      unfold Qeq in Hq. cbn in Hq. lia.
    + cbn [snd trade_logger.pnl trade_logger.pnl_pct trade_logger.exit_price
           trade_logger.exit_quantity tr_pnl tr_pnl_pct tr_exit_price
           tr_quantity].
      repeat split. intros Hq. apply Hnz. rewrite Hq. ring.
  - intros Hentry.
    destruct (Qlt_le_dec 0 (entry_price t)) as [Hlt | _]; [lra |].
    eexists. split; [reflexivity |]. split; reflexivity.
Qed.
